(** * ByteBite ad system: scheduling and playback engine

    A shallow embedding of the decision process ([main.py]) and of the
    playback process ([ad_display.py]), with the properties of the media
    selection engine, the control transport and the fade state machine.

    Conventions of the embedding:
    - Python [str] values are [string]s; [str.lower] and [str.strip] act on
      the ASCII range, and what depends on the white space [str.strip]
      removes is stated for ASCII text ([PyText.isascii]).
    - The scores of the selection are modelled twice. In [Selection] they
      are exact rationals ([Q]), which serves where rounding plays no part:
      which rows are scored and returned, what is read and written, and the
      sums of integers below [2^53], which floats hold exactly. In
      [SelectionFloat] they are the binary64 floats of the code, with the
      builtin [sum] of the interpreter as a parameter.
    - [datetime] values are integers counting microseconds; the timestamps
      kept in the [ad_displays] table have the resolution of one second, as
      the format ['%Y-%m-%d %H:%M:%S'] gives them.
    - The clock, the random generator and the file system are oracles: the
      k-th reading of the clock is [clock k], the k-th call of
      [random.random()] is [rng k] ([random k] in [SelectionFloat]).
    - In [Display.step] a connection handler runs to completion between two
      passes of the main loop. [Handlers] cuts the handler between the test
      of the length of the queue and the append, where another handler
      thread can run. *)

From Stdlib Require Import ZArith QArith List String Ascii Bool Lia Lqa.
From Stdlib Require Import Floats.
From ExtLib Require Import Structures.Monad Structures.MonadState Data.Monads.StateMonad.
Import ListNotations.
Import MonadNotation.

Local Open Scope monad_scope.

(** ** Python strings *)

Module PyStr.

Local Open Scope char_scope.

Definition is_upper (c : ascii) : bool :=
  ((nat_of_ascii "A" <=? nat_of_ascii c) && (nat_of_ascii c <=? nat_of_ascii "Z"))%nat.

Definition lower_char (c : ascii) : ascii :=
  if is_upper c then ascii_of_nat (nat_of_ascii c + 32) else c.

(** [s.lower()] *)
Fixpoint lower (s : string) : string :=
  match s with
  | EmptyString => EmptyString
  | String c rest => String (lower_char c) (lower rest)
  end.

(** Truth value of a [str]: the empty string is false. *)
Definition truthy (s : string) : bool :=
  match s with
  | EmptyString => false
  | String _ _ => true
  end.

(** Truth value of a nullable column: [None] and [''] are false. *)
Definition truthy_opt (o : option string) : bool :=
  match o with
  | None => false
  | Some s => truthy s
  end.

(** [s.startswith(p)] *)
Fixpoint startswith (p s : string) : bool :=
  match p, s with
  | EmptyString, _ => true
  | String a p', String b s' => Ascii.eqb a b && startswith p' s'
  | String _ _, EmptyString => false
  end.

(** [s.endswith("/")] and the like, for a one-character suffix. *)
Fixpoint endswith_char (c : ascii) (s : string) : bool :=
  match s with
  | EmptyString => false
  | String a EmptyString => Ascii.eqb a c
  | String _ rest => endswith_char c rest
  end.

(** Whether a character occurs in a string. *)
Fixpoint contains (c : ascii) (s : string) : bool :=
  match s with
  | EmptyString => false
  | String a rest => Ascii.eqb a c || contains c rest
  end.

(** The characters [str.strip()] removes, in the ASCII range. *)
Definition is_space (c : ascii) : bool :=
  let n := nat_of_ascii c in
  ((n =? 32) || ((9 <=? n) && (n <=? 13)) || ((28 <=? n) && (n <=? 31)))%nat.

Fixpoint lstrip (s : string) : string :=
  match s with
  | EmptyString => EmptyString
  | String c rest => if is_space c then lstrip rest else s
  end.

Fixpoint rstrip (s : string) : string :=
  match s with
  | EmptyString => EmptyString
  | String c rest =>
      match rstrip rest with
      | EmptyString => if is_space c then EmptyString else String c EmptyString
      | r => String c r
      end
  end.

(** [s.strip()] *)
Definition strip (s : string) : string := rstrip (lstrip s).

(** [s.split(sep)] for a one-character separator: the segments between the
    occurrences of [sep], never an empty list. *)
Fixpoint split (sep : ascii) (s : string) : list string :=
  match s with
  | EmptyString => [EmptyString]
  | String c rest =>
      if Ascii.eqb c sep then EmptyString :: split sep rest
      else match split sep rest with
           | [] => [String c EmptyString]
           | seg :: segs => String c seg :: segs
           end
  end.

(** [l[-1]] of a list of strings; Python raises on the empty list, which
    [split] never returns. *)
Definition last_segment (l : list string) : string := List.last l EmptyString.

(** [sep.join(l)] *)
Fixpoint join (sep : string) (l : list string) : string :=
  match l with
  | [] => EmptyString
  | [x] => x
  | x :: rest => (x ++ sep ++ join sep rest)%string
  end.

End PyStr.

(** ** Exact arithmetic for Python numbers *)

Module PyNum.

Definition Qlt_bool (a b : Q) : bool := negb (Qle_bool b a).

(** [max(a, b)]: the first argument unless the second is strictly greater. *)
Definition py_max (a b : Q) : Q := if Qlt_bool a b then b else a.

(** [min(a, b)]: the first argument unless the second is strictly smaller. *)
Definition py_min (a b : Q) : Q := if Qlt_bool b a then b else a.

(** [int(x)]: truncation toward zero. *)
Definition py_int (x : Q) : Z := Z.quot (Qnum x) (Zpos (Qden x)).

End PyNum.

(** ** [os.path] on POSIX ([posixpath]) *)

Module PosixPath.

Import PyStr.

Local Open Scope string_scope.

Definition sep : ascii := "/"%char.

(** [os.path.isabs] *)
Definition isabs (p : string) : bool := startswith "/" p.

(** [os.path.join(a, b)] *)
Definition join (a b : string) : string :=
  if startswith "/" b then b
  else if negb (truthy a) || endswith_char sep a then a ++ b
  else a ++ "/" ++ b.

(** The loop of [normpath] over the components; [new_comps] is kept in
    reverse, its last component first. *)
Fixpoint norm_comps (initial_slashes : nat) (comps : list string)
  (new_comps : list string) : list string :=
  match comps with
  | [] => List.rev new_comps
  | comp :: rest =>
      if String.eqb comp "" || String.eqb comp "." then
        norm_comps initial_slashes rest new_comps
      else if negb (String.eqb comp "..")
              || (Nat.eqb initial_slashes 0
                  && match new_comps with [] => true | _ :: _ => false end)
              || match new_comps with
                 | last :: _ => String.eqb last ".."
                 | [] => false
                 end
      then norm_comps initial_slashes rest (comp :: new_comps)
      else match new_comps with
           | _ :: popped => norm_comps initial_slashes rest popped
           | [] => norm_comps initial_slashes rest new_comps
           end
  end.

Fixpoint slashes (n : nat) : string :=
  match n with
  | O => ""
  | S k => String sep (slashes k)
  end.

(** [os.path.normpath] *)
Definition normpath (path : string) : string :=
  if negb (truthy path) then "."
  else
    let initial_slashes :=
      if startswith "/" path then
        if startswith "//" path && negb (startswith "///" path) then 2%nat else 1%nat
      else 0%nat in
    let comps := norm_comps initial_slashes (split sep path) [] in
    let path := PyStr.join "/" comps in
    let path := slashes initial_slashes ++ path in
    if truthy path then path else ".".

(** [os.path.abspath], with the working directory of the process. *)
Definition abspath (cwd path : string) : string :=
  normpath (if isabs path then path else join cwd path).

(** [[x for x in p.split(sep) if x]] *)
Definition components (p : string) : list string :=
  filter truthy (split sep p).

(** The length of the common prefix of two lists of components. *)
Fixpoint common_prefix_length (a b : list string) : nat :=
  match a, b with
  | x :: a', y :: b' => if String.eqb x y then S (common_prefix_length a' b') else 0
  | _, _ => 0
  end.

(** [os.path.join] applied to all the components of a nonempty list. *)
Definition join_all (l : list string) : string :=
  match l with
  | [] => ""
  | x :: rest => fold_left join rest x
  end.

(** [os.path.relpath(path, start)] for a nonempty [path]. *)
Definition relpath (cwd path start : string) : string :=
  let start_list := components (abspath cwd start) in
  let path_list := components (abspath cwd path) in
  let i := common_prefix_length start_list path_list in
  let rel_list := (repeat ".." (List.length start_list - i) ++ skipn i path_list)%list in
  match rel_list with
  | [] => "."
  | _ :: _ => join_all rel_list
  end.

End PosixPath.

(** ** The decision process ([main.py]) *)

Module Selection.

Import PyStr PyNum.

(** A row of the [media] table. The two optional columns are nullable. *)
Record MediaRow := {
  m_id : Z;
  m_customer_id : string;
  m_age_range : string;
  m_gender : string;
  m_file_path : string;
  m_media_type : string;
  m_profit_score : Z;
  m_device_id : string;
  m_mood_target : option string;
  m_time_of_day_range : option string
}.

(** A row of the [ad_displays] table; [d_timestamp] counts seconds. *)
Record AdDisplayRow := {
  d_media_id : Z;
  d_customer_id : string;
  d_timestamp : Z;
  d_device_id : string
}.

(** The mutable world of the decision process: the two tables, how many
    times the clock and the random generator were read, and the commands
    handed to the control transport, oldest first. *)
Record World := {
  media : list MediaRow;
  ad_displays : list AdDisplayRow;
  clock_reads : nat;
  rng_draws : nat;
  sent : list string
}.

(** An entry of [weighted_list]. *)
Record Weighted := {
  w_media_id : Z;
  w_customer_id : string;
  w_file_path : string;
  w_media_type : string;
  w_score : Q
}.

(** The tuple [pick_weighted_media] returns. *)
Definition AdInfo : Type := Z * string * string * string.

Definition ad_info_of (item : Weighted) : AdInfo :=
  (w_media_id item, w_customer_id item, w_file_path item, w_media_type item).

Definition ad_info_of_row (row : MediaRow) : AdInfo :=
  (m_id row, m_customer_id row, m_file_path row, m_media_type row).

Definition microseconds_per_second : Z := 1000000.

Section Engine.

(** [socket.gethostname()] *)
Variable device_id : string.
(** The k-th value of [datetime.now()], in microseconds. *)
Variable clock : nat -> Z.
(** The k-th value of [random.random()]. *)
Variable rng : nat -> Q.
(** The directory of the script and the working directory of the process. *)
Variable script_dir : string.
Variable cwd : string.
(** [os.path.exists] *)
Variable path_exists : string -> bool.

Definition media_dir : string := PosixPath.join script_dir "media".

Definition M : Type -> Type := state World.

(** [datetime.now()] *)
Definition datetime_now : M Z :=
  w <- get ;;
  put {| media := media w; ad_displays := ad_displays w;
         clock_reads := S (clock_reads w); rng_draws := rng_draws w;
         sent := sent w |} ;;
  ret (clock (clock_reads w)).

(** [random.uniform(a, b)], which is [a + (b - a) * random()]. *)
Definition random_uniform (a b : Q) : M Q :=
  w <- get ;;
  put {| media := media w; ad_displays := ad_displays w;
         clock_reads := clock_reads w; rng_draws := S (rng_draws w);
         sent := sent w |} ;;
  ret (a + (b - a) * rng (rng_draws w)).

(** [datetime.now().hour] of a reading of the clock. *)
Definition hour_of (t : Z) : Z :=
  ((t / (3600 * microseconds_per_second)) mod 24)%Z.

Definition get_time_of_day_range : M string :=
  t <- datetime_now ;;
  let current_hour := hour_of t in
  ret (if ((5 <=? current_hour) && (current_hour <? 11))%Z then "morning"%string
       else if ((11 <=? current_hour) && (current_hour <? 17))%Z then "afternoon"%string
       else if ((17 <=? current_hour) && (current_hour <? 21))%Z then "evening"%string
       else "night"%string).

(** SQL [MAX] over a column: [NULL] on no rows. *)
Fixpoint sql_max (l : list Z) : option Z :=
  match l with
  | [] => None
  | x :: rest =>
      match sql_max rest with
      | None => Some x
      | Some y => Some (Z.max x y)
      end
  end.

(** [get_last_display_time]: the latest timestamp of the asset in
    [ad_displays], in seconds, whatever the device. *)
Definition get_last_display_time (media_id : Z) : M (option Z) :=
  w <- get ;;
  ret (sql_max (map d_timestamp
                    (filter (fun d => (d_media_id d =? media_id)%Z) (ad_displays w)))).

(** The [SELECT ... FROM media WHERE age_range = ? AND gender = ? AND
    device_id = ?] of [pick_weighted_media]; text is compared byte for byte
    and the rows come in table order. *)
Definition select_candidates (age_range gender : string) : M (list MediaRow) :=
  w <- get ;;
  ret (filter (fun row => String.eqb (m_age_range row) age_range
                          && String.eqb (m_gender row) gender
                          && String.eqb (m_device_id row) device_id)
              (media w)).

(** [(datetime.now() - last_display).total_seconds() / 60.0] *)
Definition minutes_between (now last_display : Z) : Q :=
  (inject_Z (now - last_display * microseconds_per_second)
   / inject_Z microseconds_per_second) / 60.

(** The body of the scoring loop for one candidate row. *)
Definition score_candidate (current_tod mood : string) (row : MediaRow) : M Weighted :=
  let score := inject_Z (m_profit_score row) in
  (* time-of-day bonus *)
  let score :=
    if truthy_opt (m_time_of_day_range row)
       && match m_time_of_day_range row with
          | Some tod_range => String.eqb (lower tod_range) current_tod
          | None => false
          end
    then score + 10 else score in
  (* mood bonus *)
  let score :=
    if truthy_opt (m_mood_target row)
       && match m_mood_target row with
          | Some mood_target => String.eqb (lower mood) (lower mood_target)
          | None => false
          end
    then score + 1500 else score in
  last_display <- get_last_display_time (m_id row) ;;
  score <- match last_display with
           | Some t =>
               now <- datetime_now ;;
               let minutes_since_last := minutes_between now t in
               if Qlt_bool minutes_since_last 5
               then ret (score - 5)
               else
                 let bonus := py_min ((minutes_since_last - 5) * (1 # 10)) 30 in
                 ret (score + bonus)
           | None => ret score
           end ;;
  let final_score := py_max score 1 in
  ret {| w_media_id := m_id row;
         w_customer_id := m_customer_id row;
         w_file_path := m_file_path row;
         w_media_type := m_media_type row;
         w_score := final_score |}.

(** The scoring loop: [weighted_list] in the order of the candidates. *)
Fixpoint score_all (current_tod mood : string) (rows : list MediaRow)
  : M (list Weighted) :=
  match rows with
  | [] => ret []
  | row :: rest =>
      item <- score_candidate current_tod mood row ;;
      items <- score_all current_tod mood rest ;;
      ret (item :: items)
  end.

(** [sum(item['score'] for item in weighted_list)] *)
Definition total_score (l : list Weighted) : Q :=
  fold_left (fun acc item => acc + w_score item) l 0.

(** The final loop of [pick_weighted_media]: the scan with the running sum
    [upto]. *)
Fixpoint scan (r upto : Q) (l : list Weighted) : option AdInfo :=
  match l with
  | [] => None
  | item :: rest =>
      if Qle_bool r (upto + w_score item)
      then Some (ad_info_of item)
      else scan r (upto + w_score item) rest
  end.

(** The draw that ends [pick_weighted_media]: the total, one call of
    [random.uniform] and the scan. *)
Definition weighted_draw (weighted_list : list Weighted) : M (option AdInfo) :=
  let total := total_score weighted_list in
  r <- random_uniform 0 total ;;
  ret (scan r 0 weighted_list).

Definition pick_weighted_media (age_range gender mood : string) : M (option AdInfo) :=
  let age_range := lower age_range in
  let gender := lower gender in
  candidate_ads <- select_candidates age_range gender ;;
  match candidate_ads with
  | [] => ret None
  | _ :: _ =>
      current_tod <- get_time_of_day_range ;;
      weighted_list <- score_all current_tod mood candidate_ads ;;
      weighted_draw weighted_list
  end.

(** The row id [AUTOINCREMENT] gives the next row of [media]. *)
Definition next_media_id (rows : list MediaRow) : Z :=
  (1 + fold_right Z.max 0 (map m_id rows))%Z.

(** [store_media]: the path is checked against the media directory, then
    stored relative to it. The two optional columns stay [NULL]. *)
Definition store_media (customer_id age_range gender file_path media_type : string)
  (profit_score : Z) : M unit :=
  let abs_media_dir := media_dir in
  let abs_file_path := PosixPath.abspath cwd file_path in
  if negb (startswith abs_media_dir abs_file_path) then ret tt
  else
    let rel_file_path := PosixPath.relpath cwd abs_file_path abs_media_dir in
    w <- get ;;
    put {| media := media w ++ [{| m_id := next_media_id (media w);
                                   m_customer_id := customer_id;
                                   m_age_range := lower age_range;
                                   m_gender := lower gender;
                                   m_file_path := rel_file_path;
                                   m_media_type := media_type;
                                   m_profit_score := profit_score;
                                   m_device_id := device_id;
                                   m_mood_target := None;
                                   m_time_of_day_range := None |}];
           ad_displays := ad_displays w;
           clock_reads := clock_reads w; rng_draws := rng_draws w;
           sent := sent w |}.

(** [send_ad_command]: the command is handed to the control transport; a
    failure of the connection is caught and printed. *)
Definition send_ad_command (command : string) : M unit :=
  w <- get ;;
  put {| media := media w; ad_displays := ad_displays w;
         clock_reads := clock_reads w; rng_draws := rng_draws w;
         sent := sent w ++ [command] |}.

(** [log_ad_display]: the timestamp is the clock cut to whole seconds. *)
Definition log_ad_display (media_id : Z) (customer_id : string) : M unit :=
  now <- datetime_now ;;
  let timestamp := (now / microseconds_per_second)%Z in
  w <- get ;;
  put {| media := media w;
         ad_displays := ad_displays w ++ [{| d_media_id := media_id;
                                             d_customer_id := customer_id;
                                             d_timestamp := timestamp;
                                             d_device_id := device_id |}];
         clock_reads := clock_reads w; rng_draws := rng_draws w;
         sent := sent w |}.

Definition is_image_type (media_type : string) : bool :=
  existsb (String.eqb (lower media_type)) ["image/jpg"; "image/jpeg"; "image/png"]%string.

Definition is_video_type (media_type : string) : bool :=
  existsb (String.eqb (lower media_type)) ["video/mp4"; "video/avi"; "video/mov"]%string.

Definition play_media (age_range gender mood : string) : M unit :=
  ad_info <- pick_weighted_media age_range gender mood ;;
  match ad_info with
  | None => ret tt
  | Some (media_id, customer_id, rel_file_path, media_type) =>
      let abs_file_path :=
        PosixPath.abspath cwd (PosixPath.join media_dir rel_file_path) in
      if negb (path_exists abs_file_path) then ret tt
      else if is_image_type media_type then
        send_ad_command ("SHOW_IMAGE:" ++ abs_file_path) ;;
        log_ad_display media_id customer_id
      else if is_video_type media_type then
        send_ad_command ("SHOW_VIDEO:" ++ abs_file_path) ;;
        log_ad_display media_id customer_id
      else ret tt
  end.

(** A path lies inside a directory when it is the directory or continues
    it after a separator. *)
Definition inside_dir (dir path : string) : bool :=
  String.eqb path dir || startswith (dir ++ "/") path.

(** *** Notions used to state the properties of the engine *)

(** The rows the query of [pick_weighted_media] keeps for an event. *)
Definition eligible (age_range gender : string) (w : World) : list MediaRow :=
  fst (runState (select_candidates (lower age_range) (lower gender)) w).

(** What [get_last_display_time] answers in a world. *)
Definition last_display_in (w : World) (media_id : Z) : option Z :=
  fst (runState (get_last_display_time media_id) w).

(** The final score the scoring loop gives a row in a world. *)
Definition final_score_in (current_tod mood : string) (row : MediaRow) (w : World) : Q :=
  w_score (fst (runState (score_candidate current_tod mood row) w)).

(** The scored list the scoring loop builds from the rows in a world. *)
Definition scored_in (current_tod mood : string) (rows : list MediaRow) (w : World)
  : list Weighted :=
  fst (runState (score_all current_tod mood rows) w).

(** The sum of the final scores of a list. *)
Definition sum_scores (l : list Weighted) : Q :=
  fold_right (fun item acc => w_score item + acc) 0 l.

(** The cumulative sum up to and including position [i]. *)
Definition cumulative (l : list Weighted) (i : nat) : Q :=
  sum_scores (firstn (S i) l).

(** Roulette-wheel choice: position [i] is the first whose cumulative sum
    reaches [r]. *)
Definition is_roulette_choice (l : list Weighted) (r : Q) (i : nat) : Prop :=
  r <= cumulative l i /\ forall j : nat, (j < i)%nat -> cumulative l j < r.

End Engine.

End Selection.

(** ** The playback process ([ad_display.py]) *)

Module Display.

Import PyStr PyNum.

Definition INITIAL_WIDTH : Z := 1280.
Definition INITIAL_HEIGHT : Z := 720.
Definition FADE_IN_DURATION : Q := 1.
Definition HOLD_DURATION : Q := 2.
Definition FADE_OUT_DURATION : Q := 1.
Definition MAX_QUEUE_SIZE : nat := 5.

(** [class AdState] *)
Inductive AdState : Type := IDLE | FADING_IN | HOLDING | FADING_OUT.

(** A [VideoPlayer] object: [vp_open] says whether its capture stream is
    open, that is, opened and not yet released. *)
Record VideoPlayer := {
  vp_path : string;
  vp_width : Z;
  vp_height : Z;
  vp_open : bool
}.

(** What [current_media] refers to: a scaled image surface, or a
    [VideoPlayer] object of the heap, shared with [video_player]. *)
Inductive MediaRef : Type :=
| Surface (path : string) (width height : Z)
| Player (handle : nat).

(** What the process does to the outside, in order. *)
Inductive Effect : Type :=
| CapRelease (handle : nat)   (* [cap.release()] of a player *)
| PygameQuit                  (* [pygame.quit()] *)
| HandlerExit (code : Z)      (* [sys.exit] in a connection handler thread *)
| ProcessExit (code : Z)      (* [sys.exit] in the main thread *)
| DisplayUpdate (a : Z)       (* [pygame.display.update()] of a frame *)
| PygameError.                (* [pygame.error] not caught in the main thread *)

Inductive ProcStatus : Type := Alive | Exited | Crashed.

(** The module-level variables, the heap of [VideoPlayer] objects
    ([players], a handle is a position), whether pygame is initialised, the
    state of the process and what it did so far. *)
Record Display := {
  ad_queue : list (string * string);
  current_media : option MediaRef;
  current_image_path : option string;
  current_stage : AdState;
  stage_start_time : Q;
  alpha : Z;
  is_video : bool;
  video_player : option nat;
  window_width : Z;
  window_height : Z;
  players : list VideoPlayer;
  pygame_up : bool;
  running : bool;
  proc : ProcStatus;
  trace : list Effect
}.

Definition set_ad_queue (v : list (string * string)) (s : Display) : Display :=
  {| ad_queue := v;
     current_media := current_media s;
     current_image_path := current_image_path s;
     current_stage := current_stage s;
     stage_start_time := stage_start_time s;
     alpha := alpha s;
     is_video := is_video s;
     video_player := video_player s;
     window_width := window_width s;
     window_height := window_height s;
     players := players s;
     pygame_up := pygame_up s;
     running := running s;
     proc := proc s;
     trace := trace s |}.

Definition set_current_media (v : option MediaRef) (s : Display) : Display :=
  {| ad_queue := ad_queue s;
     current_media := v;
     current_image_path := current_image_path s;
     current_stage := current_stage s;
     stage_start_time := stage_start_time s;
     alpha := alpha s;
     is_video := is_video s;
     video_player := video_player s;
     window_width := window_width s;
     window_height := window_height s;
     players := players s;
     pygame_up := pygame_up s;
     running := running s;
     proc := proc s;
     trace := trace s |}.

Definition set_current_image_path (v : option string) (s : Display) : Display :=
  {| ad_queue := ad_queue s;
     current_media := current_media s;
     current_image_path := v;
     current_stage := current_stage s;
     stage_start_time := stage_start_time s;
     alpha := alpha s;
     is_video := is_video s;
     video_player := video_player s;
     window_width := window_width s;
     window_height := window_height s;
     players := players s;
     pygame_up := pygame_up s;
     running := running s;
     proc := proc s;
     trace := trace s |}.

Definition set_current_stage (v : AdState) (s : Display) : Display :=
  {| ad_queue := ad_queue s;
     current_media := current_media s;
     current_image_path := current_image_path s;
     current_stage := v;
     stage_start_time := stage_start_time s;
     alpha := alpha s;
     is_video := is_video s;
     video_player := video_player s;
     window_width := window_width s;
     window_height := window_height s;
     players := players s;
     pygame_up := pygame_up s;
     running := running s;
     proc := proc s;
     trace := trace s |}.

Definition set_stage_start_time (v : Q) (s : Display) : Display :=
  {| ad_queue := ad_queue s;
     current_media := current_media s;
     current_image_path := current_image_path s;
     current_stage := current_stage s;
     stage_start_time := v;
     alpha := alpha s;
     is_video := is_video s;
     video_player := video_player s;
     window_width := window_width s;
     window_height := window_height s;
     players := players s;
     pygame_up := pygame_up s;
     running := running s;
     proc := proc s;
     trace := trace s |}.

Definition set_alpha (v : Z) (s : Display) : Display :=
  {| ad_queue := ad_queue s;
     current_media := current_media s;
     current_image_path := current_image_path s;
     current_stage := current_stage s;
     stage_start_time := stage_start_time s;
     alpha := v;
     is_video := is_video s;
     video_player := video_player s;
     window_width := window_width s;
     window_height := window_height s;
     players := players s;
     pygame_up := pygame_up s;
     running := running s;
     proc := proc s;
     trace := trace s |}.

Definition set_is_video (v : bool) (s : Display) : Display :=
  {| ad_queue := ad_queue s;
     current_media := current_media s;
     current_image_path := current_image_path s;
     current_stage := current_stage s;
     stage_start_time := stage_start_time s;
     alpha := alpha s;
     is_video := v;
     video_player := video_player s;
     window_width := window_width s;
     window_height := window_height s;
     players := players s;
     pygame_up := pygame_up s;
     running := running s;
     proc := proc s;
     trace := trace s |}.

Definition set_video_player (v : option nat) (s : Display) : Display :=
  {| ad_queue := ad_queue s;
     current_media := current_media s;
     current_image_path := current_image_path s;
     current_stage := current_stage s;
     stage_start_time := stage_start_time s;
     alpha := alpha s;
     is_video := is_video s;
     video_player := v;
     window_width := window_width s;
     window_height := window_height s;
     players := players s;
     pygame_up := pygame_up s;
     running := running s;
     proc := proc s;
     trace := trace s |}.

Definition set_window_width (v : Z) (s : Display) : Display :=
  {| ad_queue := ad_queue s;
     current_media := current_media s;
     current_image_path := current_image_path s;
     current_stage := current_stage s;
     stage_start_time := stage_start_time s;
     alpha := alpha s;
     is_video := is_video s;
     video_player := video_player s;
     window_width := v;
     window_height := window_height s;
     players := players s;
     pygame_up := pygame_up s;
     running := running s;
     proc := proc s;
     trace := trace s |}.

Definition set_window_height (v : Z) (s : Display) : Display :=
  {| ad_queue := ad_queue s;
     current_media := current_media s;
     current_image_path := current_image_path s;
     current_stage := current_stage s;
     stage_start_time := stage_start_time s;
     alpha := alpha s;
     is_video := is_video s;
     video_player := video_player s;
     window_width := window_width s;
     window_height := v;
     players := players s;
     pygame_up := pygame_up s;
     running := running s;
     proc := proc s;
     trace := trace s |}.

Definition set_players (v : list VideoPlayer) (s : Display) : Display :=
  {| ad_queue := ad_queue s;
     current_media := current_media s;
     current_image_path := current_image_path s;
     current_stage := current_stage s;
     stage_start_time := stage_start_time s;
     alpha := alpha s;
     is_video := is_video s;
     video_player := video_player s;
     window_width := window_width s;
     window_height := window_height s;
     players := v;
     pygame_up := pygame_up s;
     running := running s;
     proc := proc s;
     trace := trace s |}.

Definition set_pygame_up (v : bool) (s : Display) : Display :=
  {| ad_queue := ad_queue s;
     current_media := current_media s;
     current_image_path := current_image_path s;
     current_stage := current_stage s;
     stage_start_time := stage_start_time s;
     alpha := alpha s;
     is_video := is_video s;
     video_player := video_player s;
     window_width := window_width s;
     window_height := window_height s;
     players := players s;
     pygame_up := v;
     running := running s;
     proc := proc s;
     trace := trace s |}.

Definition set_running (v : bool) (s : Display) : Display :=
  {| ad_queue := ad_queue s;
     current_media := current_media s;
     current_image_path := current_image_path s;
     current_stage := current_stage s;
     stage_start_time := stage_start_time s;
     alpha := alpha s;
     is_video := is_video s;
     video_player := video_player s;
     window_width := window_width s;
     window_height := window_height s;
     players := players s;
     pygame_up := pygame_up s;
     running := v;
     proc := proc s;
     trace := trace s |}.

Definition set_proc (v : ProcStatus) (s : Display) : Display :=
  {| ad_queue := ad_queue s;
     current_media := current_media s;
     current_image_path := current_image_path s;
     current_stage := current_stage s;
     stage_start_time := stage_start_time s;
     alpha := alpha s;
     is_video := is_video s;
     video_player := video_player s;
     window_width := window_width s;
     window_height := window_height s;
     players := players s;
     pygame_up := pygame_up s;
     running := running s;
     proc := v;
     trace := trace s |}.

Definition set_trace (v : list Effect) (s : Display) : Display :=
  {| ad_queue := ad_queue s;
     current_media := current_media s;
     current_image_path := current_image_path s;
     current_stage := current_stage s;
     stage_start_time := stage_start_time s;
     alpha := alpha s;
     is_video := is_video s;
     video_player := video_player s;
     window_width := window_width s;
     window_height := window_height s;
     players := players s;
     pygame_up := pygame_up s;
     running := running s;
     proc := proc s;
     trace := v |}.

Definition log (e : Effect) (s : Display) : Display :=
  set_trace (trace s ++ [e]) s.

(** The variables as the module initialises them. *)
Definition initial : Display :=
  {| ad_queue := [];
     current_media := None;
     current_image_path := None;
     current_stage := IDLE;
     stage_start_time := 0;
     alpha := 0;
     is_video := false;
     video_player := None;
     window_width := INITIAL_WIDTH;
     window_height := INITIAL_HEIGHT;
     players := [];
     pygame_up := true;
     running := true;
     proc := Alive;
     trace := [] |}.

Fixpoint update_player (h : nat) (f : VideoPlayer -> VideoPlayer)
  (l : list VideoPlayer) : list VideoPlayer :=
  match l, h with
  | [], _ => []
  | p :: rest, O => f p :: rest
  | p :: rest, S k => p :: update_player k f rest
  end.

(** [VideoPlayer.release] *)
Definition release (h : nat) (s : Display) : Display :=
  log (CapRelease h)
      (set_players
         (update_player h (fun p => {| vp_path := vp_path p; vp_width := vp_width p;
                                       vp_height := vp_height p; vp_open := false |})
                        (players s)) s).

(** The capture streams that are open. *)
Definition open_players (s : Display) : list nat :=
  filter (fun h => match nth_error (players s) h with
                   | Some p => vp_open p
                   | None => false
                   end)
         (seq 0 (List.length (players s))).

(** *** Networking *)

(** [handle_client_connection]: [raw] is what [conn.recv(2048).decode()]
    gives, [is_file] what [os.path.isfile] answers for the path. The
    handler runs in a thread of its own: its [sys.exit] ends that thread. *)
Definition handle_client_connection (raw : string) (is_file : bool) (s : Display)
  : Display :=
  let data := strip raw in
  if negb (truthy data) then s
  else if startswith "SHOW_IMAGE:" data || startswith "SHOW_VIDEO:" data then
    let path := strip (last_segment (split ":" data)) in
    let media_type := if startswith "SHOW_IMAGE:" data then "image"%string
                      else "video"%string in
    if is_file then
      if (List.length (ad_queue s) <? MAX_QUEUE_SIZE)%nat
      then set_ad_queue (ad_queue s ++ [(path, media_type)]) s
      else s
    else s
  else if String.eqb data "QUIT" then
    log (HandlerExit 0) (log PygameQuit (set_pygame_up false s))
  else s.

(** The path [handle_client_connection] takes from a command. *)
Definition command_path (raw : string) : string :=
  let data := strip raw in
  strip (last_segment (split ":" data)).

(** *** Media handling *)

(** The events of pygame the main loop looks at. *)
Inductive PgEvent : Type :=
| PgQuit                          (* [pygame.QUIT] *)
| PgKeyDown (key : Z)             (* [pygame.KEYDOWN] *)
| PgVideoResize (w h : Z)         (* [pygame.VIDEORESIZE] *)
| PgOther.

(** What one pass of the main loop reads from outside: the pygame events,
    the first and the second reading of [time.time()], whether a load of an
    image or an opening of a video succeeds, and the position and the frame
    count the capture stream reports. *)
Record TickInput := {
  events_in : list PgEvent;
  t_first : Q;
  t_second : Q;
  load_ok : bool;
  pos_frames : Q;
  frame_count : Q
}.

Definition begin_fade_in (now : Q) (s : Display) : Display :=
  set_alpha 0 (set_stage_start_time now (set_current_stage FADING_IN s)).

Definition start_new_ad (media_path media_type : string) (now : Q) (ok : bool)
  (s : Display) : Display :=
  (* If there was a video playing, release it *)
  let s := match is_video s, video_player s with
           | true, Some h => set_video_player None (release h s)
           | _, _ => s
           end in
  if String.eqb media_type "image" then
    let s := set_current_image_path (Some media_path) s in
    if ok then
      begin_fade_in now
        (set_is_video false
           (set_current_media
              (Some (Surface media_path (window_width s) (window_height s))) s))
    else set_is_video false (set_current_media None s)
  else if String.eqb media_type "video" then
    let s := set_current_image_path None s in
    if ok then
      let h := List.length (players s) in
      let s := set_players (players s ++ [{| vp_path := media_path;
                                             vp_width := window_width s;
                                             vp_height := window_height s;
                                             vp_open := true |}]) s in
      begin_fade_in now
        (set_is_video true
           (set_current_media (Some (Player h)) (set_video_player (Some h) s)))
    else set_is_video false (set_current_media None s)
  else begin_fade_in now s.

(** [update_fade]; the boolean says whether it returned ([true]) or raised
    ([false]: [video_player] is [None] where its capture is asked, or
    [current_media] is an image surface where it is released). *)
Definition update_fade (i : TickInput) (s : Display) : Display * bool :=
  match current_stage s with
  | IDLE =>
      match ad_queue s with
      | (path, media_type) :: rest =>
          (start_new_ad path media_type (t_first i) (load_ok i) (set_ad_queue rest s),
           true)
      | [] => (s, true)
      end
  | FADING_IN =>
      let now := t_first i in
      let elapsed := now - stage_start_time s in
      let s := set_alpha (Z.min 255 (py_int (255 * elapsed / FADE_IN_DURATION))) s in
      if Qle_bool FADE_IN_DURATION elapsed
      then (set_stage_start_time now (set_current_stage HOLDING s), true)
      else (s, true)
  | HOLDING =>
      let now := t_first i in
      let elapsed := now - stage_start_time s in
      if is_video s then
        match video_player s with
        | None => (s, false)
        | Some _ =>
            (* Check if video has reached its last frame *)
            if Qle_bool (frame_count i - 1) (pos_frames i)
            then (set_stage_start_time now (set_current_stage FADING_OUT s), true)
            else (s, true)
        end
      else
        (* For images, hold a fixed duration *)
        if Qle_bool HOLD_DURATION elapsed
        then (set_stage_start_time now (set_current_stage FADING_OUT s), true)
        else (s, true)
  | FADING_OUT =>
      let now := t_first i in
      let elapsed := now - stage_start_time s in
      let s := set_alpha (Z.max 0 (255 - py_int (255 * elapsed / FADE_OUT_DURATION))) s in
      if Qle_bool FADE_OUT_DURATION elapsed then
        let s := set_stage_start_time (t_second i) (set_current_stage IDLE s) in
        match is_video s, current_media s with
        | true, Some (Player h) => (set_current_media None (release h s), true)
        | true, Some (Surface _ _ _) => (s, false)
        | _, _ => (set_current_media None s, true)
        end
      else (s, true)
  end.

(** [render]: one frame goes to the display. *)
Definition render (s : Display) : Display := log (DisplayUpdate (alpha s)) s.

(** *** Main loop *)

Definition K_ESCAPE : Z := 27.

(** The body of the loop over [pygame.event.get()]. *)
Definition handle_event (ok : bool) (s : Display) (ev : PgEvent) : Display :=
  match ev with
  | PgQuit => set_running false s
  | PgKeyDown key => if (key =? K_ESCAPE)%Z then set_running false s else s
  | PgOther => s
  | PgVideoResize w h =>
      let s := set_window_height h (set_window_width w s) in
      (* If we're showing an image, re-load and scale it *)
      let s := match current_image_path s, is_video s with
               | Some p, false =>
                   if truthy p && ok
                   then set_current_media (Some (Surface p w h)) s
                   else s
               | _, _ => s
               end in
      (* If it's a video, update the video player's dimensions *)
      match is_video s, video_player s with
      | true, Some k =>
          set_players
            (update_player k (fun p => {| vp_path := vp_path p; vp_width := w;
                                          vp_height := h; vp_open := vp_open p |})
                           (players s)) s
      | _, _ => s
      end
  end.

(** What follows the [while running] loop. *)
Definition main_loop_exit (s : Display) : Display :=
  let s := match is_video s, video_player s with
           | true, Some h => release h s
           | _, _ => s
           end in
  set_proc Exited (log (ProcessExit 0) (log PygameQuit (set_pygame_up false s))).

(** One pass of the [while running] loop, with the exit that follows it
    when [running] became false. Once [pygame.quit()] was called, the poll
    of the events raises [pygame.error], which nothing catches. *)
Definition main_loop_pass (i : TickInput) (s : Display) : Display :=
  if negb (pygame_up s) then set_proc Crashed (log PygameError s)
  else
    let s := fold_left (handle_event (load_ok i)) (events_in i) s in
    match update_fade i s with
    | (s, false) => set_proc Crashed s
    | (s, true) =>
        let s := render s in
        if running s then s else main_loop_exit s
    end.

(** *** The process as a whole *)

(** What happens to the process: a pass of the main loop, or a command
    handled by a connection thread. *)
Inductive Event : Type :=
| Tick (i : TickInput)
| Command (raw : string) (is_file : bool).

Definition step (s : Display) (e : Event) : Display :=
  match proc s with
  | Alive =>
      match e with
      | Tick i => main_loop_pass i s
      | Command raw is_file => handle_client_connection raw is_file s
      end
  | _ => s
  end.

Definition run (es : list Event) (s : Display) : Display := fold_left step es s.

(** The successor of a stage on the cycle. *)
Definition next_stage (st : AdState) : AdState :=
  match st with
  | IDLE => FADING_IN
  | FADING_IN => HOLDING
  | HOLDING => FADING_OUT
  | FADING_OUT => IDLE
  end.

(** The edges of the cycle, and staying in place. *)
Definition on_cycle (before after : AdState) : Prop :=
  after = before \/ after = next_stage before.

(** What holds of every state the process reaches: the queue has image and
    video entries only, and while [is_video] is set, [video_player] is a
    player and [current_media] is that player or nothing. *)
Definition known_type (entry : string * string) : Prop :=
  snd entry = "image"%string \/ snd entry = "video"%string.

Definition well_formed (s : Display) : Prop :=
  Forall known_type (ad_queue s)
  /\ (is_video s = true ->
      exists h : nat,
        video_player s = Some h
        /\ (current_media s = Some (Player h) \/ current_media s = None)).

(** *** What the control protocol asks of a command *)

(** The text after the first occurrence of [sep], if there is one. *)
Fixpoint after_first (sep : ascii) (s : string) : option string :=
  match s with
  | EmptyString => None
  | String c rest => if Ascii.eqb c sep then Some rest else after_first sep rest
  end.

(** The payload of a command: everything after the first colon. *)
Definition payload_after_first_colon (data : string) : string :=
  match after_first ":" data with
  | Some p => p
  | None => EmptyString
  end.

End Display.

(** ** Concrete catalogs, histories and sessions *)

Module Examples.

Import Selection Display.

Local Open Scope string_scope.

Definition kiosk : string := "kiosk1".
Definition kiosk_dir : string := "/opt/kiosk".

(** A clock that always reads one minute past the origin. *)
Definition one_minute : nat -> Z := fun _ => 60000000%Z.

(** A random generator that always answers one half. *)
Definition one_half : nat -> Q := fun _ => 1 # 2.

Definition every_path_exists : string -> bool := fun _ => true.

Definition row (id profit : Z) (path : string) : MediaRow :=
  {| m_id := id; m_customer_id := "acme"; m_age_range := "18-29";
     m_gender := "female"; m_file_path := path; m_media_type := "image/jpg";
     m_profit_score := profit; m_device_id := kiosk;
     m_mood_target := None; m_time_of_day_range := None |}.

Definition shown (id seconds : Z) : AdDisplayRow :=
  {| d_media_id := id; d_customer_id := "acme"; d_timestamp := seconds;
     d_device_id := kiosk |}.

Definition world (rows : list MediaRow) (history : list AdDisplayRow) : World :=
  {| media := rows; ad_displays := history; clock_reads := 0; rng_draws := 0;
     sent := [] |}.

(** Two assets of profit score 1, the first shown one minute ago. *)
Definition floor_world : World :=
  world [row 1 1 "a.jpg"; row 2 1 "b.jpg"] [shown 1 0].

(** Two assets of profit score 10, the first shown one minute ago. *)
Definition rotation_world : World :=
  world [row 1 10 "a.jpg"; row 2 10 "b.jpg"] [shown 1 0].

Definition scored (id : Z) (score : Q) : Weighted :=
  {| w_media_id := id; w_customer_id := "acme"; w_file_path := "a.jpg";
     w_media_type := "image/jpg"; w_score := score |}.

(** An empty catalog, then [store_media] called with a file of a
    directory next to the media directory whose name continues its name. *)
Definition stored_outside : World :=
  snd (runState
         (store_media kiosk kiosk_dir kiosk_dir "acme" "18-29" "Female"
                      "/opt/kiosk/media_private/ad.jpg" "image/jpg" 5)
         (world [] [])).

Definition played_outside : World :=
  snd (runState
         (play_media kiosk one_minute one_half kiosk_dir kiosk_dir every_path_exists
                     "18-29" "Female" "happy")
         stored_outside).

Definition quiet (t pos : Q) : TickInput :=
  {| events_in := []; t_first := t; t_second := t; load_ok := true;
     pos_frames := pos; frame_count := 100 |}.

Definition window_closed (t pos : Q) : TickInput :=
  {| events_in := [PgQuit]; t_first := t; t_second := t; load_ok := true;
     pos_frames := pos; frame_count := 100 |}.

(** A video session in the Holding stage: the command arrives, the first
    pass starts the fade-in, the second ends it. *)
Definition holding_video : Display :=
  run [Command "SHOW_VIDEO:/media/v.mp4" true; Tick (quiet 10 0); Tick (quiet 11 5)]
      initial.

(** A queue that holds five entries. *)
Definition full_queue : Display :=
  run (repeat (Command "SHOW_IMAGE:/media/a.jpg" true) 5) initial.

End Examples.

(** ** More of the decision process ([main.py]) *)

Module SelectionMore.

Import PyStr PyNum Selection.

Local Open Scope string_scope.

Definition frame_skip : Z := 5.

(** [analysis_queue = queue.Queue(maxsize=5)] *)
Definition ANALYSIS_QUEUE_SIZE : nat := 5.

(** The hand-off of a detected face to the analysis thread in the capture
    loop: every [frame_skip]-th frame, and when the queue is full its oldest
    entry is discarded first. *)
Definition hand_off {A : Type} (frame_count : Z) (item : A) (analysis_queue : list A)
  : list A :=
  if (frame_count mod frame_skip =? 0)%Z then
    let q := if (ANALYSIS_QUEUE_SIZE <=? List.length analysis_queue)%nat
             then List.tl analysis_queue else analysis_queue in
    (q ++ [item])%list
  else analysis_queue.

Section Engine.

Variable device_id : string.
Variable clock : nat -> Z.

(** *** Notions used to state the properties *)

(** Whether the time-of-day target of a row is the current bucket. *)
Definition tod_matches (current_tod : string) (row : MediaRow) : bool :=
  truthy_opt (m_time_of_day_range row)
  && match m_time_of_day_range row with
     | Some tod_range => String.eqb (lower tod_range) current_tod
     | None => false
     end.

(** Whether the mood target of a row is the mood of the event. *)
Definition mood_matches (mood : string) (row : MediaRow) : bool :=
  truthy_opt (m_mood_target row)
  && match m_mood_target row with
     | Some mood_target => String.eqb (lower mood) (lower mood_target)
     | None => false
     end.

(** The score of a row before the recency term. *)
Definition base_score (current_tod mood : string) (row : MediaRow) : Q :=
  let score := inject_Z (m_profit_score row) in
  let score := if tod_matches current_tod row then score + 10 else score in
  if mood_matches mood row then score + 1500 else score.

(** The score of a row with the recency term, before the floor: [last] is
    the time of the last display, [now] the reading of the clock. *)
Definition with_recency (score : Q) (last : option Z) (now : Z) : Q :=
  match last with
  | Some t =>
      if Qlt_bool (minutes_between now t) 5 then score - 5
      else score + py_min ((minutes_between now t - 5) * (1 # 10)) 30
  | None => score
  end.

(** Whether the asset of a row was ever displayed. *)
Definition has_history (w : World) (row : MediaRow) : bool :=
  match last_display_in w (m_id row) with
  | Some _ => true
  | None => false
  end.

(** A world after [k] more readings of the clock. *)
Definition after_clock_reads (k : nat) (w : World) : World :=
  {| media := media w; ad_displays := ad_displays w;
     clock_reads := k + clock_reads w; rng_draws := rng_draws w;
     sent := sent w |}.

(** A world after one more reading of the random generator. *)
Definition after_rng_draw (w : World) : World :=
  {| media := media w; ad_displays := ad_displays w;
     clock_reads := clock_reads w; rng_draws := S (rng_draws w);
     sent := sent w |}.

(** How many of the rows have a display in the history. *)
Definition history_count (w : World) (rows : list MediaRow) : nat :=
  List.length (filter (has_history w) rows).

(** The timestamps of the displays of an asset. *)
Definition display_times (w : World) (media_id : Z) : list Z :=
  map d_timestamp (filter (fun d => (d_media_id d =? media_id)%Z) (ad_displays w)).

End Engine.

End SelectionMore.

(** ** More of the playback process ([ad_display.py]) *)

Module DisplayMore.

Import PyStr PyNum Display.

(** The size [VideoPlayer.get_frame] scales a frame to: the frame of
    [frame_w] by [frame_h] keeps its aspect ratio inside the window. *)
Definition letterbox (frame_w frame_h : Q) (width height : Z) : Z * Z :=
  let video_aspect := frame_w / frame_h in
  let screen_aspect := inject_Z width / inject_Z height in
  if Qlt_bool screen_aspect video_aspect then
    (width, py_int (inject_Z width / video_aspect))
  else
    (py_int (inject_Z height * video_aspect), height).

(** Where [get_frame] puts the scaled frame on the window-sized surface. *)
Definition blit_offset (new_size : Z * Z) (width height : Z) : Z * Z :=
  (((width - fst new_size) / 2)%Z, ((height - snd new_size) / 2)%Z).

(** The alpha of the session is a valid opacity. *)
Definition alpha_in_range (s : Display) : Prop :=
  (0 <= alpha s <= 255)%Z.

(** Every frame that went to the display had a valid opacity. *)
Definition frames_in_range (s : Display) : Prop :=
  forall a : Z, In (DisplayUpdate a) (trace s) -> (0 <= a <= 255)%Z.

(** The second state did what the first had done and then some more,
    none of it a frame sent to the display. *)
Definition extends_without_frames (s s' : Display) : Prop :=
  exists l : list Effect,
    trace s' = (trace s ++ l)%list /\ forall a : Z, ~ In (DisplayUpdate a) l.

(** The readings of [time.time()] do not go backwards along a run: every
    pass reads a time at or after [latest], and its second reading is not
    before its first. *)
Fixpoint times_ordered (latest : Q) (es : list Event) : Prop :=
  match es with
  | [] => True
  | Tick i :: rest =>
      latest <= t_first i /\ t_first i <= t_second i /\ times_ordered (t_second i) rest
  | Command _ _ :: rest => times_ordered latest rest
  end.

(** Every capture stream that is open belongs to the player of the running
    video session. *)
Definition only_current_open (s : Display) : Prop :=
  forall (h : nat) (p : VideoPlayer),
    nth_error (players s) h = Some p ->
    vp_open p = true ->
    is_video s = true /\ video_player s = Some h.

(** No capture stream is open. *)
Definition all_closed (s : Display) : Prop :=
  forall (k : nat) (p : VideoPlayer),
    nth_error (players s) k = Some p -> vp_open p = false.

(** Outside the Idle stage, a video session shows the player it holds. *)
Definition session_consistent (s : Display) : Prop :=
  current_stage s <> IDLE ->
  is_video s = true ->
  exists h : nat, video_player s = Some h /\ current_media s = Some (Player h).

(** In the Idle stage no capture stream is open. *)
Definition idle_closed (s : Display) : Prop :=
  current_stage s = IDLE -> all_closed s.

(** The player of a video session has the size of the window. *)
Definition player_fits_window (s : Display) : Prop :=
  forall h : nat,
    is_video s = true ->
    video_player s = Some h ->
    exists p : VideoPlayer,
      nth_error (players s) h = Some p
      /\ vp_width p = window_width s /\ vp_height p = window_height s.

End DisplayMore.

(** ** Saved frames ([save_frame] of [main.py]) *)

Module Frames.

Import PyStr PyNum Selection.

(** A row of the [saved_frames] table. The name of the file is made of the
    identity and of a reading of the clock cut to seconds, [f_file_stamp];
    [f_timestamp] is the timestamp column, in seconds. *)
Record SavedFrame := {
  f_unique_id : string;
  f_file_stamp : Z;
  f_timestamp : Z
}.

(** The table, how many times the clock was read, and the files
    [cv2.imwrite] wrote, as identity and stamp. *)
Record Store := {
  saved_frames : list SavedFrame;
  frame_clock_reads : nat;
  written : list (string * Z)
}.

Section SaveFrame.

(** The k-th value of [datetime.now()], in microseconds. *)
Variable clock : nat -> Z.

(** [SELECT timestamp ... WHERE unique_id = ? ORDER BY timestamp DESC
    LIMIT 1]: the latest timestamp of the identity, if any. *)
Definition last_captured (unique_id : string) (st : Store) : option Z :=
  sql_max (map f_timestamp
               (filter (fun r => String.eqb (f_unique_id r) unique_id) (saved_frames st))).

(** The part of [save_frame] that writes the file and inserts the row; the
    clock is read once for the name of the file and once for the row. *)
Definition write_frame (unique_id : string) (st : Store) : Store :=
  let k := frame_clock_reads st in
  let file_stamp := (clock k / microseconds_per_second)%Z in
  let timestamp := (clock (S k) / microseconds_per_second)%Z in
  {| saved_frames := saved_frames st ++ [{| f_unique_id := unique_id;
                                            f_file_stamp := file_stamp;
                                            f_timestamp := timestamp |}];
     frame_clock_reads := S (S k);
     written := written st ++ [(unique_id, file_stamp)] |}.

(** [save_frame]: nothing is saved when the last frame of the identity is
    less than ten minutes old. *)
Definition save_frame (unique_id : string) (st : Store) : Store :=
  match last_captured unique_id st with
  | Some last =>
      let now := clock (frame_clock_reads st) in
      let st := {| saved_frames := saved_frames st;
                   frame_clock_reads := S (frame_clock_reads st);
                   written := written st |} in
      if Qlt_bool (inject_Z (now - last * microseconds_per_second)
                   / inject_Z microseconds_per_second)
                  (10 * 60)
      then st
      else write_frame unique_id st
  | None => write_frame unique_id st
  end.

Definition empty_store : Store :=
  {| saved_frames := []; frame_clock_reads := 0; written := [] |}.

(** The calls of [save_frame] for a sequence of identities. *)
Definition save_all (ids : list string) (st : Store) : Store :=
  fold_left (fun st unique_id => save_frame unique_id st) ids st.

(** The frames of one identity are at least ten minutes apart. *)
Definition spaced (l : list SavedFrame) : Prop :=
  forall (i j : nat) (a b : SavedFrame),
    (i < j)%nat ->
    nth_error l i = Some a -> nth_error l j = Some b ->
    f_unique_id a = f_unique_id b ->
    (f_timestamp a + 600 <= f_timestamp b)%Z.

End SaveFrame.

End Frames.

(** ** Media types ([sync_media.py]) *)

Module SyncMedia.

Import PyStr Selection.

Local Open Scope string_scope.

(** [os.path.splitext(p)[1]]: the text from the last dot of the last
    component of the path, when a character other than a dot comes before
    that dot in the component; empty otherwise. *)
Definition splitext_ext (p : string) : string :=
  let base := last_segment (split "/" p) in
  let segments := split "." base in
  if existsb truthy (List.removelast segments)
  then "." ++ last_segment segments
  else "".

(** [ext[1:]] *)
Definition drop_first (s : string) : string :=
  match s with
  | EmptyString => EmptyString
  | String _ rest => rest
  end.

(** [determine_media_type] *)
Definition determine_media_type (file_path : string) : string :=
  let ext := lower (splitext_ext file_path) in
  if existsb (String.eqb ext) [".mp4"; ".avi"; ".mov"] then "video/" ++ drop_first ext
  else if existsb (String.eqb ext) [".jpg"; ".jpeg"; ".png"] then "image/" ++ drop_first ext
  else "unknown".

End SyncMedia.

(** ** More concrete catalogs and sessions *)

Module MoreExamples.

Import Selection SelectionMore Display DisplayMore Examples.

Local Open Scope string_scope.

(** A clock that always reads ten minutes past the origin. *)
Definition ten_minutes : nat -> Z := fun _ => 600000000%Z.

(** An asset aimed at happy people, and one with no mood target. *)
Definition happy_row : MediaRow :=
  {| m_id := 3; m_customer_id := "acme"; m_age_range := "18-29";
     m_gender := "female"; m_file_path := "c.jpg"; m_media_type := "image/jpg";
     m_profit_score := 5; m_device_id := kiosk;
     m_mood_target := Some "happy"; m_time_of_day_range := None |}.

Definition plain_row : MediaRow := row 4 100 "d.jpg".

(** A file inside the media directory, stored in an empty catalog. *)
Definition stored_inside : World :=
  snd (runState
         (store_media kiosk kiosk_dir kiosk_dir "acme" "18-29" "Female"
                      "/opt/kiosk/media/ad.jpg" "image/jpg" 5)
         (world [] [])).

(** An image waits in the queue of the idle process. *)
Definition image_waiting : Display :=
  run [Command "SHOW_IMAGE:/media/a.jpg" true] initial.

(** The image is fading in since the time 10. *)
Definition image_fading_in : Display :=
  run [Tick (quiet 10 0)] image_waiting.

(** The image is fading out since the time 13. *)
Definition image_fading_out : Display :=
  run [Tick (quiet 11 0); Tick (quiet 13 0)] image_fading_in.

Definition at_time (num : Z) (den : positive) : TickInput := quiet (num # den) 0.

(** A video played to its end: started at 10, held from 11, its last frame
    reported at 12, faded out by 13. *)
Definition video_played : list Event :=
  [Command "SHOW_VIDEO:/media/v.mp4" true; Tick (quiet 10 0); Tick (quiet 11 5);
   Tick (quiet 12 99); Tick (quiet 13 99)].

(** A clock that advances by 400 seconds at each reading. *)
Definition every_400_seconds : nat -> Z := fun k => (Z.of_nat k * 400000000)%Z.

End MoreExamples.

(** ** Python floats: binary64 *)

(** Python's [float] is the binary64 format of IEEE 754, which the kernel's
    primitive floats compute bit for bit. *)
Module PyFloat.

Local Open Scope float_scope.

(** [float(n)] of an [int], and an [int] operand of a float operation: the
    nearest float, ties to even. Python raises [OverflowError] beyond the
    range of floats, far above what a 64-bit [INTEGER] column holds. *)
Definition float_of_int (n : Z) : float :=
  SF2Prim (binary_normalize prec emax n 0 false).

(** [a / b] of two [int]s, for a positive [b] below [2^64]: the exact
    quotient rounded once. The quotient is cut 128 binary places behind the
    point, far below the last place of the float, and one more bit tells
    whether anything was cut. *)
Definition int_truediv (a b : Z) : float :=
  let n := (Z.abs a * 2 ^ 128)%Z in
  let m := (2 * (n / b) + (if (n mod b =? 0)%Z then 0 else 1))%Z in
  SF2Prim (binary_normalize prec emax (if (a <? 0)%Z then (- m)%Z else m) (-129) false).

(** [max(a, b)]: the first argument unless the second is strictly greater. *)
Definition py_max (a b : float) : float := if a <? b then b else a.

(** [min(a, b)]: the first argument unless the second is strictly smaller. *)
Definition py_min (a b : float) : float := if b <? a then b else a.

(** [math.isfinite] *)
Definition is_finite (x : float) : bool := abs x <? infinity.

(** The float nearest to one tenth, which the literal [0.1] denotes. *)
Definition one_tenth : float := 0x1.999999999999ap-4.

(** The builtin [sum] of floats up to CPython 3.11: the additions from the
    left, starting from the [int] 0. *)
Definition sum_left_to_right (xs : list float) : float :=
  fold_left add xs (float_of_int 0).

(** The builtin [sum] of floats from CPython 3.12 on: Neumaier's
    compensated summation. [f] is the running sum, [c] the compensation,
    which is added at the end when it is neither zero nor infinite. *)
Fixpoint sum_compensated_from (f c : float) (xs : list float) : float :=
  match xs with
  | [] => if negb (c =? 0) && is_finite c then f + c else f
  | x :: rest =>
      let t := f + x in
      let c := if abs x <=? abs f then c + ((f - t) + x) else c + ((x - t) + f) in
      sum_compensated_from t c rest
  end.

Definition sum_compensated (xs : list float) : float :=
  match xs with
  | [] => float_of_int 0
  | x :: rest => sum_compensated_from (float_of_int 0 + x) 0 rest
  end.

End PyFloat.

(** ** The scoring and the draw of [pick_weighted_media] in binary64 *)

(** The tables, the clock and the query are those of [Selection]; the
    scores, the total, the random value and the running sum of the scan are
    floats. *)
Module SelectionFloat.

Import PyStr PyFloat.
Import Selection.

Local Open Scope float_scope.

(** An entry of [weighted_list], with the keys of the dictionary. *)
Record Item := {
  media_id : Z;
  customer_id : string;
  file_path : string;
  media_type : string;
  score : float
}.

Definition ad_info_of (item : Item) : AdInfo :=
  (media_id item, customer_id item, file_path item, media_type item).

Section Engine.

(** [socket.gethostname()] *)
Variable device_id : string.
(** The k-th value of [datetime.now()], in microseconds. *)
Variable clock : nat -> Z.
(** The k-th value of [random.random()], a float. *)
Variable random : nat -> float.
(** The builtin [sum] of the interpreter: [sum_left_to_right] or
    [sum_compensated]. *)
Variable builtin_sum : list float -> float.

(** [random.uniform(a, b)], which is [a + (b - a) * random()]. *)
Definition random_uniform (a b : float) : M float :=
  w <- get ;;
  put {| media := media w; ad_displays := ad_displays w;
         clock_reads := clock_reads w; rng_draws := S (rng_draws w);
         sent := sent w |} ;;
  ret (a + (b - a) * random (rng_draws w)).

(** [(datetime.now() - last_display).total_seconds() / 60.0];
    [total_seconds()] divides the microseconds of the difference by
    [10**6]. *)
Definition minutes_between (now last_display : Z) : float :=
  int_truediv (now - last_display * microseconds_per_second) microseconds_per_second
  / 60.

(** The body of the scoring loop for one candidate row. *)
Definition score_candidate (current_tod mood : string) (row : MediaRow) : M Item :=
  let score := float_of_int (m_profit_score row) in
  (* time-of-day bonus *)
  let score :=
    if truthy_opt (m_time_of_day_range row)
       && match m_time_of_day_range row with
          | Some tod_range => String.eqb (lower tod_range) current_tod
          | None => false
          end
    then score + float_of_int 10 else score in
  (* mood bonus *)
  let score :=
    if truthy_opt (m_mood_target row)
       && match m_mood_target row with
          | Some mood_target => String.eqb (lower mood) (lower mood_target)
          | None => false
          end
    then score + float_of_int 1500 else score in
  last_display <- get_last_display_time (m_id row) ;;
  score <- match last_display with
           | Some t =>
               now <- datetime_now clock ;;
               let minutes_since_last := minutes_between now t in
               if minutes_since_last <? float_of_int 5
               then ret (score - float_of_int 5)
               else
                 let bonus :=
                   py_min ((minutes_since_last - float_of_int 5) * one_tenth)
                          (float_of_int 30) in
                 ret (score + bonus)
           | None => ret score
           end ;;
  let final_score := py_max score 1 in
  ret {| media_id := m_id row;
         customer_id := m_customer_id row;
         file_path := m_file_path row;
         media_type := m_media_type row;
         score := final_score |}.

(** The scoring loop: [weighted_list] in the order of the candidates. *)
Fixpoint score_all (current_tod mood : string) (rows : list MediaRow)
  : M (list Item) :=
  match rows with
  | [] => ret []
  | row :: rest =>
      item <- score_candidate current_tod mood row ;;
      items <- score_all current_tod mood rest ;;
      ret (item :: items)
  end.

(** The final loop of [pick_weighted_media]: the scan with the running sum
    [upto]. *)
Fixpoint scan (r upto : float) (l : list Item) : option AdInfo :=
  match l with
  | [] => None
  | item :: rest =>
      if r <=? upto + score item
      then Some (ad_info_of item)
      else scan r (upto + score item) rest
  end.

(** The draw that ends [pick_weighted_media]: the total, one call of
    [random.uniform] and the scan. *)
Definition weighted_draw (weighted_list : list Item) : M (option AdInfo) :=
  let total := builtin_sum (map score weighted_list) in
  r <- random_uniform (float_of_int 0) total ;;
  ret (scan r (float_of_int 0) weighted_list).

Definition pick_weighted_media (age_range gender mood : string) : M (option AdInfo) :=
  let age_range := lower age_range in
  let gender := lower gender in
  candidate_ads <- select_candidates device_id age_range gender ;;
  match candidate_ads with
  | [] => ret None
  | _ :: _ =>
      current_tod <- get_time_of_day_range clock ;;
      weighted_list <- score_all current_tod mood candidate_ads ;;
      weighted_draw weighted_list
  end.

(** SQL [AVG] over an [INTEGER] column: [NULL] on no rows, else the sum
    of the integers divided by their number, both as floats. SQLite holds
    the sum of integers exactly in 64 bits, and earlier versions add them
    as floats, which is exact up to [2^53]. *)
Definition sql_avg (l : list Z) : option float :=
  match l with
  | [] => None
  | _ :: _ =>
      Some (float_of_int (fold_left Z.add l 0%Z)
            / float_of_int (Z.of_nat (List.length l)))
  end.

(** [calculate_profit]; the answer on no rows is the [int] 0. *)
Definition calculate_profit (age_range gender : string) : M float :=
  w <- get ;;
  let result :=
    sql_avg (map m_profit_score
                 (filter (fun row => String.eqb (m_age_range row) (lower age_range)
                                     && String.eqb (m_gender row) (lower gender)
                                     && String.eqb (m_device_id row) device_id)
                         (media w))) in
  ret (match result with
       | Some avg => avg
       | None => float_of_int 0
       end).

(** *** Notions used to state the properties of the draw *)

(** The value of [upto + item['score']] when the scan tests the entry at
    position [i]: the scores up to that entry added from the left. *)
Definition running_sum (l : list Item) (i : nat) : float :=
  fold_left add (map score (firstn (S i) l)) (float_of_int 0).

(** The value [r] of the draw in a world. *)
Definition drawn (l : list Item) (w : World) : float :=
  float_of_int 0
  + (builtin_sum (map score l) - float_of_int 0) * random (rng_draws w).

(** The final score the scoring loop gives a row in a world. *)
Definition final_score_in (current_tod mood : string) (row : MediaRow) (w : World)
  : float :=
  score (fst (runState (score_candidate current_tod mood row) w)).

(** The sum of the magnitudes of a list of integers. *)
Definition sum_of_magnitudes (l : list Z) : Z :=
  fold_right (fun x acc => (Z.abs x + acc)%Z) 0%Z l.

End Engine.

End SelectionFloat.

(** ** Connection handlers as threads ([ad_display.py], lines 119-148) *)

(** [server_thread] starts one thread for every connection and nothing
    locks [ad_queue]: between the test [len(ad_queue) < MAX_QUEUE_SIZE] of
    a handler and its [append] another handler can run. *)
Module Handlers.

Import PyStr Display.

Local Open Scope string_scope.

(** Where a handler thread stands: started, past the test of the length
    with the entry it is about to append, or returned. *)
Inductive Handler : Type :=
  | Started (raw : string) (is_file : bool)
  | Tested (entry : string * string)
  | Returned.

(** One turn of a handler thread: from its start up to the test of the
    length, or the append. *)
Definition advance (h : Handler) (s : Display) : Handler * Display :=
  match h with
  | Started raw is_file =>
      let data := strip raw in
      if negb (truthy data) then (Returned, s)
      else if startswith "SHOW_IMAGE:" data || startswith "SHOW_VIDEO:" data then
        let path := strip (last_segment (split ":" data)) in
        let media_type := if startswith "SHOW_IMAGE:" data then "image"
                          else "video" in
        if is_file then
          if (List.length (ad_queue s) <? MAX_QUEUE_SIZE)%nat
          then (Tested (path, media_type), s)
          else (Returned, s)
        else (Returned, s)
      else if String.eqb data "QUIT" then
        (Returned, log (HandlerExit 0) (log PygameQuit (set_pygame_up false s)))
      else (Returned, s)
  | Tested entry => (Returned, set_ad_queue (ad_queue s ++ [entry]) s)
  | Returned => (Returned, s)
  end.

Fixpoint replace_nth {A : Type} (k : nat) (x : A) (l : list A) : list A :=
  match l, k with
  | [], _ => []
  | _ :: rest, O => x :: rest
  | y :: rest, S k' => y :: replace_nth k' x rest
  end.

(** The playback process with its handler threads. *)
Record Process := {
  display : Display;
  handlers : list Handler
}.

(** The thread at position [k] takes one turn. *)
Definition turn (p : Process) (k : nat) : Process :=
  match nth_error (handlers p) k with
  | Some h =>
      let (h', s') := advance h (display p) in
      {| display := s'; handlers := replace_nth k h' (handlers p) |}
  | None => p
  end.

(** A schedule names the thread of each turn. *)
Definition run_schedule (schedule : list nat) (p : Process) : Process :=
  fold_left turn schedule p.

End Handlers.

(** ** Text in the ASCII range *)

Module PyText.

(** [s.isascii()]: every character is below 128. On such text the white
    space [str.strip()] removes is exactly that of [PyStr.is_space]; beyond
    it Python also removes white space such as U+0085, U+00A0 and U+3000. *)
Fixpoint isascii (s : string) : bool :=
  match s with
  | EmptyString => true
  | String c rest => (nat_of_ascii c <? 128)%nat && isascii rest
  end.

End PyText.

(** ** Concrete inputs for the rounded arithmetic and the handler threads *)

Module EdgeCases.

Import Selection Display Examples.

Local Open Scope string_scope.

(** The greatest value [random.random()] returns: [1 - 2**-53]. *)
Definition greatest_random : nat -> float := fun _ => 0x1.fffffffffffffp-1%float.

(** A clock that always reads 100000 seconds past the origin. *)
Definition afternoon : nat -> Z := fun _ => 100000000000%Z.

(** Four assets of profit scores 5, 20, 5 and 10, last shown 52, 31, 38 and
    83 minutes before the reading of [afternoon]. *)
Definition four_in_rotation : World :=
  world [row 1 5 "a.jpg"; row 2 20 "b.jpg"; row 3 5 "c.jpg"; row 4 10 "d.jpg"]
        [shown 1 96880; shown 2 98140; shown 3 97720; shown 4 95020].

Definition item (id : Z) (score : float) : SelectionFloat.Item :=
  {| SelectionFloat.media_id := id; SelectionFloat.customer_id := "acme";
     SelectionFloat.file_path := "a.jpg"; SelectionFloat.media_type := "image/jpg";
     SelectionFloat.score := score |}.

(** The scores of [four_in_rotation]: the floats next to 9.7, 22.6, 8.3
    and 17.8. *)
Definition four_scored : list SelectionFloat.Item :=
  [item 1 0x1.3666666666666p+3%float; item 2 0x1.699999999999ap+4%float;
   item 3 0x1.099999999999ap+3%float; item 4 0x1.1cccccccccccdp+4%float].

(** Two assets of profit score [2^57], the first shown one minute before
    the reading of [one_minute]'s clock. *)
Definition absorbing_world : World :=
  world [row 1 (2 ^ 57) "a.jpg"; row 2 (2 ^ 57) "b.jpg"] [shown 1 0].

(** An asset whose mood target and time-of-day target are those of a happy
    face at night. *)
Definition targeted (id profit : Z) : MediaRow :=
  {| m_id := id; m_customer_id := "acme"; m_age_range := "18-29";
     m_gender := "female"; m_file_path := "a.jpg"; m_media_type := "image/jpg";
     m_profit_score := profit; m_device_id := kiosk;
     m_mood_target := Some "happy"; m_time_of_day_range := Some "night" |}.

(** The greatest profit score whose sums with the bonuses are exact. *)
Definition range_end : Z := 2 ^ 53 - 1510.

(** Two targeted assets of profit score [range_end], the first shown one
    minute before the reading of [one_minute]. *)
Definition range_end_world : World :=
  world [targeted 1 range_end; targeted 2 range_end] [shown 1 0].

(** Three assets of profit scores 10, 10 and 20. *)
Definition uneven_world : World :=
  world [row 1 10 "a.jpg"; row 2 10 "b.jpg"; row 3 20 "c.jpg"] [].

(** A queue that holds four entries. *)
Definition four_queued : Display :=
  run (repeat (Command "SHOW_IMAGE:/media/a.jpg" true) 4) initial.

(** Two connections at once, each with a command that shows an existing
    file. *)
Definition two_connections : Handlers.Process :=
  {| Handlers.display := four_queued;
     Handlers.handlers := [Handlers.Started "SHOW_IMAGE:/media/e.jpg" true;
                           Handlers.Started "SHOW_IMAGE:/media/f.jpg" true] |}.

End EdgeCases.

(** * Properties *)

(** ** Strings and numbers *)

Module PyFacts.

Import PyStr PyNum.

Lemma lower_char_idem c : lower_char (lower_char c) = lower_char c.
Proof.
  destruct c as [[] [] [] [] [] [] [] []]; vm_compute; reflexivity.
Qed.

Lemma lower_idem s : lower (lower s) = lower s.
Proof.
  induction s as [|c s IH]; simpl; [reflexivity|].
  now rewrite lower_char_idem, IH.
Qed.

Lemma split_nonempty sep s : split sep s <> [].
Proof.
  destruct s as [|c s]; simpl; [discriminate|].
  destruct (Ascii.eqb c sep); [discriminate|].
  destruct (split sep s); discriminate.
Qed.

Lemma Qlt_bool_iff a b : Qlt_bool a b = true <-> a < b.
Proof.
  unfold Qlt_bool. rewrite negb_true_iff.
  split; intros H.
  - apply Qnot_le_lt. intros Hle. apply Qle_bool_iff in Hle. congruence.
  - destruct (Qle_bool b a) eqn:E; [|reflexivity].
    apply Qle_bool_iff in E. apply Qle_not_lt in E. contradiction.
Qed.

Lemma Qlt_bool_false a b : Qlt_bool a b = false <-> b <= a.
Proof.
  unfold Qlt_bool. rewrite negb_false_iff. apply Qle_bool_iff.
Qed.

Lemma py_max_ge_r a b : b <= py_max a b.
Proof.
  unfold py_max. destruct (Qlt_bool a b) eqn:E.
  - apply Qle_refl.
  - now apply Qlt_bool_false.
Qed.

Lemma py_max_ge_l a b : a <= py_max a b.
Proof.
  unfold py_max. destruct (Qlt_bool a b) eqn:E.
  - apply Qlt_le_weak. now apply Qlt_bool_iff.
  - apply Qle_refl.
Qed.

Lemma py_min_le_r a b : py_min a b <= b.
Proof.
  unfold py_min. destruct (Qlt_bool b a) eqn:E.
  - apply Qle_refl.
  - now apply Qlt_bool_false.
Qed.

End PyFacts.

(** ** The media selection engine *)

Section SelectionFacts.

Import PyStr PyNum PyFacts Selection.

Variable device_id : string.
Variable clock : nat -> Z.
Variable rng : nat -> Q.

Local Abbreviation score_candidate := (Selection.score_candidate clock).
Local Abbreviation score_all := (Selection.score_all clock).
Local Abbreviation weighted_draw := (Selection.weighted_draw rng).
Local Abbreviation pick_weighted_media := (Selection.pick_weighted_media device_id clock rng).
Local Abbreviation eligible := (Selection.eligible device_id).
Local Abbreviation final_score_in := (Selection.final_score_in clock).
Local Abbreviation scored_in := (Selection.scored_in clock).

Lemma run_bind {A B : Type} (m : M A) (f : A -> M B) (w : World) :
  runState (bind m f) w = let (a, w') := runState m w in runState (f a) w'.
Proof. reflexivity. Qed.

Lemma eligible_spec age_range gender w row :
  In row (eligible age_range gender w) <->
  In row (media w) /\ m_age_range row = lower age_range
  /\ m_gender row = lower gender /\ m_device_id row = device_id.
Proof.
  unfold Selection.eligible, select_candidates. simpl. rewrite filter_In.
  rewrite !andb_true_iff, !String.eqb_eq. tauto.
Qed.

Lemma select_candidates_world age_range gender w :
  snd (runState (select_candidates device_id age_range gender) w) = w.
Proof. reflexivity. Qed.

Lemma score_candidate_info tod mood row w :
  ad_info_of (fst (runState (score_candidate tod mood row) w)) = ad_info_of_row row.
Proof.
  unfold Selection.score_candidate. simpl.
  destruct (sql_max _) as [t|]; simpl; [|reflexivity].
  destruct (Qlt_bool _ 5); reflexivity.
Qed.

Lemma score_candidate_rng tod mood row w :
  rng_draws (snd (runState (score_candidate tod mood row) w)) = rng_draws w.
Proof.
  unfold Selection.score_candidate. simpl.
  destruct (sql_max _) as [t|]; simpl; [|reflexivity].
  destruct (Qlt_bool _ 5); reflexivity.
Qed.

Lemma score_all_cons tod mood row rest w :
  runState (score_all tod mood (row :: rest)) w =
  let (item, w1) := runState (score_candidate tod mood row) w in
  let (items, w2) := runState (score_all tod mood rest) w1 in
  (item :: items, w2).
Proof.
  simpl. destruct (runState (score_candidate tod mood row) w) as [item w1].
  destruct (runState (score_all tod mood rest) w1) as [items w2]. reflexivity.
Qed.

Lemma score_all_info tod mood rows : forall w,
  map ad_info_of (fst (runState (score_all tod mood rows) w)) = map ad_info_of_row rows.
Proof.
  induction rows as [|row rest IH]; intros w; [reflexivity|].
  rewrite score_all_cons.
  pose proof (score_candidate_info tod mood row w) as Hi.
  destruct (runState (score_candidate tod mood row) w) as [item w1].
  specialize (IH w1).
  destruct (runState (score_all tod mood rest) w1) as [items w2].
  simpl in *. now rewrite Hi, IH.
Qed.

Lemma score_all_rng tod mood rows : forall w,
  rng_draws (snd (runState (score_all tod mood rows) w)) = rng_draws w.
Proof.
  induction rows as [|row rest IH]; intros w; [reflexivity|].
  rewrite score_all_cons.
  pose proof (score_candidate_rng tod mood row w) as Hr.
  destruct (runState (score_candidate tod mood row) w) as [item w1].
  specialize (IH w1).
  destruct (runState (score_all tod mood rest) w1) as [items w2].
  simpl in *. congruence.
Qed.

Lemma score_all_nonempty tod mood rows w :
  rows <> [] -> fst (runState (score_all tod mood rows) w) <> [].
Proof.
  intros Hne Hnil.
  apply (f_equal (map ad_info_of)) in Hnil. rewrite score_all_info in Hnil.
  destruct rows; [congruence | discriminate].
Qed.

Lemma scan_In r : forall l upto info,
  scan r upto l = Some info -> In info (map ad_info_of l).
Proof.
  induction l as [|item rest IH]; intros upto info H; simpl in *; [discriminate|].
  destruct (Qle_bool r (upto + w_score item)).
  - left. congruence.
  - right. eauto.
Qed.

(** How a run of [pick_weighted_media] decomposes. *)
Lemma pick_weighted_media_run age_range gender mood w :
  runState (pick_weighted_media age_range gender mood) w =
  match eligible age_range gender w with
  | [] => (None, w)
  | _ :: _ =>
      let (tod, w1) := runState (get_time_of_day_range clock) w in
      let (wl, w2) := runState (score_all tod mood (eligible age_range gender w)) w1 in
      runState (weighted_draw wl) w2
  end.
Proof.
  unfold Selection.pick_weighted_media, Selection.eligible.
  rewrite run_bind.
  destruct (runState (select_candidates device_id (lower age_range) (lower gender)) w)
    as [cands w0] eqn:Hsel.
  assert (w0 = w) as -> by (now inversion Hsel).
  cbn [fst]. destruct cands as [|row rest]; [reflexivity|].
  rewrite run_bind.
  destruct (runState (get_time_of_day_range clock) w) as [tod w1].
  rewrite run_bind. reflexivity.
Qed.

(** C1. Whatever the catalog, the playback history and the event, an asset
    that [pick_weighted_media] returns is a row of the [media] table whose
    [age_range] and [gender] are the event's, lower-cased (so they agree
    with the event's up to case), and whose [device_id] is the current
    device's: no row outside that filter is returned. *)
Theorem pick_weighted_media_in_filter :
  forall (age_range gender mood : string) (w : World) (info : AdInfo),
    fst (runState (pick_weighted_media age_range gender mood) w) = Some info ->
    exists row : MediaRow,
      In row (media w) /\ info = ad_info_of_row row
      /\ m_age_range row = lower age_range
      /\ m_gender row = lower gender
      /\ lower (m_age_range row) = lower age_range
      /\ lower (m_gender row) = lower gender
      /\ m_device_id row = device_id.
Proof.
  intros age_range gender mood w info H.
  rewrite pick_weighted_media_run in H.
  destruct (eligible age_range gender w) as [|r0 rs] eqn:Hel; [discriminate|].
  destruct (runState (get_time_of_day_range clock) w) as [tod w1].
  pose proof (score_all_info tod mood (r0 :: rs) w1) as Hinfo.
  destruct (runState (score_all tod mood (r0 :: rs)) w1) as [wl w2].
  simpl in Hinfo. unfold Selection.weighted_draw in H. simpl in H.
  apply scan_In in H. rewrite Hinfo in H.
  change (ad_info_of_row r0 :: map ad_info_of_row rs)
    with (map ad_info_of_row (r0 :: rs)) in H.
  rewrite <- Hel in H. apply in_map_iff in H. destruct H as [row [Hrow Hin]].
  apply eligible_spec in Hin. destruct Hin as (Hm & Ha & Hg & Hd).
  exists row. repeat split; auto.
  - rewrite Ha. apply lower_idem.
  - rewrite Hg. apply lower_idem.
Qed.

(** The score of a row before the recency term: the profit score and the
    two bonuses. *)
Lemma final_score_no_history tod mood row w :
  last_display_in w (m_id row) = None ->
  exists base : Q,
    final_score_in tod mood row w = py_max base 1
    /\ forall row' w' t,
         m_profit_score row' = m_profit_score row ->
         m_mood_target row' = m_mood_target row ->
         m_time_of_day_range row' = m_time_of_day_range row ->
         last_display_in w' (m_id row') = Some t ->
         minutes_between (clock (clock_reads w')) t < 5 ->
         final_score_in tod mood row' w' = py_max (base - 5) 1.
Proof.
  unfold last_display_in, Selection.final_score_in, Selection.score_candidate.
  simpl. intros Hnone. rewrite Hnone. simpl.
  eexists. split; [reflexivity|].
  intros row' w' t Hp Hm Ht Hlast Hmin.
  rewrite Hlast, Hp, Hm, Ht. simpl.
  apply Qlt_bool_iff in Hmin. rewrite Hmin. reflexivity.
Qed.

Lemma score_candidate_floor tod mood row w : 1 <= final_score_in tod mood row w.
Proof.
  unfold Selection.final_score_in, Selection.score_candidate. simpl.
  destruct (sql_max _) as [t|]; simpl.
  - destruct (Qlt_bool _ 5); simpl; apply py_max_ge_r.
  - apply py_max_ge_r.
Qed.

Lemma score_all_floor tod mood rows : forall w,
  Forall (fun item => 1 <= w_score item) (scored_in tod mood rows w).
Proof.
  unfold Selection.scored_in.
  induction rows as [|row rest IH]; intros w; [constructor|].
  rewrite score_all_cons.
  pose proof (score_candidate_floor tod mood row w) as Hf.
  unfold Selection.final_score_in in Hf.
  destruct (runState (score_candidate tod mood row) w) as [item w1].
  specialize (IH w1).
  destruct (runState (score_all tod mood rest) w1) as [items w2].
  simpl in *. constructor; assumption.
Qed.


Lemma py_max_floor_cmp (base : Q) :
  py_max (base - 5) 1 <= py_max base 1
  /\ (py_max (base - 5) 1 < py_max base 1 <-> 1 < py_max base 1).
Proof.
  unfold py_max.
  destruct (Qlt_bool (base - 5) 1) eqn:E1; destruct (Qlt_bool base 1) eqn:E2;
    try apply Qlt_bool_iff in E1; try apply Qlt_bool_iff in E2;
    try apply Qlt_bool_false in E1; try apply Qlt_bool_false in E2;
    split; try split; intros; lra.
Qed.

(** C4, as the code has it. Take two candidates with the same profit score,
    mood target and time-of-day target, scored for the same event; one was
    last played less than 5 minutes before the clock reading, the other was
    never played. The recently played one never scores higher. When the
    profit score is at most [2^53 - 1510] in magnitude, it scores strictly
    lower exactly when the final score of the other one is above the floor
    of 1: in that range every value of the scoring of these two candidates
    is an integer of magnitude at most [2^53], which the floats of the code
    hold exactly, so that the exact sums are those of the code (see
    [cool_down_exact_at_range_end]; far beyond it the subtraction of 5 is
    lost in rounding, see [cool_down_absorbed]). *)
Theorem recent_play_scores_lower_above_floor :
  forall (tod mood : string) (r1 r2 : MediaRow) (w1 w2 : World) (t : Z),
    m_profit_score r1 = m_profit_score r2 ->
    m_mood_target r1 = m_mood_target r2 ->
    m_time_of_day_range r1 = m_time_of_day_range r2 ->
    last_display_in w1 (m_id r1) = Some t ->
    minutes_between (clock (clock_reads w1)) t < 5 ->
    last_display_in w2 (m_id r2) = None ->
    final_score_in tod mood r1 w1 <= final_score_in tod mood r2 w2
    /\ ((Z.abs (m_profit_score r2) <= 2 ^ 53 - 1510)%Z ->
        (final_score_in tod mood r1 w1 < final_score_in tod mood r2 w2
         <-> 1 < final_score_in tod mood r2 w2)).
Proof.
  intros tod mood r1 r2 w1 w2 t Hp Hm Ht Hlast Hmin Hnone.
  destruct (final_score_no_history tod mood r2 w2 Hnone) as [base [H2 Hrec]].
  rewrite (Hrec r1 w1 t Hp Hm Ht Hlast Hmin), H2.
  split; [apply py_max_floor_cmp|].
  intros _. apply py_max_floor_cmp.
Qed.

(** *** The weighted draw *)

Lemma fold_left_scores (l : list Weighted) : forall acc : Q,
  fold_left (fun a item => a + w_score item) l acc == acc + sum_scores l.
Proof.
  induction l as [|item rest IH]; intros acc; simpl.
  - lra.
  - rewrite IH. unfold sum_scores. simpl. lra.
Qed.

Lemma total_score_sum (l : list Weighted) : total_score l == sum_scores l.
Proof. unfold total_score. rewrite fold_left_scores. lra. Qed.

Lemma sum_scores_cons item rest :
  sum_scores (item :: rest) = w_score item + sum_scores rest.
Proof. reflexivity. Qed.

Lemma cumulative_0 item rest : cumulative (item :: rest) 0 == w_score item.
Proof. unfold cumulative. simpl. unfold sum_scores. simpl. lra. Qed.

Lemma cumulative_S item rest i :
  cumulative (item :: rest) (S i) = w_score item + cumulative rest i.
Proof. reflexivity. Qed.

Lemma sum_scores_positive (l : list Weighted) :
  Forall (fun item => 1 <= w_score item) l -> l <> [] -> 0 < sum_scores l.
Proof.
  intros Hall Hne. destruct l as [|item rest]; [congruence|].
  inversion Hall as [|? ? H1 Hrest]; subst. rewrite sum_scores_cons.
  assert (0 <= sum_scores rest).
  { clear -Hrest. induction Hrest as [|x l Hx _ IH]; [unfold sum_scores; simpl; lra|].
    rewrite sum_scores_cons. lra. }
  lra.
Qed.

Lemma Qle_bool_false a b : Qle_bool a b = false <-> b < a.
Proof.
  split; intros H.
  - apply Qnot_le_lt. intros Hle. apply Qle_bool_iff in Hle. congruence.
  - destruct (Qle_bool a b) eqn:E; [|reflexivity].
    apply Qle_bool_iff in E. lra.
Qed.

(** The scan stops at the first position whose cumulative sum, counted
    from [upto], reaches [r]. *)
Lemma scan_first r : forall l upto info,
  scan r upto l = Some info ->
  exists (i : nat) (item : Weighted),
    nth_error l i = Some item /\ info = ad_info_of item
    /\ r <= upto + cumulative l i
    /\ forall j : nat, (j < i)%nat -> upto + cumulative l j < r.
Proof.
  induction l as [|item rest IH]; intros upto info H; simpl in H; [discriminate|].
  destruct (Qle_bool r (upto + w_score item)) eqn:E.
  - exists 0%nat, item. repeat split.
    + congruence.
    + apply Qle_bool_iff in E. rewrite cumulative_0. exact E.
    + intros j Hj. lia.
  - apply Qle_bool_false in E.
    destruct (IH _ _ H) as (i & it & Hnth & Hinfo & Hle & Hlt).
    exists (S i), it. repeat split; auto.
    + rewrite cumulative_S. lra.
    + intros [|j] Hj.
      * rewrite cumulative_0. exact E.
      * rewrite cumulative_S. assert (Hj' : (j < i)%nat) by lia.
        specialize (Hlt j Hj'). lra.
Qed.

(** The scan finds a position as soon as [r] does not exceed the last
    cumulative sum. *)
Lemma scan_total r : forall l upto,
  l <> [] -> r <= upto + sum_scores l -> scan r upto l <> None.
Proof.
  induction l as [|item rest IH]; intros upto Hne Hr; [congruence|].
  simpl. destruct (Qle_bool r (upto + w_score item)) eqn:E; [discriminate|].
  apply Qle_bool_false in E. rewrite sum_scores_cons in Hr.
  destruct rest as [|item' rest'].
  - unfold sum_scores in Hr. simpl in Hr. lra.
  - apply IH; [discriminate | lra].
Qed.

Lemma weighted_draw_run wl w :
  runState (weighted_draw wl) w =
  (scan (0 + (total_score wl - 0) * rng (rng_draws w)) 0 wl,
   {| media := media w; ad_displays := ad_displays w;
      clock_reads := clock_reads w; rng_draws := S (rng_draws w);
      sent := sent w |}).
Proof. reflexivity. Qed.

(** The draw in exact arithmetic, where the total is the last cumulative
    sum. For a nonempty list of scored candidates (every score at least 1)
    the draw reads the random generator exactly once; with [u] that reading,
    [T] the sum of the final scores and [r = u * T], [r] lies in the
    interval from 0 (included) to [T] (excluded), and the result is the
    first entry, in list order, whose cumulative score reaches [r]. The
    floats of the code do not share this: see
    [weighted_draw_passes_every_candidate]. *)
Lemma weighted_draw_roulette_exact :
  forall (wl : list Weighted) (w : World),
    wl <> [] ->
    Forall (fun item => 1 <= w_score item) wl ->
    0 <= rng (rng_draws w) /\ rng (rng_draws w) < 1 ->
    let T := sum_scores wl in
    let r := 0 + (total_score wl - 0) * rng (rng_draws w) in
    total_score wl == T
    /\ r == rng (rng_draws w) * T
    /\ 0 <= r /\ r < T
    /\ rng_draws (snd (runState (weighted_draw wl) w)) = S (rng_draws w)
    /\ clock_reads (snd (runState (weighted_draw wl) w)) = clock_reads w
    /\ exists (i : nat) (item : Weighted),
         nth_error wl i = Some item
         /\ is_roulette_choice wl r i
         /\ fst (runState (weighted_draw wl) w) = Some (ad_info_of item).
Proof.
  intros wl w Hne Hall [Hu0 Hu1] T r.
  pose proof (total_score_sum wl) as Htot. fold T in Htot.
  pose proof (sum_scores_positive wl Hall Hne) as HT. fold T in HT.
  assert (Hr : r == rng (rng_draws w) * T) by (unfold r; rewrite Htot; lra).
  assert (Hr0 : 0 <= r) by (rewrite Hr; apply Qmult_le_0_compat; lra).
  assert (Hr1 : r < T).
  { rewrite Hr. setoid_replace T with (1 * T) at 2 by lra.
    apply Qmult_lt_compat_r; assumption. }
  rewrite weighted_draw_run. cbn [fst snd rng_draws clock_reads]. fold r.
  repeat (split; [assumption || reflexivity|]).
  destruct (scan r 0 wl) as [info|] eqn:Hscan.
  - destruct (scan_first r wl 0 info Hscan) as (i & item & Hnth & Hinfo & Hle & Hlt).
    exists i, item. split; [exact Hnth|]. split; [|congruence].
    split; [lra|]. intros j Hj. specialize (Hlt j Hj). lra.
  - exfalso. apply (scan_total r wl 0 Hne); [fold T; lra | exact Hscan].
Qed.

(** The whole of [pick_weighted_media] reads the random generator once
    when there is a candidate, and not at all otherwise. *)
Lemma pick_weighted_media_draws (age_range gender mood : string) (w : World) :
  rng_draws (snd (runState (pick_weighted_media age_range gender mood) w))
  = match eligible age_range gender w with
    | [] => rng_draws w
    | _ :: _ => S (rng_draws w)
    end.
Proof.
  rewrite pick_weighted_media_run.
  destruct (eligible age_range gender w) as [|r0 rs]; [reflexivity|].
  assert (Hrng : rng_draws (snd (runState (get_time_of_day_range clock) w)) = rng_draws w)
    by reflexivity.
  destruct (runState (get_time_of_day_range clock) w) as [tod w1].
  pose proof (score_all_rng tod mood (r0 :: rs) w1) as Hrng2.
  destruct (runState (score_all tod mood (r0 :: rs)) w1) as [wl w2].
  rewrite weighted_draw_run. cbn [fst snd rng_draws] in *. congruence.
Qed.

(** In exact arithmetic the final [return None] is not reached. When the
    query finds at least one candidate and the reading of the random
    generator lies between 0 and 1 (both included), so that [r] lies
    between 0 and the total, [pick_weighted_media] returns one of the scored
    candidates: the scan ends at the latest on the last entry, whose
    cumulative sum is the total. The floats of the code do not share this:
    see [pick_weighted_media_falls_through]. *)
Lemma pick_weighted_media_returns_exact :
  forall (age_range gender mood : string) (w : World),
    eligible age_range gender w <> [] ->
    0 <= rng (rng_draws w) /\ rng (rng_draws w) <= 1 ->
    exists row : MediaRow,
      In row (eligible age_range gender w)
      /\ fst (runState (pick_weighted_media age_range gender mood) w)
         = Some (ad_info_of_row row).
Proof.
  intros age_range gender mood w Hne [Hu0 Hu1].
  rewrite pick_weighted_media_run.
  destruct (eligible age_range gender w) as [|r0 rs] eqn:Hel; [congruence|].
  assert (Hrng : rng_draws (snd (runState (get_time_of_day_range clock) w)) = rng_draws w)
    by reflexivity.
  destruct (runState (get_time_of_day_range clock) w) as [tod w1].
  pose proof (score_all_info tod mood (r0 :: rs) w1) as Hinfo.
  pose proof (score_all_rng tod mood (r0 :: rs) w1) as Hrng2.
  pose proof (score_all_floor tod mood (r0 :: rs) w1) as Hall1.
  pose proof (score_all_nonempty tod mood (r0 :: rs) w1 Hne) as Hne2.
  unfold Selection.scored_in in Hall1.
  destruct (runState (score_all tod mood (r0 :: rs)) w1) as [wl w2].
  cbn [fst snd] in *.
  rewrite weighted_draw_run. cbn [fst].
  pose proof (sum_scores_positive wl Hall1 Hne2) as HT.
  pose proof (total_score_sum wl) as Htot.
  replace (rng_draws w2) with (rng_draws w) by congruence.
  set (r := 0 + (total_score wl - 0) * rng (rng_draws w)).
  assert (Hr : r <= 0 + sum_scores wl).
  { unfold r. rewrite Htot.
    assert (sum_scores wl * rng (rng_draws w) <= sum_scores wl * 1)
      by (apply Qmult_le_l; lra).
    lra. }
  destruct (scan r 0 wl) as [info|] eqn:Hscan.
  - apply scan_In in Hscan. rewrite Hinfo in Hscan.
    apply in_map_iff in Hscan. destruct Hscan as [row [Hrow Hin]].
    exists row. split; [exact Hin | congruence].
  - exfalso. exact (scan_total r wl 0 Hne2 Hr Hscan).
Qed.

End SelectionFacts.

(** ** The playback controller *)

Section DisplayFacts.

Import PyStr PyNum Display.

(** *** The stage only moves along the cycle *)

Lemma handle_client_connection_stage raw is_file s :
  current_stage (handle_client_connection raw is_file s) = current_stage s.
Proof.
  unfold handle_client_connection.
  repeat match goal with
         | |- context [if ?b then _ else _] => destruct b
         end; reflexivity.
Qed.

Lemma handle_event_stage ok s ev :
  current_stage (handle_event ok s ev) = current_stage s.
Proof.
  destruct ev as [|key|w h|]; simpl; try reflexivity.
  - destruct (key =? K_ESCAPE)%Z; reflexivity.
  - destruct (current_image_path s) as [p|], (is_video s) eqn:Hv; simpl;
      try destruct (truthy p && ok); simpl; rewrite ?Hv;
      destruct (video_player s); reflexivity.
Qed.

Lemma handle_events_stage ok evs : forall s,
  current_stage (fold_left (handle_event ok) evs s) = current_stage s.
Proof.
  induction evs as [|ev rest IH]; intros s; simpl; [reflexivity|].
  now rewrite IH, handle_event_stage.
Qed.

Lemma start_new_ad_stage path media_type now ok s :
  current_stage (start_new_ad path media_type now ok s) = current_stage s
  \/ current_stage (start_new_ad path media_type now ok s) = FADING_IN.
Proof.
  unfold start_new_ad.
  destruct (is_video s), (video_player s);
    destruct (String.eqb media_type "image"), (String.eqb media_type "video"), ok;
    simpl; auto.
Qed.

Lemma update_fade_stage i s :
  on_cycle (current_stage s) (current_stage (fst (update_fade i s))).
Proof.
  unfold on_cycle, update_fade.
  destruct (current_stage s) eqn:Hst.
  - destruct (ad_queue s) as [|[path media_type] rest]; simpl; [auto|].
    destruct (start_new_ad_stage path media_type (t_first i) (load_ok i)
                (set_ad_queue rest s)) as [H|H]; rewrite H; simpl; auto.
  - destruct (Qle_bool _ _); simpl; auto.
  - destruct (is_video s).
    + destruct (video_player s); simpl; auto.
      destruct (Qle_bool _ _); simpl; auto.
    + destruct (Qle_bool _ _); simpl; auto.
  - destruct (Qle_bool _ _); simpl; auto.
    destruct (is_video s); [|simpl; auto].
    destruct (current_media s) as [[p w h|k]|]; simpl; auto.
Qed.

Lemma main_loop_exit_stage s : current_stage (main_loop_exit s) = current_stage s.
Proof.
  unfold main_loop_exit. destruct (is_video s), (video_player s); reflexivity.
Qed.

Lemma main_loop_pass_stage i s :
  on_cycle (current_stage s) (current_stage (main_loop_pass i s)).
Proof.
  unfold main_loop_pass.
  destruct (pygame_up s); simpl; [|left; reflexivity].
  pose proof (update_fade_stage i (fold_left (handle_event (load_ok i)) (events_in i) s))
    as H.
  rewrite handle_events_stage in H.
  destruct (update_fade i _) as [s' [|]]; simpl in *; [|exact H].
  destruct (running s'); [exact H|].
  rewrite main_loop_exit_stage. exact H.
Qed.

(** C5. Whatever the state of the playback process, one pass of
    [update_fade] and, more generally, any step of the process (a pass of
    the main loop or a command handled by a connection thread) either leaves
    the stage as it is or moves it to its one successor on the cycle
    Idle, FadingIn, Holding, FadingOut, Idle. *)
Theorem stage_follows_cycle :
  forall (s : Display),
    (forall i : TickInput,
        on_cycle (current_stage s) (current_stage (fst (update_fade i s))))
    /\ (forall e : Event, on_cycle (current_stage s) (current_stage (step s e))).
Proof.
  intros s. split; [intros i; apply update_fade_stage|].
  intros e. unfold step.
  destruct (proc s); try (left; reflexivity).
  destruct e as [i|raw is_file].
  - apply main_loop_pass_stage.
  - left. apply handle_client_connection_stage.
Qed.

(** *** [update_fade] does not raise in a state the process reaches *)

Lemma initial_well_formed : well_formed initial.
Proof. split; [constructor | discriminate]. Qed.

Lemma handle_client_connection_well_formed raw is_file s :
  well_formed s -> well_formed (handle_client_connection raw is_file s).
Proof.
  intros [Hq Hv]. unfold handle_client_connection.
  destruct (negb (truthy (strip raw))); [now split|].
  destruct (startswith "SHOW_IMAGE:" (strip raw) || startswith "SHOW_VIDEO:" (strip raw)).
  - destruct is_file; [|now split].
    destruct (List.length (ad_queue s) <? MAX_QUEUE_SIZE)%nat; [|now split].
    split; [|exact Hv]. cbn [ad_queue set_ad_queue].
    apply Forall_app. split; [exact Hq|].
    constructor; [|constructor].
    unfold known_type. cbn [snd].
    destruct (startswith "SHOW_IMAGE:" (strip raw)); auto.
  - destruct (String.eqb (strip raw) "QUIT"); now split.
Qed.

Lemma handle_event_well_formed ok s ev :
  well_formed s -> well_formed (handle_event ok s ev).
Proof.
  intros [Hq Hv]. destruct ev as [|key|w h|]; simpl; try (now split).
  - destruct (key =? K_ESCAPE)%Z; now split.
  - destruct (is_video s) eqn:Hvid.
    + destruct (current_image_path s) as [p|]; simpl; rewrite Hvid;
        (destruct (video_player s) as [k|] eqn:Hp; split; simpl; auto;
         rewrite ?Hp; auto).
    + destruct (current_image_path s) as [p|]; simpl;
        try destruct (truthy p && ok); simpl; rewrite Hvid;
        split; simpl; auto; rewrite Hvid; discriminate.
Qed.

Lemma handle_events_well_formed ok evs : forall s,
  well_formed s -> well_formed (fold_left (handle_event ok) evs s).
Proof.
  induction evs as [|ev rest IH]; intros s H; simpl; [exact H|].
  apply IH. now apply handle_event_well_formed.
Qed.

Lemma start_new_ad_well_formed path media_type now ok s :
  known_type (path, media_type) ->
  Forall known_type (ad_queue s) ->
  well_formed (start_new_ad path media_type now ok s).
Proof.
  intros Hk Hq. unfold start_new_ad.
  assert (Hty : (String.eqb media_type "image" = true)
                \/ (String.eqb media_type "image" = false
                    /\ String.eqb media_type "video" = true)).
  { destruct Hk as [H|H]; simpl in H; subst media_type; [left | right]; auto. }
  destruct Hty as [Hi | [Hi Hvd]]; rewrite Hi; try rewrite Hvd;
    destruct (is_video s), (video_player s), ok; split; simpl; auto;
    try discriminate; intros _; eexists; split; eauto.
Qed.

Lemma update_fade_well_formed i s :
  well_formed s ->
  well_formed (fst (update_fade i s)) /\ snd (update_fade i s) = true.
Proof.
  intros [Hq Hv]. unfold update_fade.
  destruct (current_stage s).
  - destruct (ad_queue s) as [|[path media_type] rest] eqn:Hqueue; simpl.
    + split; [|reflexivity]. split; [rewrite Hqueue; constructor | exact Hv].
    + inversion Hq as [|? ? Hhead Hrest]; subst.
      split; [|reflexivity]. now apply start_new_ad_well_formed.
  - destruct (Qle_bool _ _); simpl; split; try reflexivity; now split.
  - destruct (is_video s) eqn:Hvid.
    + destruct (Hv eq_refl) as [h [Hp Hm]]. rewrite Hp.
      destruct (Qle_bool _ _); simpl; split; try reflexivity;
        (split; [exact Hq|]); simpl; rewrite ?Hvid; intros _; exists h; auto.
    + destruct (Qle_bool _ _); simpl; split; try reflexivity;
        (split; [exact Hq|]); simpl; rewrite ?Hvid; discriminate.
  - destruct (Qle_bool _ _); simpl.
    + destruct (is_video s) eqn:Hvid.
      * destruct (Hv eq_refl) as [h [Hp [Hm|Hm]]]; rewrite Hm; simpl;
          split; try reflexivity; (split; [exact Hq|]); simpl;
          rewrite ?Hvid; intros _; exists h; auto.
      * simpl. split; [|reflexivity]. split; [exact Hq|].
        simpl. rewrite Hvid. discriminate.
    + split; [|reflexivity]. now split.
Qed.

Lemma main_loop_exit_well_formed s : well_formed s -> well_formed (main_loop_exit s).
Proof.
  intros [Hq Hv]. unfold main_loop_exit.
  destruct (is_video s) eqn:Hvid, (video_player s) eqn:Hp; split; simpl; auto;
    rewrite ?Hvid, ?Hp; auto.
Qed.

Lemma main_loop_pass_well_formed i s :
  well_formed s -> well_formed (main_loop_pass i s).
Proof.
  intros H. unfold main_loop_pass.
  destruct (pygame_up s); simpl; [|exact H].
  pose proof (update_fade_well_formed i _
                (handle_events_well_formed (load_ok i) (events_in i) s H)) as [Hwf Hok].
  destruct (update_fade i _) as [s' [|]]; simpl in *; [|discriminate].
  destruct (running s'); [exact Hwf|].
  now apply main_loop_exit_well_formed.
Qed.

Lemma step_well_formed s e : well_formed s -> well_formed (step s e).
Proof.
  intros H. unfold step. destruct (proc s); try exact H.
  destruct e as [i|raw is_file].
  - now apply main_loop_pass_well_formed.
  - now apply handle_client_connection_well_formed.
Qed.

Lemma run_well_formed es : forall s, well_formed s -> well_formed (run es s).
Proof.
  unfold run. induction es as [|e rest IH]; intros s H; simpl; [exact H|].
  apply IH. now apply step_well_formed.
Qed.

(** In every state the process reaches from the initial one, [update_fade]
    returns: the branch that raises is not reached. *)
Lemma update_fade_returns (es : list Event) (i : TickInput) :
  snd (update_fade i (run es initial)) = true.
Proof.
  apply update_fade_well_formed, run_well_formed, initial_well_formed.
Qed.

(** *** The queue is bounded *)

Lemma handle_client_connection_queue raw is_file s :
  (List.length (ad_queue s) <= MAX_QUEUE_SIZE)%nat ->
  (List.length (ad_queue (handle_client_connection raw is_file s)) <= MAX_QUEUE_SIZE)%nat.
Proof.
  intros H. unfold handle_client_connection.
  destruct (negb (truthy (strip raw))); [exact H|].
  destruct (startswith "SHOW_IMAGE:" (strip raw) || startswith "SHOW_VIDEO:" (strip raw)).
  - destruct is_file; [|exact H].
    destruct (Nat.ltb_spec (List.length (ad_queue s)) MAX_QUEUE_SIZE) as [Hlt|Hge];
      [|exact H].
    simpl. rewrite length_app. simpl. lia.
  - destruct (String.eqb (strip raw) "QUIT"); exact H.
Qed.

Lemma handle_event_queue ok s ev : ad_queue (handle_event ok s ev) = ad_queue s.
Proof.
  destruct ev as [|key|w h|]; simpl; try reflexivity.
  - destruct (key =? K_ESCAPE)%Z; reflexivity.
  - destruct (current_image_path s) as [p|], (is_video s) eqn:Hv; simpl;
      try destruct (truthy p && ok); simpl; rewrite ?Hv;
      destruct (video_player s); reflexivity.
Qed.

Lemma handle_events_queue ok evs : forall s,
  ad_queue (fold_left (handle_event ok) evs s) = ad_queue s.
Proof.
  induction evs as [|ev rest IH]; intros s; simpl; [reflexivity|].
  now rewrite IH, handle_event_queue.
Qed.

Lemma start_new_ad_queue path media_type now ok s :
  ad_queue (start_new_ad path media_type now ok s) = ad_queue s.
Proof.
  unfold start_new_ad.
  destruct (is_video s), (video_player s);
    destruct (String.eqb media_type "image"), (String.eqb media_type "video"), ok;
    reflexivity.
Qed.

Lemma update_fade_queue i s :
  (List.length (ad_queue (fst (update_fade i s))) <= List.length (ad_queue s))%nat.
Proof.
  unfold update_fade.
  destruct (current_stage s).
  - destruct (ad_queue s) as [|[path media_type] rest] eqn:Hq; simpl.
    + rewrite Hq. simpl. lia.
    + rewrite start_new_ad_queue. simpl. lia.
  - destruct (Qle_bool _ _); simpl; lia.
  - destruct (is_video s).
    + destruct (video_player s); simpl; try lia.
      destruct (Qle_bool _ _); simpl; lia.
    + destruct (Qle_bool _ _); simpl; lia.
  - destruct (Qle_bool _ _); simpl; try lia.
    destruct (is_video s); [|simpl; lia].
    destruct (current_media s) as [[p w h|k]|]; simpl; lia.
Qed.

Lemma main_loop_exit_queue s : ad_queue (main_loop_exit s) = ad_queue s.
Proof.
  unfold main_loop_exit. destruct (is_video s), (video_player s); reflexivity.
Qed.

Lemma main_loop_pass_queue i s :
  (List.length (ad_queue (main_loop_pass i s)) <= List.length (ad_queue s))%nat.
Proof.
  unfold main_loop_pass.
  destruct (pygame_up s); simpl; [|lia].
  pose proof (update_fade_queue i (fold_left (handle_event (load_ok i)) (events_in i) s))
    as H.
  rewrite handle_events_queue in H.
  destruct (update_fade i _) as [s' [|]]; simpl in *; [|exact H].
  destruct (running s'); [exact H|].
  rewrite main_loop_exit_queue. exact H.
Qed.

Lemma step_queue s e :
  (List.length (ad_queue s) <= MAX_QUEUE_SIZE)%nat ->
  (List.length (ad_queue (step s e)) <= MAX_QUEUE_SIZE)%nat.
Proof.
  intros H. unfold step. destruct (proc s); try exact H.
  destruct e as [i|raw is_file].
  - pose proof (main_loop_pass_queue i s). lia.
  - now apply handle_client_connection_queue.
Qed.

Lemma run_queue es : forall s,
  (List.length (ad_queue s) <= MAX_QUEUE_SIZE)%nat ->
  (List.length (ad_queue (run es s)) <= MAX_QUEUE_SIZE)%nat.
Proof.
  unfold run. induction es as [|e rest IH]; intros s H; simpl; [exact H|].
  apply IH. now apply step_queue.
Qed.

(** When every handler returns before the next one starts: from the
    initial state, after any sequence of commands and passes of the main
    loop, the queue holds at most 5 entries; and a command that arrives
    when the queue holds 5 entries leaves the queue exactly as it was. Two
    handlers that run at the same time are another matter: see
    [ad_queue_exceeds_capacity]. *)
Lemma ad_queue_bounded_in_turn :
  (forall es : list Event,
      (List.length (ad_queue (run es initial)) <= 5)%nat)
  /\ (forall (s : Display) (raw : string) (is_file : bool),
         List.length (ad_queue s) = 5%nat ->
         ad_queue (handle_client_connection raw is_file s) = ad_queue s).
Proof.
  split.
  - intros es. apply (run_queue es initial). simpl. unfold MAX_QUEUE_SIZE. lia.
  - intros s raw is_file H. unfold handle_client_connection.
    destruct (negb (truthy (strip raw))); [reflexivity|].
    destruct (startswith "SHOW_IMAGE:" (strip raw) || startswith "SHOW_VIDEO:" (strip raw)).
    + destruct is_file; [|reflexivity].
      rewrite H. reflexivity.
    + destruct (String.eqb (strip raw) "QUIT"); reflexivity.
Qed.

End DisplayFacts.

(** ** The control transport *)

Section TransportFacts.

Import PyStr Display.

Lemma last_cons_nonempty (x : string) (l : list string) :
  l <> [] -> List.last (x :: l) EmptyString = List.last l EmptyString.
Proof. destruct l; [congruence | reflexivity]. Qed.

Lemma last_segment_no_sep (sep : ascii) : forall s : string,
  contains sep (last_segment (split sep s)) = false.
Proof.
  unfold last_segment.
  induction s as [|c rest IH]; [reflexivity|].
  simpl split. destruct (Ascii.eqb c sep) eqn:E.
  - rewrite last_cons_nonempty by apply PyFacts.split_nonempty. exact IH.
  - destruct (split sep rest) as [|seg segs] eqn:Hs.
    + exfalso. now apply (PyFacts.split_nonempty sep rest).
    + destruct segs as [|seg' segs'].
      * simpl in *. now rewrite E, IH.
      * exact IH.
Qed.

Lemma lstrip_no_sep (c : ascii) : forall s : string,
  contains c s = false -> contains c (lstrip s) = false.
Proof.
  induction s as [|a rest IH]; intros H; [reflexivity|].
  simpl. destruct (is_space a); [|exact H].
  simpl in H. apply orb_false_iff in H. now apply IH.
Qed.

Lemma rstrip_no_sep (c : ascii) : forall s : string,
  contains c s = false -> contains c (rstrip s) = false.
Proof.
  induction s as [|a rest IH]; intros H; [reflexivity|].
  simpl in *. apply orb_false_iff in H. destruct H as [Ha Hrest].
  specialize (IH Hrest).
  destruct (rstrip rest) as [|b r].
  - destruct (is_space a); simpl; [reflexivity | now rewrite Ha].
  - simpl in *. now rewrite Ha, IH.
Qed.

(** The path the handler enqueues never has a colon in it: it is what
    follows the last colon of the command. *)
Lemma command_path_no_colon (raw : string) :
  contains ":" (command_path raw) = false.
Proof.
  unfold command_path, strip.
  apply rstrip_no_sep, lstrip_no_sep, last_segment_no_sep.
Qed.

Lemma handle_client_connection_enqueues raw s :
  let data := strip raw in
  startswith "SHOW_IMAGE:" data = true ->
  (List.length (ad_queue s) < MAX_QUEUE_SIZE)%nat ->
  ad_queue (handle_client_connection raw true s)
  = (ad_queue s ++ [(command_path raw, "image"%string)])%list.
Proof.
  intros data Hverb Hlen. unfold handle_client_connection. fold data.
  assert (truthy data = true) as -> by (destruct data; [discriminate | reflexivity]).
  rewrite Hverb. simpl.
  apply Nat.ltb_lt in Hlen. rewrite Hlen. reflexivity.
Qed.

(** C7, on the command [SHOW_IMAGE:/media/sale:50.jpg]: the payload after
    the first colon is [/media/sale:50.jpg], but the handler enqueues
    [50.jpg], the text after the last colon. *)
Theorem command_path_after_last_colon :
  payload_after_first_colon "SHOW_IMAGE:/media/sale:50.jpg" = "/media/sale:50.jpg"%string
  /\ command_path "SHOW_IMAGE:/media/sale:50.jpg" = "50.jpg"%string
  /\ ad_queue (handle_client_connection "SHOW_IMAGE:/media/sale:50.jpg" true initial)
     = [("50.jpg"%string, "image"%string)].
Proof. vm_compute. repeat (split; [reflexivity|]). reflexivity. Qed.

(** *** The QUIT command *)

Lemma handle_quit (s : Display) (raw : string) (is_file : bool) :
  strip raw = "QUIT"%string ->
  handle_client_connection raw is_file s
  = log (HandlerExit 0) (log PygameQuit (set_pygame_up false s)).
Proof.
  intros Hraw. unfold handle_client_connection. rewrite Hraw. reflexivity.
Qed.

(** After [QUIT] the next pass of the main loop stops on [pygame.error];
    no player was touched and no frame went to the display. *)
Lemma quit_then_pass (s : Display) (raw : string) (is_file : bool) (i : TickInput) :
  proc s = Alive ->
  strip raw = "QUIT"%string ->
  let s' := run [Command raw is_file; Tick i] s in
  proc s' = Crashed
  /\ players s' = players s
  /\ trace s' = (trace s ++ [PygameQuit; HandlerExit 0; PygameError])%list.
Proof.
  intros Hproc Hraw. unfold run. simpl fold_left.
  assert (Hstep : step s (Command raw is_file)
                  = log (HandlerExit 0) (log PygameQuit (set_pygame_up false s))).
  { unfold step. rewrite Hproc. now apply handle_quit. }
  rewrite Hstep. unfold step. simpl. rewrite Hproc. simpl.
  repeat split. rewrite <- !app_assoc. reflexivity.
Qed.

(** C8, on a video session in the Holding stage that receives [QUIT]: the
    handler calls [pygame.quit()] and ends its own thread, the next pass of
    the main loop stops on [pygame.error], and the capture stream of the
    video is still open: nothing released it. When the window is closed
    instead, the main loop releases the stream before it quits. *)
Theorem quit_command_leaves_capture_open :
  let s := run [Command "QUIT" false; Tick (Examples.quiet 12 6)] Examples.holding_video in
  let s' := run [Tick (Examples.window_closed 12 6)] Examples.holding_video in
  open_players Examples.holding_video = [0%nat]
  /\ proc s = Crashed
  /\ open_players s = [0%nat]
  /\ trace s = (trace Examples.holding_video ++ [PygameQuit; HandlerExit 0; PygameError])%list
  /\ proc s' = Exited
  /\ open_players s' = []
  /\ trace s' = (trace Examples.holding_video
                 ++ [DisplayUpdate 255; CapRelease 0; PygameQuit; ProcessExit 0])%list.
Proof. vm_compute. repeat (split; [reflexivity|]). reflexivity. Qed.

End TransportFacts.

(** ** The media root *)

Section MediaRootFacts.

Import PyStr Selection.

(** C9, on a file of [/opt/kiosk/media_private] with the media directory
    [/opt/kiosk/media]: [store_media] accepts the file, because its path
    starts with the characters of the media directory, and stores the path
    [../media_private/ad.jpg]; [play_media] resolves it to a path outside
    the media directory and sends the command to show it. *)
Theorem play_media_dispatches_outside_root :
  media_dir Examples.kiosk_dir = "/opt/kiosk/media"%string
  /\ map m_file_path (media Examples.stored_outside) = ["../media_private/ad.jpg"%string]
  /\ sent Examples.played_outside = ["SHOW_IMAGE:/opt/kiosk/media_private/ad.jpg"%string]
  /\ inside_dir (media_dir Examples.kiosk_dir) "/opt/kiosk/media_private/ad.jpg" = false.
Proof. vm_compute. repeat (split; [reflexivity|]). reflexivity. Qed.

End MediaRootFacts.

(** ** The properties on concrete catalogs and sessions *)

Section Instances.

Import PyStr PyNum Selection Display Examples.

Local Open Scope string_scope.

(** The filter property on a catalog of two assets for women of 18 to 29,
    with an event whose gender is written with a capital. *)
Lemma pick_weighted_media_in_filter_witness :
  fst (runState (pick_weighted_media kiosk one_minute one_half "18-29" "Female" "happy")
                rotation_world)
  = Some (2%Z, "acme", "b.jpg", "image/jpg")
  /\ exists row : MediaRow,
       In row (media rotation_world)
       /\ (2%Z, "acme", "b.jpg", "image/jpg") = ad_info_of_row row
       /\ m_age_range row = lower "18-29"
       /\ m_gender row = lower "Female"
       /\ lower (m_age_range row) = lower "18-29"
       /\ lower (m_gender row) = lower "Female"
       /\ m_device_id row = kiosk.
Proof.
  split; [vm_compute; reflexivity|].
  apply (pick_weighted_media_in_filter kiosk one_minute one_half
           "18-29" "Female" "happy" rotation_world).
  vm_compute. reflexivity.
Defined.

(** C4, as the spec states it, fails on two assets of profit score 1 with
    no targets: the one shown a minute ago and the one never shown both end
    at the floor of 1, so the first is not strictly lower. *)
Lemma recent_play_not_strictly_lower_at_floor :
  let r1 := row 1 1 "a.jpg" in
  let r2 := row 2 1 "b.jpg" in
  m_profit_score r1 = m_profit_score r2
  /\ m_mood_target r1 = m_mood_target r2
  /\ m_time_of_day_range r1 = m_time_of_day_range r2
  /\ last_display_in floor_world (m_id r1) = Some 0%Z
  /\ minutes_between (one_minute (clock_reads floor_world)) 0 < 5
  /\ last_display_in floor_world (m_id r2) = None
  /\ ~ (final_score_in one_minute "night" "happy" r1 floor_world
        < final_score_in one_minute "night" "happy" r2 floor_world).
Proof.
  vm_compute. do 6 (split; [reflexivity|]).
  intros H. discriminate H.
Qed.

(** The amended C4 on two assets of profit score 10: the one shown a minute
    ago scores 5, the one never shown 10. *)
Lemma recent_play_scores_lower_above_floor_witness :
  let r1 := row 1 10 "a.jpg" in
  let r2 := row 2 10 "b.jpg" in
  (m_profit_score r1 = m_profit_score r2
   /\ m_mood_target r1 = m_mood_target r2
   /\ m_time_of_day_range r1 = m_time_of_day_range r2
   /\ last_display_in rotation_world (m_id r1) = Some 0%Z
   /\ minutes_between (one_minute (clock_reads rotation_world)) 0 < 5
   /\ last_display_in rotation_world (m_id r2) = None)
  /\ final_score_in one_minute "night" "happy" r1 rotation_world
     <= final_score_in one_minute "night" "happy" r2 rotation_world
  /\ ((Z.abs (m_profit_score r2) <= 2 ^ 53 - 1510)%Z ->
      (final_score_in one_minute "night" "happy" r1 rotation_world
       < final_score_in one_minute "night" "happy" r2 rotation_world
       <-> 1 < final_score_in one_minute "night" "happy" r2 rotation_world)).
Proof.
  intros r1 r2.
  assert (Hmin : minutes_between (one_minute (clock_reads rotation_world)) 0 < 5)
    by (vm_compute; reflexivity).
  split.
  - do 4 (split; [reflexivity|]). split; [exact Hmin | reflexivity].
  - exact (recent_play_scores_lower_above_floor one_minute "night" "happy"
             r1 r2 rotation_world rotation_world 0%Z
             eq_refl eq_refl eq_refl eq_refl Hmin eq_refl).
Defined.

End Instances.

(** * Further properties *)

(** ** The selection engine: what a run reads and leaves alone *)

Section SelectionMoreFacts.

Import PyStr PyNum PyFacts Selection SelectionMore.

Variable device_id : string.
Variable clock : nat -> Z.
Variable rng : nat -> Q.

Local Abbreviation score_candidate := (Selection.score_candidate clock).
Local Abbreviation score_all := (Selection.score_all clock).
Local Abbreviation weighted_draw := (Selection.weighted_draw rng).
Local Abbreviation pick_weighted_media := (Selection.pick_weighted_media device_id clock rng).
Local Abbreviation eligible := (Selection.eligible device_id).
Local Abbreviation final_score_in := (Selection.final_score_in clock).
Local Abbreviation scored_in := (Selection.scored_in clock).

Lemma after_clock_reads_0 w : after_clock_reads 0 w = w.
Proof. destruct w; reflexivity. Qed.

Lemma after_clock_reads_add j k w :
  after_clock_reads j (after_clock_reads k w) = after_clock_reads (j + k) w.
Proof. unfold after_clock_reads. simpl. f_equal. lia. Qed.

Lemma has_history_after k w row :
  has_history (after_clock_reads k w) row = has_history w row.
Proof. reflexivity. Qed.

Lemma history_count_after k w rows :
  history_count (after_clock_reads k w) rows = history_count w rows.
Proof. reflexivity. Qed.

Lemma score_candidate_world tod mood row w :
  snd (runState (score_candidate tod mood row) w)
  = after_clock_reads (if has_history w row then 1 else 0) w.
Proof.
  unfold Selection.score_candidate, has_history, last_display_in. simpl.
  destruct (sql_max _) as [t|]; simpl.
  - destruct (Qlt_bool _ 5); reflexivity.
  - now rewrite after_clock_reads_0.
Qed.

Lemma score_all_world tod mood rows : forall w,
  snd (runState (score_all tod mood rows) w)
  = after_clock_reads (history_count w rows) w.
Proof.
  induction rows as [|row rest IH]; intros w.
  - simpl. now rewrite after_clock_reads_0.
  - rewrite score_all_cons.
    pose proof (score_candidate_world tod mood row w) as Hw.
    destruct (runState (score_candidate tod mood row) w) as [item w1].
    specialize (IH w1).
    destruct (runState (score_all tod mood rest) w1) as [items w2].
    simpl in *. subst w1 w2.
    rewrite after_clock_reads_add, history_count_after.
    unfold history_count. simpl.
    destruct (has_history w row); simpl; f_equal; lia.
Qed.

Lemma pick_weighted_media_world (age_range gender mood : string) (w : World) :
  snd (runState (pick_weighted_media age_range gender mood) w)
  = match eligible age_range gender w with
    | [] => w
    | rows => after_rng_draw (after_clock_reads (S (history_count w rows)) w)
    end.
Proof.
  rewrite pick_weighted_media_run.
  destruct (eligible age_range gender w) as [|r0 rs] eqn:Hel; [reflexivity|].
  assert (Hw1 : snd (runState (get_time_of_day_range clock) w) = after_clock_reads 1 w)
    by reflexivity.
  destruct (runState (get_time_of_day_range clock) w) as [tod w1].
  pose proof (score_all_world tod mood (r0 :: rs) w1) as Hw2.
  destruct (runState (score_all tod mood (r0 :: rs)) w1) as [wl w2].
  rewrite weighted_draw_run. cbn [fst snd] in *. subst w1 w2.
  rewrite history_count_after.
  unfold after_rng_draw, after_clock_reads. simpl.
  f_equal. lia.
Qed.

Lemma pick_weighted_media_tables (age_range gender mood : string) (w : World) :
  let w' := snd (runState (pick_weighted_media age_range gender mood) w) in
  media w' = media w /\ ad_displays w' = ad_displays w /\ sent w' = sent w.
Proof.
  cbv zeta. rewrite pick_weighted_media_world.
  destruct (eligible age_range gender w); auto.
Qed.

(** A result of [pick_weighted_media] is built from a row the query kept. *)
Lemma pick_weighted_media_row (age_range gender mood : string) (w : World)
  (info : AdInfo) :
  fst (runState (pick_weighted_media age_range gender mood) w) = Some info ->
  exists row : MediaRow,
    In row (eligible age_range gender w) /\ info = ad_info_of_row row.
Proof.
  intros H. rewrite pick_weighted_media_run in H.
  destruct (eligible age_range gender w) as [|r0 rs] eqn:Hel; [discriminate|].
  destruct (runState (get_time_of_day_range clock) w) as [tod w1].
  pose proof (score_all_info clock tod mood (r0 :: rs) w1) as Hinfo.
  destruct (runState (score_all tod mood (r0 :: rs)) w1) as [wl w2].
  rewrite weighted_draw_run in H. cbn [fst] in *.
  apply scan_In in H. rewrite Hinfo in H.
  apply in_map_iff in H. destruct H as [row [Hrow Hin]].
  exists row. split; [exact Hin | congruence].
Qed.

(** X1. When no row of the catalog matches the event,
    [pick_weighted_media] returns [None] at once: it reads neither the
    clock nor the random generator and leaves the world as it was. *)
Theorem pick_weighted_media_no_candidate :
  forall (age_range gender mood : string) (w : World),
    eligible age_range gender w = [] ->
    runState (pick_weighted_media age_range gender mood) w = (None, w).
Proof.
  intros age_range gender mood w H.
  rewrite pick_weighted_media_run, H. reflexivity.
Qed.

(** X2. With at least one candidate, [pick_weighted_media] changes nothing
    in the tables nor in the commands sent; it reads the random generator
    once, and the clock once for the time of day and once more for each
    candidate that has a display in the history. *)
Theorem pick_weighted_media_reads :
  forall (age_range gender mood : string) (w : World),
    eligible age_range gender w <> [] ->
    snd (runState (pick_weighted_media age_range gender mood) w)
    = after_rng_draw
        (after_clock_reads (S (history_count w (eligible age_range gender w))) w).
Proof.
  intros age_range gender mood w Hne.
  rewrite pick_weighted_media_world.
  destruct (eligible age_range gender w); [congruence | reflexivity].
Qed.

(** *** Scores *)

Lemma final_score_in_eq tod mood row w :
  final_score_in tod mood row w
  = py_max (with_recency (base_score tod mood row)
                         (last_display_in w (m_id row))
                         (clock (clock_reads w))) 1.
Proof.
  unfold Selection.final_score_in, Selection.score_candidate, last_display_in,
    with_recency, base_score, tod_matches, mood_matches.
  simpl.
  destruct (sql_max _) as [t|]; simpl; [|reflexivity].
  destruct (Qlt_bool _ 5); reflexivity.
Qed.

Lemma with_recency_bounds score last now :
  score - 5 <= with_recency score last now <= score + 30.
Proof.
  unfold with_recency. destruct last as [t|]; [|lra].
  destruct (Qlt_bool (minutes_between now t) 5) eqn:E; [lra|].
  apply Qlt_bool_false in E.
  unfold py_min. destruct (Qlt_bool 30 _) eqn:E2; [lra|].
  apply Qlt_bool_false in E2. lra.
Qed.

Lemma with_recency_rotation score t now :
  5 <= minutes_between now t ->
  score <= with_recency score (Some t) now <= score + 30.
Proof.
  intros H. unfold with_recency.
  apply Qlt_bool_false in H. rewrite H. apply Qlt_bool_false in H.
  unfold py_min. destruct (Qlt_bool 30 _) eqn:E2; [lra|].
  apply Qlt_bool_false in E2. lra.
Qed.

Lemma py_max_floor_mono a b : a <= b -> py_max a 1 <= py_max b 1.
Proof.
  intros H. unfold py_max.
  destruct (Qlt_bool a 1) eqn:Ea; destruct (Qlt_bool b 1) eqn:Eb;
    try apply Qlt_bool_iff in Ea; try apply Qlt_bool_iff in Eb;
    try apply Qlt_bool_false in Ea; try apply Qlt_bool_false in Eb; lra.
Qed.

Lemma py_max_floor_shift a c : 0 <= c -> py_max (a + c) 1 <= py_max a 1 + c.
Proof.
  intros H. unfold py_max.
  destruct (Qlt_bool (a + c) 1) eqn:Ea; destruct (Qlt_bool a 1) eqn:Eb;
    try apply Qlt_bool_iff in Ea; try apply Qlt_bool_iff in Eb;
    try apply Qlt_bool_false in Ea; try apply Qlt_bool_false in Eb; lra.
Qed.

Lemma base_score_same tod mood r1 r2 :
  m_profit_score r1 = m_profit_score r2 ->
  m_mood_target r1 = m_mood_target r2 ->
  m_time_of_day_range r1 = m_time_of_day_range r2 ->
  base_score tod mood r1 = base_score tod mood r2.
Proof.
  intros Hp Hm Ht. unfold base_score, tod_matches, mood_matches.
  now rewrite Hp, Hm, Ht.
Qed.

(** X3. Take two candidates with the same profit score, of magnitude at
    most [2^53 - 1540], the same mood target and time-of-day target, scored
    for the same event; one was last played 5 minutes or more before the
    clock reading, the other was never played. The one in rotation never
    scores lower, and at most 30 higher. In that range the score before the
    recency term and the same score with 30 added are integers that the
    floats of the code hold exactly, and the rounded sum with the bonus
    lies between them. *)
Theorem rotation_bonus_bounded :
  forall (tod mood : string) (r1 r2 : MediaRow) (w1 w2 : World) (t : Z),
    (Z.abs (m_profit_score r2) <= 2 ^ 53 - 1540)%Z ->
    m_profit_score r1 = m_profit_score r2 ->
    m_mood_target r1 = m_mood_target r2 ->
    m_time_of_day_range r1 = m_time_of_day_range r2 ->
    last_display_in w1 (m_id r1) = Some t ->
    5 <= minutes_between (clock (clock_reads w1)) t ->
    last_display_in w2 (m_id r2) = None ->
    final_score_in tod mood r2 w2 <= final_score_in tod mood r1 w1
    /\ final_score_in tod mood r1 w1 <= final_score_in tod mood r2 w2 + 30.
Proof.
  intros tod mood r1 r2 w1 w2 t _ Hp Hm Ht Hlast Hmin Hnone.
  rewrite !final_score_in_eq, Hlast, Hnone.
  rewrite (base_score_same tod mood r1 r2 Hp Hm Ht).
  set (b := base_score tod mood r2).
  pose proof (with_recency_rotation b t (clock (clock_reads w1)) Hmin) as [Hlo Hhi].
  cbn [with_recency] in *. fold (with_recency b (Some t) (clock (clock_reads w1))) in *.
  split.
  - now apply py_max_floor_mono.
  - eapply Qle_trans; [apply py_max_floor_mono; exact Hhi|].
    apply py_max_floor_shift. lra.
Qed.

Lemma base_score_mood tod mood row :
  mood_matches mood row = true ->
  inject_Z (m_profit_score row) + 1500 <= base_score tod mood row.
Proof.
  intros H. unfold base_score. rewrite H.
  destruct (tod_matches tod row); lra.
Qed.

Lemma base_score_no_mood tod mood row :
  mood_matches mood row = false ->
  base_score tod mood row <= inject_Z (m_profit_score row) + 10.
Proof.
  intros H. unfold base_score. rewrite H.
  destruct (tod_matches tod row); lra.
Qed.

(** X4. A candidate whose mood target is the mood of the event scores
    strictly higher than a candidate whose mood target is not, whatever
    their time-of-day targets and their playback histories, as long as the
    profit score of the second is less than 1455 above that of the first
    (and the first is above -1494), for profit scores of magnitude at most
    [2^53 - 1540]: in that range the sums of the profit score and the
    bonuses are exact in the floats of the code, and the rounded sum with
    the rotation bonus is at most the exact sum with 30. *)
Theorem mood_match_dominates :
  forall (tod mood : string) (r1 r2 : MediaRow) (w1 w2 : World),
    (Z.abs (m_profit_score r1) <= 2 ^ 53 - 1540)%Z ->
    (Z.abs (m_profit_score r2) <= 2 ^ 53 - 1540)%Z ->
    mood_matches mood r1 = true ->
    mood_matches mood r2 = false ->
    (m_profit_score r2 < m_profit_score r1 + 1455)%Z ->
    (-1494 < m_profit_score r1)%Z ->
    final_score_in tod mood r2 w2 < final_score_in tod mood r1 w1.
Proof.
  intros tod mood r1 r2 w1 w2 _ _ H1 H2 Hgap Hpos.
  rewrite !final_score_in_eq.
  pose proof (base_score_mood tod mood r1 H1) as Hb1.
  pose proof (base_score_no_mood tod mood r2 H2) as Hb2.
  pose proof (with_recency_bounds (base_score tod mood r1)
                (last_display_in w1 (m_id r1)) (clock (clock_reads w1))) as [Hlo1 _].
  pose proof (with_recency_bounds (base_score tod mood r2)
                (last_display_in w2 (m_id r2)) (clock (clock_reads w2))) as [_ Hhi2].
  set (x1 := with_recency (base_score tod mood r1) _ _) in *.
  set (x2 := with_recency (base_score tod mood r2) _ _) in *.
  assert (Hg : inject_Z (m_profit_score r2) < inject_Z (m_profit_score r1) + 1455).
  { rewrite <- (inject_Z_plus _ 1455). now rewrite <- Zlt_Qlt. }
  assert (Hp : -1494 < inject_Z (m_profit_score r1)).
  { change (-1494) with (inject_Z (-1494)). now rewrite <- Zlt_Qlt. }
  unfold py_max.
  destruct (Qlt_bool x2 1) eqn:E2; destruct (Qlt_bool x1 1) eqn:E1;
    try apply Qlt_bool_iff in E1; try apply Qlt_bool_iff in E2;
    try apply Qlt_bool_false in E1; try apply Qlt_bool_false in E2; lra.
Qed.

End SelectionMoreFacts.

Section HistoryFacts.

Import PyStr PyNum PyFacts Selection SelectionMore.

Variable device_id : string.
Variable clock : nat -> Z.

Lemma sql_max_None (l : list Z) : sql_max l = None <-> l = [].
Proof.
  destruct l as [|x rest]; simpl; [tauto|].
  destruct (sql_max rest); split; discriminate.
Qed.

Lemma sql_max_Some (l : list Z) (m : Z) :
  sql_max l = Some m -> In m l /\ forall x : Z, In x l -> (x <= m)%Z.
Proof.
  revert m. induction l as [|y rest IH]; intros m H; simpl in H; [discriminate|].
  destruct (sql_max rest) as [m'|] eqn:E.
  - injection H as <-. destruct (IH m' eq_refl) as [Hin Hmax].
    split.
    + destruct (Z.max_spec y m') as [[_ ->]|[_ ->]]; simpl; auto.
    + intros x [<-|Hx]; [lia|]. specialize (Hmax x Hx). lia.
  - injection H as <-. apply sql_max_None in E. subst rest.
    split; [now left|]. intros x [<-|[]]. lia.
Qed.

Lemma sql_max_snoc (l : list Z) (x : Z) :
  sql_max (l ++ [x]) = Some (match sql_max l with
                             | Some m => Z.max m x
                             | None => x
                             end).
Proof.
  induction l as [|y rest IH]; [reflexivity|].
  simpl. rewrite IH. destruct (sql_max rest) as [m|]; f_equal; lia.
Qed.

Lemma last_display_in_times w media_id :
  last_display_in w media_id = sql_max (display_times w media_id).
Proof. reflexivity. Qed.

(** X6. [get_last_display_time] answers [None] exactly when the history has
    no display of the asset; otherwise it answers the timestamp of one of
    the displays of that asset, and no display of the asset is later. *)
Theorem get_last_display_time_latest :
  forall (w : World) (media_id : Z),
    (last_display_in w media_id = None <->
     forall d : AdDisplayRow, In d (ad_displays w) -> d_media_id d <> media_id)
    /\ (forall t : Z,
           last_display_in w media_id = Some t ->
           (exists d : AdDisplayRow,
               In d (ad_displays w) /\ d_media_id d = media_id /\ d_timestamp d = t)
           /\ forall d : AdDisplayRow,
                In d (ad_displays w) -> d_media_id d = media_id ->
                (d_timestamp d <= t)%Z).
Proof.
  intros w media_id. rewrite last_display_in_times. unfold display_times. split.
  - rewrite sql_max_None. split.
    + intros H d Hd Hid.
      assert (Hin : In (d_timestamp d)
                       (map d_timestamp
                            (filter (fun d => (d_media_id d =? media_id)%Z) (ad_displays w)))).
      { apply in_map, filter_In. split; [exact Hd | now apply Z.eqb_eq]. }
      rewrite H in Hin. destruct Hin.
    + intros H.
      destruct (filter _ (ad_displays w)) as [|d rest] eqn:E; [reflexivity|].
      assert (Hin : In d (filter (fun d => (d_media_id d =? media_id)%Z) (ad_displays w)))
        by (rewrite E; now left).
      apply filter_In in Hin. destruct Hin as [Hd Hid].
      apply Z.eqb_eq in Hid. now destruct (H d Hd).
  - intros t Ht. apply sql_max_Some in Ht. destruct Ht as [Hin Hmax]. split.
    + apply in_map_iff in Hin. destruct Hin as [d [Hts Hd]].
      apply filter_In in Hd. destruct Hd as [Hd Hid]. apply Z.eqb_eq in Hid.
      exists d. auto.
    + intros d Hd Hid. apply Hmax. apply in_map, filter_In.
      split; [exact Hd | now apply Z.eqb_eq].
Qed.

(** X7. After [log_ad_display] records a display of an asset,
    [get_last_display_time] of that asset answers the later of its previous
    answer and the clock reading cut to seconds; the answers for the other
    assets are unchanged. *)
Theorem log_ad_display_then_last :
  forall (media_id : Z) (customer_id : string) (w : World),
    let w' := snd (runState (log_ad_display device_id clock media_id customer_id) w) in
    let stamp := (clock (clock_reads w) / microseconds_per_second)%Z in
    last_display_in w' media_id
    = Some (match last_display_in w media_id with
            | Some t => Z.max t stamp
            | None => stamp
            end)
    /\ forall other : Z,
         other <> media_id -> last_display_in w' other = last_display_in w other.
Proof.
  intros media_id customer_id w w' stamp.
  assert (Hads : ad_displays w'
                 = (ad_displays w ++ [{| d_media_id := media_id;
                                         d_customer_id := customer_id;
                                         d_timestamp := stamp;
                                         d_device_id := device_id |}])%list)
    by reflexivity.
  split.
  - rewrite !last_display_in_times. unfold display_times. rewrite Hads.
    rewrite filter_app, map_app. cbn [filter d_media_id].
    rewrite Z.eqb_refl. cbn [map d_timestamp]. apply sql_max_snoc.
  - intros other Hne.
    rewrite !last_display_in_times. unfold display_times. rewrite Hads.
    rewrite filter_app, map_app. cbn [filter d_media_id].
    assert ((media_id =? other)%Z = false) as -> by (apply Z.eqb_neq; congruence).
    cbn [map]. now rewrite app_nil_r.
Qed.

End HistoryFacts.

(** ** Dispatch and storage *)

Section DispatchFacts.

Import PyStr PyNum PyFacts Selection SelectionMore.

Variable device_id : string.
Variable clock : nat -> Z.
Variable rng : nat -> Q.
Variable script_dir : string.
Variable cwd : string.
Variable path_exists : string -> bool.

Local Abbreviation pick_weighted_media := (Selection.pick_weighted_media device_id clock rng).
Local Abbreviation eligible := (Selection.eligible device_id).
Local Abbreviation play_media :=
  (Selection.play_media device_id clock rng script_dir cwd path_exists).
Local Abbreviation store_media := (Selection.store_media device_id script_dir cwd).
Local Abbreviation log_ad_display := (Selection.log_ad_display device_id clock).
Local Abbreviation media_dir := (Selection.media_dir script_dir).

Lemma send_then_log_world command media_id customer_id w :
  let w' := snd (runState (bind (send_ad_command command)
                                (fun _ => log_ad_display media_id customer_id)) w) in
  media w' = media w
  /\ sent w' = (sent w ++ [command])%list
  /\ ad_displays w'
     = (ad_displays w
        ++ [{| d_media_id := media_id; d_customer_id := customer_id;
               d_timestamp := (clock (clock_reads w) / microseconds_per_second)%Z;
               d_device_id := device_id |}])%list.
Proof. cbv zeta. repeat split. Qed.

Lemma play_media_effect :
  forall (age_range gender mood : string) (w : World),
    let w' := snd (runState (play_media age_range gender mood) w) in
    media w' = media w
    /\ ((sent w' = sent w /\ ad_displays w' = ad_displays w)
        \/ exists (row : MediaRow) (verb : string) (stamp : Z),
             let path := PosixPath.abspath cwd
                           (PosixPath.join media_dir (m_file_path row)) in
             In row (eligible age_range gender w)
             /\ path_exists path = true
             /\ ((verb = "SHOW_IMAGE:"%string /\ is_image_type (m_media_type row) = true)
                 \/ (verb = "SHOW_VIDEO:"%string /\ is_video_type (m_media_type row) = true))
             /\ sent w' = (sent w ++ [(verb ++ path)%string])%list
             /\ ad_displays w'
                = (ad_displays w
                   ++ [{| d_media_id := m_id row;
                          d_customer_id := m_customer_id row;
                          d_timestamp := stamp;
                          d_device_id := device_id |}])%list).
Proof.
  intros age_range gender mood w. cbv zeta.
  unfold Selection.play_media. rewrite run_bind.
  pose proof (pick_weighted_media_tables device_id clock rng age_range gender mood w)
    as Ht. cbv zeta in Ht. destruct Ht as (Hm & Ha & Hs).
  pose proof (pick_weighted_media_row device_id clock rng age_range gender mood w)
    as Hrow.
  destruct (runState (pick_weighted_media age_range gender mood) w) as [ad_info w1].
  cbn [fst snd] in *.
  destruct ad_info as [[[[media_id customer_id] rel_file_path] media_type]|];
    [|split; [exact Hm | left; now split]].
  destruct (Hrow _ eq_refl) as [row [Hin Hinfo]].
  injection Hinfo as -> -> -> ->.
  destruct (path_exists _) eqn:Hex; cbn [negb];
    [|split; [exact Hm | left; now split]].
  destruct (is_image_type (m_media_type row)) eqn:Himg.
  - pose proof (send_then_log_world
                  ("SHOW_IMAGE:" ++ PosixPath.abspath cwd
                                      (PosixPath.join media_dir (m_file_path row)))
                  (m_id row) (m_customer_id row) w1) as Hw.
    cbv zeta in Hw. destruct Hw as (Hm' & Hs' & Ha').
    split; [congruence|]. right.
    exists row, "SHOW_IMAGE:"%string,
      (clock (clock_reads w1) / microseconds_per_second)%Z.
    cbv zeta. repeat split; auto; congruence.
  - destruct (is_video_type (m_media_type row)) eqn:Hvid;
      [|split; [exact Hm | left; now split]].
    pose proof (send_then_log_world
                  ("SHOW_VIDEO:" ++ PosixPath.abspath cwd
                                      (PosixPath.join media_dir (m_file_path row)))
                  (m_id row) (m_customer_id row) w1) as Hw.
    cbv zeta in Hw. destruct Hw as (Hm' & Hs' & Ha').
    split; [congruence|]. right.
    exists row, "SHOW_VIDEO:"%string,
      (clock (clock_reads w1) / microseconds_per_second)%Z.
    cbv zeta. repeat split; auto; congruence.
Qed.

(** X8. [play_media] never changes the [media] table. Either it sends no
    command and records no display, or it sends exactly one command and
    records exactly one display: the command shows the file of a row the
    query kept, resolved against the media directory, that file exists and
    its type is one of the supported image or video types, and the display
    recorded is of that same row. *)
Theorem play_media_logs_what_it_sends :
  forall (age_range gender mood : string) (w : World),
    let w' := snd (runState (play_media age_range gender mood) w) in
    media w' = media w
    /\ ((sent w' = sent w /\ ad_displays w' = ad_displays w)
        \/ exists (row : MediaRow) (verb : string) (stamp : Z),
             let path := PosixPath.abspath cwd
                           (PosixPath.join media_dir (m_file_path row)) in
             In row (eligible age_range gender w)
             /\ path_exists path = true
             /\ ((verb = "SHOW_IMAGE:"%string /\ is_image_type (m_media_type row) = true)
                 \/ (verb = "SHOW_VIDEO:"%string /\ is_video_type (m_media_type row) = true))
             /\ sent w' = (sent w ++ [(verb ++ path)%string])%list
             /\ ad_displays w'
                = (ad_displays w
                   ++ [{| d_media_id := m_id row;
                          d_customer_id := m_customer_id row;
                          d_timestamp := stamp;
                          d_device_id := device_id |}])%list).
Proof. exact play_media_effect. Qed.

(** X9. [store_media] leaves the world as it was when the absolute path of
    the file does not start with the media directory. Otherwise it adds one
    row at the end of the [media] table; for every event whose [age_range]
    and [gender] are those given to [store_media] up to case, the query of
    [pick_weighted_media] keeps that row. *)
Theorem store_media_then_eligible :
  forall (customer_id age_range gender file_path media_type : string)
         (profit_score : Z) (w : World),
    let w' := snd (runState (store_media customer_id age_range gender file_path
                                         media_type profit_score) w) in
    if startswith media_dir (PosixPath.abspath cwd file_path) then
      exists row : MediaRow,
        media w' = (media w ++ [row])%list
        /\ ad_displays w' = ad_displays w /\ sent w' = sent w
        /\ m_customer_id row = customer_id
        /\ m_media_type row = media_type
        /\ m_profit_score row = profit_score
        /\ m_file_path row
           = PosixPath.relpath cwd (PosixPath.abspath cwd file_path) media_dir
        /\ m_mood_target row = None
        /\ m_time_of_day_range row = None
        /\ (forall age_range' gender' : string,
               lower age_range' = lower age_range ->
               lower gender' = lower gender ->
               In row (eligible age_range' gender' w'))
    else w' = w.
Proof.
  intros customer_id age_range gender file_path media_type profit_score w.
  cbv zeta. unfold Selection.store_media.
  destruct (startswith media_dir (PosixPath.abspath cwd file_path)); cbn [negb];
    [|reflexivity].
  eexists. cbn [snd runState bind]. simpl.
  repeat split.
  intros age_range' gender' Ha Hg.
  apply eligible_spec. cbn. rewrite Ha, Hg.
  repeat split; auto. apply in_or_app. right. now left.
Qed.

End DispatchFacts.

(** ** Commands from the sender to the handler *)

Section CommandFacts.

Import PyStr PyNum PyFacts Display.

Lemma lstrip_length (s : string) :
  lstrip s = s \/ (String.length (lstrip s) < String.length s)%nat.
Proof.
  induction s as [|c rest IH]; [now left|].
  simpl. destruct (is_space c); [|now left].
  right. destruct IH as [-> | IH]; lia.
Qed.

Lemma rstrip_length (s : string) :
  (String.length (rstrip s) <= String.length s)%nat.
Proof.
  induction s as [|c rest IH]; [simpl; lia|].
  simpl. destruct (rstrip rest) as [|a r].
  - destruct (is_space c); simpl; lia.
  - simpl in *. lia.
Qed.

(** A string that [strip] leaves alone is left alone by both of its halves. *)
Lemma strip_fixed (s : string) : strip s = s -> lstrip s = s /\ rstrip s = s.
Proof.
  unfold strip. intros H.
  destruct (lstrip_length s) as [Hl | Hl].
  - rewrite Hl in H. auto.
  - pose proof (rstrip_length (lstrip s)) as Hr. rewrite H in Hr. lia.
Qed.

Lemma rstrip_app (a s : string) :
  s <> EmptyString -> rstrip s = s -> rstrip (a ++ s) = (a ++ s)%string.
Proof.
  intros Hne Hs. induction a as [|c a IH]; [exact Hs|].
  simpl. rewrite IH.
  destruct (a ++ s)%string eqn:E; [|reflexivity].
  destruct a; simpl in E; [congruence | discriminate].
Qed.

Lemma split_no_sep (sep : ascii) (s : string) :
  contains sep s = false -> split sep s = [s].
Proof.
  induction s as [|c rest IH]; intros H; [reflexivity|].
  simpl in *. apply orb_false_iff in H. destruct H as [Hc Hrest].
  rewrite Hc, (IH Hrest). reflexivity.
Qed.

Lemma split_two_segments (sep : ascii) (a s : string) :
  exists (x y : string) (rest : list string),
    split sep (a ++ String sep s) = x :: y :: rest.
Proof.
  induction a as [|c a IH]; simpl.
  - rewrite Ascii.eqb_refl.
    destruct (split sep s) as [|y rest] eqn:E;
      [now destruct (split_nonempty sep s) | eauto].
  - destruct IH as (x & y & rest & IH). rewrite IH.
    destruct (Ascii.eqb c sep); eauto.
Qed.

Lemma last_segment_after_sep (sep : ascii) (a s : string) :
  last_segment (split sep (a ++ String sep s)) = last_segment (split sep s).
Proof.
  unfold last_segment. induction a as [|c a IH].
  - simpl. rewrite Ascii.eqb_refl.
    apply last_cons_nonempty, split_nonempty.
  - simpl. destruct (split_two_segments sep a s) as (x & y & rest & E).
    rewrite E in *. destruct (Ascii.eqb c sep); exact IH.
Qed.

Lemma command_path_of_show (verb p : string) :
  lstrip (verb ++ ":" ++ p) = (verb ++ ":" ++ p)%string ->
  contains ":" p = false -> strip p = p -> p <> EmptyString ->
  strip (verb ++ ":" ++ p) = (verb ++ ":" ++ p)%string
  /\ command_path (verb ++ ":" ++ p) = p.
Proof.
  intros Hl Hc Hp Hne.
  destruct (strip_fixed p Hp) as [Hlp Hrp].
  assert (Hs : strip (verb ++ ":" ++ p) = (verb ++ ":" ++ p)%string).
  { unfold strip. rewrite Hl.
    apply rstrip_app; [discriminate|].
    apply rstrip_app; assumption. }
  split; [exact Hs|].
  unfold command_path. rewrite Hs.
  change (":" ++ p)%string with (String ":" p).
  rewrite last_segment_after_sep, (split_no_sep ":"%char p Hc).
  exact Hp.
Qed.

Lemma show_command_enqueued :
  forall (p : string) (s : Display),
    contains ":" p = false ->
    strip p = p ->
    p <> EmptyString ->
    (List.length (ad_queue s) < MAX_QUEUE_SIZE)%nat ->
    ad_queue (handle_client_connection ("SHOW_IMAGE:" ++ p) true s)
    = (ad_queue s ++ [(p, "image"%string)])%list
    /\ ad_queue (handle_client_connection ("SHOW_VIDEO:" ++ p) true s)
       = (ad_queue s ++ [(p, "video"%string)])%list.
Proof.
  intros p s Hc Hp Hne Hlen.
  apply Nat.ltb_lt in Hlen.
  destruct (command_path_of_show "SHOW_IMAGE" p eq_refl Hc Hp Hne) as [Hs1 Hp1].
  destruct (command_path_of_show "SHOW_VIDEO" p eq_refl Hc Hp Hne) as [Hs2 Hp2].
  unfold command_path in Hp1, Hp2.
  change ("SHOW_IMAGE" ++ ":" ++ p)%string with ("SHOW_IMAGE:" ++ p)%string in *.
  change ("SHOW_VIDEO" ++ ":" ++ p)%string with ("SHOW_VIDEO:" ++ p)%string in *.
  split; unfold handle_client_connection.
  - rewrite Hp1, Hs1, Hlen. reflexivity.
  - rewrite Hp2, Hs2, Hlen. reflexivity.
Qed.

(** X10. A command as [play_media] writes it, a verb [SHOW_IMAGE] or
    [SHOW_VIDEO], a colon and a path, arrives whole when the path is ASCII
    text, has no colon, is not empty and has no white space at its ends: if
    the path is a file and the queue is not full, the handler appends
    exactly that path with the type of the verb at the end of the queue. *)
Theorem show_command_round_trip :
  forall (p : string) (s : Display),
    PyText.isascii p = true ->
    contains ":" p = false ->
    strip p = p ->
    p <> EmptyString ->
    (List.length (ad_queue s) < MAX_QUEUE_SIZE)%nat ->
    ad_queue (handle_client_connection ("SHOW_IMAGE:" ++ p) true s)
    = (ad_queue s ++ [(p, "image"%string)])%list
    /\ ad_queue (handle_client_connection ("SHOW_VIDEO:" ++ p) true s)
       = (ad_queue s ++ [(p, "video"%string)])%list.
Proof. intros p s _. exact (show_command_enqueued p s). Qed.

(** X11. The handler ignores what it cannot use: when the command is
    ASCII text and, white space at its ends removed, is empty, or begins
    with neither [SHOW_IMAGE:] nor [SHOW_VIDEO:] and is not [QUIT], or
    names a path that is not a file, the state of the playback process is
    unchanged. *)
Theorem handle_client_connection_ignores :
  forall (raw : string) (is_file : bool) (s : Display),
    PyText.isascii raw = true ->
    strip raw <> "QUIT"%string ->
    strip raw = EmptyString
    \/ is_file = false
    \/ (startswith "SHOW_IMAGE:" (strip raw) = false
        /\ startswith "SHOW_VIDEO:" (strip raw) = false) ->
    handle_client_connection raw is_file s = s.
Proof.
  intros raw is_file s _ Hq H. unfold handle_client_connection.
  destruct (strip raw) as [|c data] eqn:E; [reflexivity|].
  cbn [truthy negb].
  destruct H as [H | [H | [H1 H2]]]; [discriminate | |].
  - subst is_file.
    destruct (startswith "SHOW_IMAGE:" (String c data)
              || startswith "SHOW_VIDEO:" (String c data)); [reflexivity|].
    destruct (String.eqb_spec (String c data) "QUIT"); [contradiction | reflexivity].
  - rewrite H1, H2. cbn [orb].
    destruct (String.eqb_spec (String c data) "QUIT"); [contradiction | reflexivity].
Qed.

End CommandFacts.

(** ** From the decision process to the queue *)

Section EndToEndFacts.

Import PyStr PyNum PyFacts Selection SelectionMore Display.

Variable device_id : string.
Variable clock : nat -> Z.
Variable rng : nat -> Q.
Variable script_dir : string.
Variable cwd : string.
Variable path_exists : string -> bool.

Local Abbreviation eligible := (Selection.eligible device_id).
Local Abbreviation play_media :=
  (Selection.play_media device_id clock rng script_dir cwd path_exists).
Local Abbreviation media_dir := (Selection.media_dir script_dir).

Lemma normpath_not_empty (p : string) : PosixPath.normpath p <> EmptyString.
Proof.
  unfold PosixPath.normpath.
  destruct (negb (truthy p)); [discriminate|].
  match goal with
  | |- (if truthy ?x then _ else _) <> _ => destruct x; [discriminate | discriminate]
  end.
Qed.

Lemma app_one_more {A : Type} (l : list A) (x : A) : l <> (l ++ [x])%list.
Proof.
  intros H. apply (f_equal (@List.length A)) in H.
  rewrite length_app in H. simpl in H. lia.
Qed.

(** X22. Whenever [play_media] sends a command, the command shows the file
    of a row the query kept, resolved against the media directory; and when
    that path is ASCII text with no colon and no white space at its ends,
    the handler of the playback process that receives the command, finds
    the file and has room in its queue appends exactly that path, as an
    image for the image types and as a video for the video types. *)
Theorem dispatched_command_is_enqueued :
  forall (age_range gender mood : string) (w : World) (command : string) (s : Display),
    sent (snd (runState (play_media age_range gender mood) w))
    = (sent w ++ [command])%list ->
    exists (row : MediaRow) (path media_type : string),
      In row (eligible age_range gender w)
      /\ path = PosixPath.abspath cwd (PosixPath.join media_dir (m_file_path row))
      /\ path_exists path = true
      /\ ((is_image_type (m_media_type row) = true /\ media_type = "image"%string)
          \/ (is_video_type (m_media_type row) = true /\ media_type = "video"%string))
      /\ (PyText.isascii path = true ->
          contains ":" path = false ->
          strip path = path ->
          (List.length (ad_queue s) < MAX_QUEUE_SIZE)%nat ->
          ad_queue (handle_client_connection command true s)
          = (ad_queue s ++ [(path, media_type)])%list).
Proof.
  intros age_range gender mood w command s Hsent.
  pose proof (play_media_effect device_id clock rng script_dir cwd path_exists
                age_range gender mood w) as H.
  cbv zeta in H. destruct H as [_ [[Hs _] | H]].
  - rewrite Hs in Hsent. now destruct (app_one_more (sent w) command).
  - destruct H as (row & verb & stamp & Hin & Hex & Hverb & Hs & _).
    rewrite Hs in Hsent. apply app_inj_tail in Hsent. destruct Hsent as [_ <-].
    set (path := PosixPath.abspath cwd (PosixPath.join media_dir (m_file_path row))) in *.
    assert (Hne : path <> EmptyString) by apply normpath_not_empty.
    destruct Hverb as [[-> Hty] | [-> Hty]].
    + exists row, path, "image"%string. repeat split; auto.
      intros _ Hc Hp Hlen.
      exact (proj1 (show_command_enqueued path s Hc Hp Hne Hlen)).
    + exists row, path, "video"%string. repeat split; auto.
      intros _ Hc Hp Hlen.
      exact (proj2 (show_command_enqueued path s Hc Hp Hne Hlen)).
Qed.

End EndToEndFacts.

(** ** The hand-off to the analysis thread and the average profit *)

Section CaptureFacts.

Import PyStr PyNum PyFacts Selection SelectionMore.

(** X12. The hand-off keeps the analysis queue within its capacity of 5.
    On a frame whose count is a multiple of [frame_skip] the new item
    always enters, at the end, and the queue becomes the last five entries
    of the old queue followed by the item (all of them when there are
    fewer): only the oldest entry can be lost. On the other frames the
    queue is unchanged. *)
Theorem hand_off_keeps_newest :
  forall (A : Type) (frame_count : Z) (item : A) (q : list A),
    (List.length q <= ANALYSIS_QUEUE_SIZE)%nat ->
    (List.length (hand_off frame_count item q) <= ANALYSIS_QUEUE_SIZE)%nat
    /\ ((frame_count mod frame_skip)%Z = 0%Z ->
        hand_off frame_count item q
        = skipn (List.length (q ++ [item]) - ANALYSIS_QUEUE_SIZE) (q ++ [item]))
    /\ ((frame_count mod frame_skip)%Z <> 0%Z -> hand_off frame_count item q = q).
Proof.
  intros A frame_count item q Hlen. unfold hand_off.
  destruct (Z.eqb_spec (frame_count mod frame_skip) 0) as [Hm|Hm].
  - destruct (Nat.leb_spec ANALYSIS_QUEUE_SIZE (List.length q)) as [Hfull|Hroom].
    + assert (Hq : List.length q = ANALYSIS_QUEUE_SIZE) by lia.
      destruct q as [|x rest]; [discriminate|].
      cbn [tl]. rewrite !length_app. simpl in *.
      repeat split; try lia; try contradiction.
      intros _. replace (List.length rest) with 4%nat
        by (unfold ANALYSIS_QUEUE_SIZE in *; lia).
      reflexivity.
    + rewrite !length_app. simpl.
      repeat split; try lia; try contradiction.
      intros _. replace (List.length q + 1 - ANALYSIS_QUEUE_SIZE)%nat with 0%nat by lia.
      reflexivity.
  - repeat split; auto. intros H. contradiction.
Qed.

Variable device_id : string.

Local Abbreviation eligible := (Selection.eligible device_id).
Local Abbreviation calculate_profit := (SelectionFloat.calculate_profit device_id).

(** X13. [calculate_profit] leaves the world as it was and averages the
    profit scores of exactly the rows the query of [pick_weighted_media]
    keeps for the same event: it answers 0 when there is none, and
    otherwise their sum divided by their number, as the floats of the code
    divide. The magnitudes of the profit scores add up to [2^53] at most,
    so that the sum is held exactly. *)
Theorem calculate_profit_average :
  forall (age_range gender : string) (w : World),
    let scores := map m_profit_score (eligible age_range gender w) in
    (SelectionFloat.sum_of_magnitudes scores <= 2 ^ 53)%Z ->
    snd (runState (calculate_profit age_range gender) w) = w
    /\ fst (runState (calculate_profit age_range gender) w)
       = match scores with
         | [] => PyFloat.float_of_int 0
         | _ :: _ =>
             (PyFloat.float_of_int (fold_right Z.add 0%Z scores)
              / PyFloat.float_of_int (Z.of_nat (List.length scores)))%float
         end.
Proof.
  intros age_range gender w scores _.
  split; [reflexivity|].
  unfold SelectionFloat.calculate_profit, scores, Selection.eligible, select_candidates.
  cbn [fst runState bind get ret Monad_state MonadState_state].
  set (l := map m_profit_score _).
  destruct l as [|x rest] eqn:E; [reflexivity|].
  cbn [SelectionFloat.sql_avg].
  rewrite <- fold_symmetric; [reflexivity | intros; lia | intros; lia].
Qed.

End CaptureFacts.

(** ** Truncation to an integer *)

Section TruncationFacts.

Import PyNum.

Lemma div_le_cross (a b c d : Z) :
  (0 < b)%Z -> (0 < d)%Z -> (a * d <= c * b)%Z -> (a / b <= c / d)%Z.
Proof.
  intros Hb Hd H.
  apply Z.div_le_lower_bound; [exact Hd|].
  pose proof (Z.mul_div_le a b Hb) as Hq.
  assert (Hm : (b * (d * (a / b)) <= b * c)%Z) by nia.
  apply Z.mul_le_mono_pos_l with (p := b); assumption.
Qed.

Lemma py_int_nonneg (x : Q) : 0 <= x -> (0 <= py_int x)%Z.
Proof.
  intros H. unfold py_int. unfold Qle in H. simpl in H.
  apply Z.quot_pos; lia.
Qed.

Lemma py_int_nonpos (x : Q) : x <= 0 -> (py_int x <= 0)%Z.
Proof.
  intros H. unfold py_int. unfold Qle in H. simpl in H.
  assert (Hn : (0 <= - Qnum x)%Z) by lia.
  pose proof (Z.quot_pos (- Qnum x) (Zpos (Qden x)) Hn ltac:(lia)) as Hq.
  rewrite Z.quot_opp_l in Hq by lia. lia.
Qed.

(** Truncation toward zero keeps the order. *)
Lemma py_int_mono (x y : Q) : x <= y -> (py_int x <= py_int y)%Z.
Proof.
  intros H.
  destruct (Qlt_le_dec x 0) as [Hx|Hx]; destruct (Qlt_le_dec y 0) as [Hy|Hy].
  - unfold py_int. unfold Qle, Qlt in *. simpl in *.
    assert (Hq : (- Qnum y / Zpos (Qden y) <= - Qnum x / Zpos (Qden x))%Z)
      by (apply div_le_cross; lia).
    rewrite <- !Z.quot_div_nonneg in Hq by lia.
    rewrite !Z.quot_opp_l in Hq by lia. lia.
  - pose proof (py_int_nonpos x (Qlt_le_weak _ _ Hx)).
    pose proof (py_int_nonneg y Hy). lia.
  - exfalso. lra.
  - unfold py_int. unfold Qle in *. simpl in *.
    rewrite !Z.quot_div_nonneg by lia.
    apply div_le_cross; lia.
Qed.

Lemma py_int_inject_Z (n : Z) : py_int (inject_Z n) = n.
Proof. unfold py_int. simpl. apply Z.quot_1_r. Qed.

Lemma py_int_le (x : Q) (n : Z) : x <= inject_Z n -> (py_int x <= n)%Z.
Proof. intros H. rewrite <- (py_int_inject_Z n). now apply py_int_mono. Qed.

Lemma py_int_ge (x : Q) (n : Z) : inject_Z n <= x -> (n <= py_int x)%Z.
Proof. intros H. rewrite <- (py_int_inject_Z n). now apply py_int_mono. Qed.

End TruncationFacts.

(** ** The frame in the window *)

Section LetterboxFacts.

Import PyNum PyFacts DisplayMore.

(** X14. For a frame and a window of positive sizes, the size
    [VideoPlayer.get_frame] scales the frame to fits the window: neither
    side is negative or exceeds the window's, one of the two sides is the
    window's, and the place where the frame is put keeps it inside the
    window. *)
Theorem letterbox_fits_window :
  forall (frame_w frame_h : Q) (width height : Z),
    0 < frame_w -> 0 < frame_h -> (0 < width)%Z -> (0 < height)%Z ->
    let size := letterbox frame_w frame_h width height in
    let offset := blit_offset size width height in
    (0 <= fst size <= width)%Z
    /\ (0 <= snd size <= height)%Z
    /\ (fst size = width \/ snd size = height)
    /\ (0 <= fst offset)%Z /\ (fst offset + fst size <= width)%Z
    /\ (0 <= snd offset)%Z /\ (snd offset + snd size <= height)%Z.
Proof.
  intros frame_w frame_h width height Hfw Hfh Hw Hh size offset.
  assert (HW : 0 < inject_Z width) by (change 0 with (inject_Z 0); now rewrite <- Zlt_Qlt).
  assert (HH : 0 < inject_Z height) by (change 0 with (inject_Z 0); now rewrite <- Zlt_Qlt).
  assert (Hva : 0 < frame_w / frame_h) by (apply Qlt_shift_div_l; lra).
  assert (Hsize : (0 <= fst size <= width)%Z /\ (0 <= snd size <= height)%Z
                  /\ (fst size = width \/ snd size = height)).
  { unfold size, letterbox.
    set (va := frame_w / frame_h) in *.
    assert (HWH : inject_Z width == inject_Z width / inject_Z height * inject_Z height)
      by (field; lra).
    destruct (Qlt_bool (inject_Z width / inject_Z height) va) eqn:E; cbn [fst snd].
    - apply Qlt_bool_iff in E.
      assert (Hlt : inject_Z width / inject_Z height * inject_Z height
                    < va * inject_Z height)
        by (apply Qmult_lt_compat_r; assumption).
      assert (Hq : inject_Z width / va <= inject_Z height)
        by (apply Qle_shift_div_r; [exact Hva | lra]).
      assert (Hq0 : 0 <= inject_Z width / va) by (apply Qle_shift_div_l; lra).
      pose proof (py_int_le _ _ Hq). pose proof (py_int_nonneg _ Hq0).
      repeat split; auto; lia.
    - apply Qlt_bool_false in E.
      assert (Hle : va * inject_Z height
                    <= inject_Z width / inject_Z height * inject_Z height)
        by (apply Qmult_le_compat_r; lra).
      assert (Hq : inject_Z height * va <= inject_Z width) by lra.
      assert (Hq0 : 0 <= inject_Z height * va) by (apply Qmult_le_0_compat; lra).
      pose proof (py_int_le _ _ Hq). pose proof (py_int_nonneg _ Hq0).
      repeat split; auto; lia. }
  destruct Hsize as (Hx & Hy & Hone).
  unfold offset, blit_offset. cbn [fst snd].
  repeat split; try lia; try exact Hone.
  - apply Z.div_pos; lia.
  - pose proof (Z.mul_div_le (width - fst size) 2 ltac:(lia)). lia.
  - apply Z.div_pos; lia.
  - pose proof (Z.mul_div_le (height - snd size) 2 ltac:(lia)). lia.
Qed.

End LetterboxFacts.

(** ** The opacity of the session *)

Section AlphaFacts.

Import PyStr PyNum PyFacts Display DisplayMore.

Ltac no_frames :=
  let a := fresh "a" in
  let H := fresh "H" in
  intros a H; simpl in H; intuition discriminate.

Ltac extends :=
  unfold extends_without_frames; simpl; rewrite <- ?app_assoc; simpl;
  first [ exists []; split; [now rewrite app_nil_r | no_frames]
        | eexists; split; [reflexivity | no_frames] ].

Lemma extends_refl s : extends_without_frames s s.
Proof. extends. Qed.

Lemma extends_trans s1 s2 s3 :
  extends_without_frames s1 s2 -> extends_without_frames s2 s3 ->
  extends_without_frames s1 s3.
Proof.
  intros [l1 [H1 N1]] [l2 [H2 N2]]. exists (l1 ++ l2)%list. split.
  - now rewrite H2, H1, app_assoc.
  - intros a Hin. apply in_app_or in Hin. destruct Hin; [eapply N1 | eapply N2]; eauto.
Qed.

Lemma extends_frames s s' :
  extends_without_frames s s' -> frames_in_range s -> frames_in_range s'.
Proof.
  intros [l [Ht N]] H a Hin. rewrite Ht in Hin.
  apply in_app_or in Hin. destruct Hin as [Hin|Hin]; [now apply H | now destruct (N a)].
Qed.

Lemma handle_event_same ok s ev :
  alpha (handle_event ok s ev) = alpha s
  /\ stage_start_time (handle_event ok s ev) = stage_start_time s
  /\ trace (handle_event ok s ev) = trace s.
Proof.
  destruct ev as [|key|w h|]; simpl; auto.
  - destruct (key =? K_ESCAPE)%Z; auto.
  - destruct (current_image_path s) as [p|], (is_video s) eqn:Hv; simpl;
      try destruct (truthy p && ok); simpl; rewrite ?Hv;
      destruct (video_player s); auto.
Qed.

Lemma handle_events_same ok evs : forall s,
  alpha (fold_left (handle_event ok) evs s) = alpha s
  /\ stage_start_time (fold_left (handle_event ok) evs s) = stage_start_time s
  /\ trace (fold_left (handle_event ok) evs s) = trace s.
Proof.
  induction evs as [|ev rest IH]; intros s; simpl; auto.
  destruct (IH (handle_event ok s ev)) as (Ha & Ht & Hr).
  destruct (handle_event_same ok s ev) as (Ha' & Ht' & Hr').
  repeat split; congruence.
Qed.

Lemma handle_client_connection_same raw is_file s :
  alpha (handle_client_connection raw is_file s) = alpha s
  /\ stage_start_time (handle_client_connection raw is_file s) = stage_start_time s
  /\ extends_without_frames s (handle_client_connection raw is_file s).
Proof.
  unfold handle_client_connection.
  repeat match goal with
         | |- context [if ?b then _ else _] => destruct b
         end; repeat split; try reflexivity; extends.
Qed.

Lemma start_new_ad_alpha path media_type now ok s :
  (alpha (start_new_ad path media_type now ok s) = alpha s
   /\ stage_start_time (start_new_ad path media_type now ok s) = stage_start_time s)
  \/ (alpha (start_new_ad path media_type now ok s) = 0%Z
      /\ stage_start_time (start_new_ad path media_type now ok s) = now).
Proof.
  unfold start_new_ad.
  destruct (is_video s), (video_player s);
    destruct (String.eqb media_type "image"), (String.eqb media_type "video"), ok;
    simpl; auto.
Qed.

Lemma start_new_ad_extends path media_type now ok s :
  extends_without_frames s (start_new_ad path media_type now ok s).
Proof.
  unfold start_new_ad.
  destruct (is_video s), (video_player s);
    destruct (String.eqb media_type "image"), (String.eqb media_type "video"), ok;
    extends.
Qed.

Lemma update_fade_extends i s : extends_without_frames s (fst (update_fade i s)).
Proof.
  unfold update_fade. destruct (current_stage s).
  - destruct (ad_queue s) as [|[path media_type] rest]; cbn [fst]; [apply extends_refl|].
    eapply extends_trans; [|apply start_new_ad_extends]. extends.
  - destruct (Qle_bool _ _); extends.
  - destruct (is_video s); [destruct (video_player s)|];
      try destruct (Qle_bool _ _); extends.
  - destruct (Qle_bool _ _); [|extends].
    destruct (is_video s) eqn:Hv; simpl; rewrite ?Hv;
      [destruct (current_media s) as [[p w h|k]|]|]; extends.
Qed.

Lemma main_loop_exit_same s :
  alpha (main_loop_exit s) = alpha s
  /\ stage_start_time (main_loop_exit s) = stage_start_time s
  /\ extends_without_frames s (main_loop_exit s).
Proof.
  unfold main_loop_exit.
  destruct (is_video s), (video_player s); repeat split; extends.
Qed.

Lemma fade_in_level (e : Q) : 0 <= e -> (0 <= Z.min 255 (py_int (255 * e / FADE_IN_DURATION)) <= 255)%Z.
Proof.
  intros H. unfold FADE_IN_DURATION.
  assert (H0 : 0 <= 255 * e / 1)
    by (setoid_replace (255 * e / 1) with (255 * e) by field; lra).
  pose proof (py_int_nonneg _ H0). lia.
Qed.

Lemma fade_in_full (e : Q) :
  FADE_IN_DURATION <= e -> Z.min 255 (py_int (255 * e / FADE_IN_DURATION)) = 255%Z.
Proof.
  unfold FADE_IN_DURATION. intros H.
  assert (H0 : inject_Z 255 <= 255 * e / 1)
    by (setoid_replace (255 * e / 1) with (255 * e) by field;
        change (inject_Z 255) with 255; lra).
  pose proof (py_int_ge _ _ H0). lia.
Qed.

Lemma fade_out_level (e : Q) :
  0 <= e -> (0 <= Z.max 0 (255 - py_int (255 * e / FADE_OUT_DURATION)) <= 255)%Z.
Proof.
  intros H. unfold FADE_OUT_DURATION.
  assert (H0 : 0 <= 255 * e / 1)
    by (setoid_replace (255 * e / 1) with (255 * e) by field; lra).
  pose proof (py_int_nonneg _ H0). lia.
Qed.

Lemma fade_out_empty (e : Q) :
  FADE_OUT_DURATION <= e -> Z.max 0 (255 - py_int (255 * e / FADE_OUT_DURATION)) = 0%Z.
Proof.
  unfold FADE_OUT_DURATION. intros H.
  assert (H0 : inject_Z 255 <= 255 * e / 1)
    by (setoid_replace (255 * e / 1) with (255 * e) by field;
        change (inject_Z 255) with 255; lra).
  pose proof (py_int_ge _ _ H0). lia.
Qed.

Lemma update_fade_alpha_range_step (i : TickInput) (s : Display) :
  stage_start_time s <= t_first i ->
  alpha_in_range s ->
  alpha_in_range (fst (update_fade i s)).
Proof.
  intros Ht Ha. unfold alpha_in_range in *. unfold update_fade.
  assert (He : 0 <= t_first i - stage_start_time s) by lra.
  destruct (current_stage s) eqn:Hst.
  - destruct (ad_queue s) as [|[path media_type] rest]; cbn [fst]; try lia.
    destruct (start_new_ad_alpha path media_type (t_first i) (load_ok i)
                (set_ad_queue rest s)) as [[H _]|[H _]]; rewrite H; simpl; lia.
  - pose proof (fade_in_level _ He) as Hl.
    destruct (Qle_bool _ _); cbn [fst]; simpl; lia.
  - destruct (is_video s); [destruct (video_player s)|];
      try destruct (Qle_bool _ _); cbn [fst]; simpl; lia.
  - pose proof (fade_out_level _ He) as Hl.
    set (a := Z.max 0 (255 - py_int _)) in *.
    destruct (Qle_bool _ _); [|cbn [fst]; simpl; lia].
    destruct (is_video s) eqn:Hv; simpl; rewrite ?Hv;
      [destruct (current_media s) as [[p w h|k]|]|]; cbn [fst]; simpl; lia.
Qed.

(** X15. When the clock has not gone back behind the start of the stage,
    one pass of [update_fade] keeps the alpha between 0 and 255. The
    fade-in ends in the Holding stage with the alpha at 255 exactly, and the
    fade-out ends in the Idle stage with the alpha at 0 exactly, however
    late the pass comes. *)
Theorem update_fade_alpha_range :
  forall (i : TickInput) (s : Display),
    stage_start_time s <= t_first i ->
    alpha_in_range s ->
    let s' := fst (update_fade i s) in
    alpha_in_range s'
    /\ (current_stage s = FADING_IN -> current_stage s' = HOLDING -> alpha s' = 255%Z)
    /\ (current_stage s = FADING_OUT -> current_stage s' = IDLE -> alpha s' = 0%Z).
Proof.
  intros i s Ht Ha. cbv zeta. unfold alpha_in_range in *. unfold update_fade.
  assert (He : 0 <= t_first i - stage_start_time s) by lra.
  destruct (current_stage s) eqn:Hst.
  - repeat split; try discriminate;
      destruct (ad_queue s) as [|[path media_type] rest]; cbn [fst]; try lia;
      destruct (start_new_ad_alpha path media_type (t_first i) (load_ok i)
                  (set_ad_queue rest s)) as [[H _]|[H _]]; rewrite H; simpl; lia.
  - pose proof (fade_in_level _ He) as Hl.
    destruct (Qle_bool FADE_IN_DURATION (t_first i - stage_start_time s)) eqn:E;
      cbn [fst]; simpl; repeat split; try lia; try discriminate.
    + intros _ _. apply Qle_bool_iff in E. now apply fade_in_full.
    + intros _ H. rewrite Hst in H. discriminate.
  - destruct (is_video s); [destruct (video_player s)|];
      try destruct (Qle_bool _ _); cbn [fst]; simpl;
      repeat split; try lia; discriminate.
  - pose proof (fade_out_level _ He) as Hl.
    destruct (Qle_bool FADE_OUT_DURATION (t_first i - stage_start_time s)) eqn:E.
    + apply Qle_bool_iff in E. pose proof (fade_out_empty _ E) as H0.
      set (a := Z.max 0 (255 - py_int _)) in *.
      destruct (is_video s) eqn:Hv; simpl; rewrite ?Hv;
        [destruct (current_media s) as [[p w h|k]|]|];
        cbn [fst]; simpl; repeat split; try lia; try discriminate; auto.
    + set (a := Z.max 0 (255 - py_int _)) in *.
      cbn [fst]. simpl. repeat split; try lia; try discriminate.
      intros _ H. rewrite Hst in H. discriminate.
Qed.

Lemma update_fade_start i s :
  stage_start_time (fst (update_fade i s)) = stage_start_time s
  \/ stage_start_time (fst (update_fade i s)) = t_first i
  \/ stage_start_time (fst (update_fade i s)) = t_second i.
Proof.
  unfold update_fade. destruct (current_stage s).
  - destruct (ad_queue s) as [|[path media_type] rest]; cbn [fst]; auto.
    destruct (start_new_ad_alpha path media_type (t_first i) (load_ok i)
                (set_ad_queue rest s)) as [[_ H]|[_ H]]; rewrite H; auto.
  - destruct (Qle_bool _ _); simpl; auto.
  - destruct (is_video s); [destruct (video_player s)|];
      try destruct (Qle_bool _ _); simpl; auto.
  - destruct (Qle_bool _ _); [|simpl; auto].
    destruct (is_video s) eqn:Hv; simpl; rewrite ?Hv;
      [destruct (current_media s) as [[p w h|k]|]|]; simpl; auto.
Qed.

Lemma main_loop_pass_range i s latest :
  latest <= t_first i -> t_first i <= t_second i ->
  stage_start_time s <= latest -> alpha_in_range s -> frames_in_range s ->
  stage_start_time (main_loop_pass i s) <= t_second i
  /\ alpha_in_range (main_loop_pass i s)
  /\ frames_in_range (main_loop_pass i s).
Proof.
  intros H1 H2 Hs Ha Hf. unfold main_loop_pass.
  destruct (pygame_up s).
  - cbn [negb].
    destruct (handle_events_same (load_ok i) (events_in i) s) as (Ea & Et & Er).
    set (s1 := fold_left (handle_event (load_ok i)) (events_in i) s) in *.
    assert (Hs1 : stage_start_time s1 <= t_first i) by (rewrite Et; lra).
    assert (Ha1 : alpha_in_range s1) by (unfold alpha_in_range; now rewrite Ea).
    assert (Hf1 : frames_in_range s1) by (unfold frames_in_range; now rewrite Er).
    pose proof (update_fade_alpha_range_step i s1 Hs1 Ha1) as Ha2.
    pose proof (update_fade_start i s1) as Ht2.
    pose proof (extends_frames _ _ (update_fade_extends i s1) Hf1) as Hf2.
    destruct (update_fade i s1) as [s2 ok]. cbn [fst] in *.
    assert (Hs2 : stage_start_time s2 <= t_second i)
      by (destruct Ht2 as [H|[H|H]]; rewrite H; lra).
    destruct ok; [|split; [exact Hs2 | split; [exact Ha2 | exact Hf2]]].
    assert (Hf3 : frames_in_range (render s2)).
    { intros a Hin. unfold render, log in Hin. simpl in Hin.
      apply in_app_or in Hin. destruct Hin as [Hin|[Hin|[]]]; [now apply Hf2|].
      injection Hin as <-. exact Ha2. }
    destruct (running (render s2));
      [split; [exact Hs2 | split; [exact Ha2 | exact Hf3]]|].
    destruct (main_loop_exit_same (render s2)) as (Ea3 & Et3 & Ex3).
    split; [|split].
    + rewrite Et3. exact Hs2.
    + unfold alpha_in_range. rewrite Ea3. exact Ha2.
    + exact (extends_frames _ _ Ex3 Hf3).
  - cbn [negb]. split; [|split].
    + simpl. lra.
    + exact Ha.
    + intros a Hin. simpl in Hin. apply in_app_or in Hin.
      destruct Hin as [Hin|[Hin|[]]]; [now apply Hf | discriminate].
Qed.

Lemma run_range : forall (es : list Event) (latest : Q) (s : Display),
  times_ordered latest es ->
  stage_start_time s <= latest -> alpha_in_range s -> frames_in_range s ->
  alpha_in_range (run es s) /\ frames_in_range (run es s).
Proof.
  unfold run. induction es as [|e rest IH]; intros latest s Hord Hs Ha Hf;
    [simpl; auto|].
  cbn [fold_left]. destruct e as [i|raw is_file].
  - destruct Hord as (H1 & H2 & Hrest).
    unfold step. destruct (proc s) eqn:Hp.
    + destruct (main_loop_pass_range i s latest H1 H2 Hs Ha Hf) as (Hs' & Ha' & Hf').
      exact (IH _ _ Hrest Hs' Ha' Hf').
    + apply (IH (t_second i)); auto. lra.
    + apply (IH (t_second i)); auto. lra.
  - simpl in Hord. unfold step. destruct (proc s) eqn:Hp.
    + destruct (handle_client_connection_same raw is_file s) as (Ea & Et & Ex).
      apply (IH latest); auto.
      * now rewrite Et.
      * unfold alpha_in_range. now rewrite Ea.
      * exact (extends_frames _ _ Ex Hf).
    + now apply (IH latest).
    + now apply (IH latest).
Qed.

(** X16. Along any run of the playback process from its initial state in
    which the readings of [time.time()] do not go backwards, the alpha of
    the session stays between 0 and 255, and so did the alpha of every frame
    that went to the display. *)
Theorem frames_alpha_in_range :
  forall es : list Event,
    times_ordered 0 es ->
    alpha_in_range (run es initial) /\ frames_in_range (run es initial).
Proof.
  intros es Hord. apply (run_range es 0 initial Hord).
  - simpl. lra.
  - unfold alpha_in_range. simpl. lia.
  - intros a [].
Qed.

(** X17. Within a fade, the alpha moves one way. If a pass of
    [update_fade] leaves the process in the FadingIn stage, the alpha after
    a later pass is at least the alpha after that one; if it leaves it in
    the FadingOut stage, the alpha after a later pass is at most that. *)
Theorem alpha_monotone_within_fade :
  forall (i1 i2 : TickInput) (s : Display),
    t_first i1 <= t_first i2 ->
    let s1 := fst (update_fade i1 s) in
    let s2 := fst (update_fade i2 s1) in
    (current_stage s = FADING_IN -> current_stage s1 = FADING_IN ->
     (alpha s1 <= alpha s2)%Z)
    /\ (current_stage s = FADING_OUT -> current_stage s1 = FADING_OUT ->
        (alpha s2 <= alpha s1)%Z).
Proof.
  intros i1 i2 s Ht. cbv zeta. split; intros Hst Hst1.
  - unfold update_fade in Hst1 |- *. rewrite Hst in *.
    destruct (Qle_bool FADE_IN_DURATION (t_first i1 - stage_start_time s));
      [simpl in Hst1; discriminate|].
    cbn [fst] in *.
    set (a1 := Z.min 255 (py_int (255 * (t_first i1 - stage_start_time s)
                                  / FADE_IN_DURATION))) in *.
    simpl current_stage. rewrite Hst. simpl stage_start_time.
    set (a2 := Z.min 255 (py_int (255 * (t_first i2 - stage_start_time s)
                                  / FADE_IN_DURATION))).
    assert (Hle : (a1 <= a2)%Z).
    { unfold a1, a2. apply Z.min_le_compat_l. apply py_int_mono.
      unfold FADE_IN_DURATION.
      setoid_replace (255 * (t_first i1 - stage_start_time s) / 1)
        with (255 * (t_first i1 - stage_start_time s)) by field.
      setoid_replace (255 * (t_first i2 - stage_start_time s) / 1)
        with (255 * (t_first i2 - stage_start_time s)) by field.
      lra. }
    destruct (Qle_bool FADE_IN_DURATION (t_first i2 - stage_start_time s));
      simpl; exact Hle.
  - unfold update_fade in Hst1 |- *. rewrite Hst in *.
    destruct (Qle_bool FADE_OUT_DURATION (t_first i1 - stage_start_time s)).
    + exfalso. destruct (is_video _); [destruct (current_media _) as [[p w h|k]|]|];
        simpl in Hst1; discriminate.
    + cbn [fst] in *.
      set (a1 := Z.max 0 (255 - py_int (255 * (t_first i1 - stage_start_time s)
                                        / FADE_OUT_DURATION))) in *.
      simpl current_stage. rewrite Hst. simpl stage_start_time.
      set (a2 := Z.max 0 (255 - py_int (255 * (t_first i2 - stage_start_time s)
                                        / FADE_OUT_DURATION))).
      assert (Hle : (a2 <= a1)%Z).
      { unfold a1, a2. apply Z.max_le_compat_l.
        apply Z.sub_le_mono_l. apply py_int_mono.
        unfold FADE_OUT_DURATION.
        setoid_replace (255 * (t_first i1 - stage_start_time s) / 1)
          with (255 * (t_first i1 - stage_start_time s)) by field.
        setoid_replace (255 * (t_first i2 - stage_start_time s) / 1)
          with (255 * (t_first i2 - stage_start_time s)) by field.
        lra. }
      destruct (Qle_bool FADE_OUT_DURATION (t_first i2 - stage_start_time s));
        [|simpl; exact Hle].
      destruct (is_video _) eqn:Hv;
        [destruct (current_media _) as [[p w h|k]|] eqn:Hm|]; simpl; exact Hle.
Qed.

End AlphaFacts.

(** ** Sessions and their resources *)

Section SessionFacts.

Import PyStr PyNum PyFacts Display DisplayMore.

(** X18. In the Idle stage with a queue that is not empty, one pass of
    [update_fade] takes the entry at the front and leaves the others in
    their order. When the image loads or the video opens, the process is in
    the FadingIn stage with the alpha at 0 and the stage started at the
    time read; when it does not, the entry is lost, the process stays in
    the Idle stage with no media and [update_fade] returns all the same. *)
Theorem update_fade_starts_front_entry :
  forall (i : TickInput) (s : Display) (path media_type : string)
         (rest : list (string * string)),
    current_stage s = IDLE ->
    ad_queue s = (path, media_type) :: rest ->
    known_type (path, media_type) ->
    let s' := fst (update_fade i s) in
    snd (update_fade i s) = true
    /\ ad_queue s' = rest
    /\ if load_ok i
       then current_stage s' = FADING_IN /\ alpha s' = 0%Z
            /\ stage_start_time s' = t_first i
            /\ is_video s' = String.eqb media_type "video"
            /\ current_image_path s'
               = (if String.eqb media_type "image" then Some path else None)
       else current_stage s' = IDLE /\ current_media s' = None
            /\ is_video s' = false /\ alpha s' = alpha s.
Proof.
  intros i s path media_type rest Hst Hq Hk. cbv zeta.
  unfold update_fade. rewrite Hst, Hq. cbn [fst snd].
  split; [reflexivity|]. rewrite start_new_ad_queue. split; [reflexivity|].
  unfold start_new_ad.
  destruct Hk as [Hk|Hk]; simpl in Hk; subst media_type; simpl;
    destruct (is_video s), (video_player s), (load_ok i); simpl; auto.
Qed.

(** *** Capture streams *)

Lemma nth_error_update_player (f : VideoPlayer -> VideoPlayer) :
  forall (l : list VideoPlayer) (h k : nat),
    nth_error (update_player h f l) k
    = if Nat.eqb k h then option_map f (nth_error l k) else nth_error l k.
Proof.
  induction l as [|p rest IH]; intros h k.
  - destruct h as [|h], k as [|k]; simpl; try reflexivity.
    destruct (Nat.eqb k h); reflexivity.
  - destruct h as [|h], k as [|k]; simpl; try reflexivity. apply IH.
Qed.

Lemma release_players h s k p :
  nth_error (players (release h s)) k = Some p ->
  vp_open p = true ->
  k <> h /\ nth_error (players s) k = Some p.
Proof.
  unfold release. simpl. rewrite nth_error_update_player.
  destruct (Nat.eqb_spec k h) as [->|Hne].
  - destruct (nth_error (players s) h); simpl; [|discriminate].
    intros H Ho. injection H as <-. simpl in Ho. discriminate.
  - auto.
Qed.

Lemma only_current_open_same s s' :
  players s' = players s -> is_video s' = is_video s ->
  video_player s' = video_player s ->
  only_current_open s -> only_current_open s'.
Proof.
  intros Hp Hv Hh H k p Hk Ho. rewrite Hp in Hk. rewrite Hv, Hh. now apply (H k p).
Qed.

Lemma player_fits_window_same s s' :
  players s' = players s -> is_video s' = is_video s ->
  video_player s' = video_player s ->
  window_width s' = window_width s -> window_height s' = window_height s ->
  player_fits_window s -> player_fits_window s'.
Proof.
  intros Hp Hv Hh Hw Hht H k Hvid Hk. rewrite Hp, Hw, Hht.
  apply H; congruence.
Qed.

Lemma all_closed_only_current s : all_closed s -> only_current_open s.
Proof. intros H k p Hk Ho. rewrite (H k p Hk) in Ho. discriminate. Qed.

Lemma release_only_current h s : only_current_open s -> only_current_open (release h s).
Proof.
  intros H k p Hk Ho. destruct (release_players h s k p Hk Ho) as [_ Hold].
  exact (H k p Hold Ho).
Qed.

Lemma release_all_closed h s :
  only_current_open s -> video_player s = Some h -> all_closed (release h s).
Proof.
  intros H Hh k p Hk. destruct (vp_open p) eqn:Ho; [|reflexivity].
  destruct (release_players h s k p Hk Ho) as [Hne Hold].
  destruct (H k p Hold Ho) as [_ Hcur]. congruence.
Qed.

Lemma no_session_all_closed s :
  only_current_open s -> is_video s = false \/ video_player s = None -> all_closed s.
Proof.
  intros H Hno k p Hk. destruct (vp_open p) eqn:Ho; [|reflexivity].
  destruct (H k p Hk Ho) as [Hv Hcur]. destruct Hno; congruence.
Qed.

Lemma release_fits h s : player_fits_window s -> player_fits_window (release h s).
Proof.
  intros H k Hv Hk. simpl in *. destruct (H k Hv Hk) as (p & Hp & Hw & Hh).
  unfold release. simpl. rewrite nth_error_update_player, Hp.
  destruct (Nat.eqb k h); simpl; eauto.
Qed.

Lemma start_new_ad_resources path media_type now ok s :
  known_type (path, media_type) ->
  only_current_open s ->
  only_current_open (start_new_ad path media_type now ok s)
  /\ player_fits_window (start_new_ad path media_type now ok s).
Proof.
  intros Hk Hoco.
  set (sA := match is_video s, video_player s with
             | true, Some h => set_video_player None (release h s)
             | _, _ => s
             end).
  assert (HA : all_closed sA).
  { unfold sA. destruct (is_video s) eqn:Hv; [destruct (video_player s) as [h|] eqn:Hh|].
    - intros k p. apply (release_all_closed h s Hoco Hh k p).
    - apply no_session_all_closed; auto.
    - apply no_session_all_closed; auto. }
  assert (Hw : window_width sA = window_width s /\ window_height sA = window_height s).
  { unfold sA. destruct (is_video s), (video_player s); auto. }
  unfold start_new_ad. fold sA.
  destruct Hk as [Hk|Hk]; simpl in Hk; subst media_type; simpl.
  - destruct ok; split;
      try (apply all_closed_only_current; intros k p Hp; exact (HA k p Hp));
      intros k Hv; simpl in Hv; discriminate.
  - destruct ok.
    + split.
      * intros k p Hp Ho. simpl in *.
        destruct (Nat.lt_ge_cases k (List.length (players sA))) as [Hlt|Hge].
        -- rewrite nth_error_app1 in Hp by exact Hlt.
           rewrite (HA k p Hp) in Ho. discriminate.
        -- rewrite nth_error_app2 in Hp by exact Hge.
           destruct (k - List.length (players sA))%nat as [|d] eqn:Hd;
             [|destruct d; discriminate].
           split; [reflexivity|]. f_equal. lia.
      * intros k _ Hcur. simpl in *. injection Hcur as <-.
        rewrite nth_error_app2 by lia. rewrite Nat.sub_diag. simpl.
        eexists. split; [reflexivity|]. simpl. auto.
    + split;
        try (apply all_closed_only_current; intros k p Hp; exact (HA k p Hp));
        intros k Hv; simpl in Hv; discriminate.
Qed.

Lemma handle_event_resources ok s ev :
  only_current_open s -> player_fits_window s ->
  only_current_open (handle_event ok s ev) /\ player_fits_window (handle_event ok s ev).
Proof.
  intros Hoco Hfit. destruct ev as [|key|w h|]; simpl; auto.
  - destruct (key =? K_ESCAPE)%Z; auto.
  - set (s1 := match current_image_path s, is_video s with
               | Some p, false =>
                   if truthy p && ok
                   then set_current_media (Some (Surface p w h))
                          (set_window_height h (set_window_width w s))
                   else set_window_height h (set_window_width w s)
               | _, _ => set_window_height h (set_window_width w s)
               end).
    assert (H1 : players s1 = players s /\ is_video s1 = is_video s
                 /\ video_player s1 = video_player s
                 /\ window_width s1 = w /\ window_height s1 = h).
    { unfold s1. destruct (current_image_path s) as [p|], (is_video s) eqn:Hv0;
        try destruct (truthy p && ok); simpl; rewrite ?Hv0; auto. }
    destruct H1 as (Hp & Hv & Hh & Hww & Hwh).
    destruct (is_video s1) eqn:Hv1; [destruct (video_player s1) as [k|] eqn:Hk1|].
    + split.
      * intros j p Hj Ho. simpl in *. rewrite nth_error_update_player in Hj.
        rewrite Hp in Hj. rewrite Hv1, Hk1.
        destruct (Nat.eqb_spec j k) as [->|Hne].
        -- auto.
        -- destruct (Hoco j p Hj Ho) as [_ Hcur]. congruence.
      * intros j _ Hj. simpl in *. rewrite Hk1 in Hj. injection Hj as <-.
        destruct (Hfit k) as (p & Hpk & _); try congruence.
        rewrite nth_error_update_player, Nat.eqb_refl, Hp, Hpk. simpl.
        eexists. split; [reflexivity|]. simpl. auto.
    + split.
      * apply (only_current_open_same s s1); [exact Hp | congruence | congruence | exact Hoco].
      * intros j Hvid Hj. congruence.
    + split.
      * apply (only_current_open_same s s1); [exact Hp | congruence | congruence | exact Hoco].
      * intros j Hvid Hj. congruence.
Qed.

Lemma handle_events_resources ok evs : forall s,
  only_current_open s -> player_fits_window s ->
  only_current_open (fold_left (handle_event ok) evs s)
  /\ player_fits_window (fold_left (handle_event ok) evs s).
Proof.
  induction evs as [|ev rest IH]; intros s Ho Hf; simpl; auto.
  destruct (handle_event_resources ok s ev Ho Hf) as [Ho' Hf']. now apply IH.
Qed.

Lemma update_fade_resources i s :
  well_formed s -> only_current_open s -> player_fits_window s ->
  only_current_open (fst (update_fade i s))
  /\ player_fits_window (fst (update_fade i s)).
Proof.
  intros [Hq Hwf] Hoco Hfit. unfold update_fade.
  destruct (current_stage s).
  - destruct (ad_queue s) as [|[path media_type] rest] eqn:Hqueue; cbn [fst]; auto.
    inversion Hq as [|? ? Hhead Hrest]; subst.
    apply start_new_ad_resources; [exact Hhead|].
    eapply only_current_open_same; eauto.
  - destruct (Qle_bool _ _); cbn [fst]; split;
      first [eapply only_current_open_same; eauto; reflexivity
            | eapply player_fits_window_same; eauto; reflexivity].
  - destruct (is_video s); [destruct (video_player s)|];
      try destruct (Qle_bool _ _); cbn [fst]; auto; split;
      first [eapply only_current_open_same; eauto; reflexivity
            | eapply player_fits_window_same; eauto; reflexivity].
  - destruct (Qle_bool _ _);
      [|cbn [fst]; split;
        first [eapply only_current_open_same; eauto; reflexivity
              | eapply player_fits_window_same; eauto; reflexivity]].
    set (s1 := set_stage_start_time (t_second i)
                 (set_current_stage IDLE
                    (set_alpha (Z.max 0 (255 - py_int _)) s))).
    assert (Ho1 : only_current_open s1)
      by (eapply only_current_open_same; eauto; reflexivity).
    assert (Hf1 : player_fits_window s1)
      by (eapply player_fits_window_same; eauto; reflexivity).
    change (is_video s1) with (is_video s).
    change (current_media s1) with (current_media s).
    destruct (is_video s); [destruct (current_media s) as [[p w h|k]|]|]; cbn [fst];
      auto; split;
      first [ eapply only_current_open_same; [| | |apply (release_only_current k s1 Ho1)];
              reflexivity
            | eapply player_fits_window_same; [| | | | |apply (release_fits k s1 Hf1)];
              reflexivity
            | eapply only_current_open_same; [| | |exact Ho1]; reflexivity
            | eapply player_fits_window_same; [| | | | |exact Hf1]; reflexivity ].
Qed.

Lemma main_loop_exit_resources s :
  only_current_open s -> player_fits_window s ->
  all_closed (main_loop_exit s) /\ player_fits_window (main_loop_exit s).
Proof.
  intros Ho Hf. unfold main_loop_exit.
  destruct (is_video s) eqn:Hv; [destruct (video_player s) as [h|] eqn:Hh|].
  - split.
    + intros k p Hk. apply (release_all_closed h s Ho Hh k p Hk).
    + eapply player_fits_window_same; [| | | | |apply (release_fits h s Hf)]; reflexivity.
  - split.
    + intros k p Hk. apply (no_session_all_closed s Ho (or_intror Hh) k p Hk).
    + eapply player_fits_window_same; [| | | | |exact Hf]; reflexivity.
  - split.
    + intros k p Hk. apply (no_session_all_closed s Ho (or_introl Hv) k p Hk).
    + eapply player_fits_window_same; [| | | | |exact Hf]; reflexivity.
Qed.

Lemma handle_client_connection_session raw is_file s :
  players (handle_client_connection raw is_file s) = players s
  /\ is_video (handle_client_connection raw is_file s) = is_video s
  /\ video_player (handle_client_connection raw is_file s) = video_player s
  /\ window_width (handle_client_connection raw is_file s) = window_width s
  /\ window_height (handle_client_connection raw is_file s) = window_height s.
Proof.
  unfold handle_client_connection.
  repeat match goal with
         | |- context [if ?b then _ else _] => destruct b
         end; repeat split.
Qed.

Lemma main_loop_pass_resources i s :
  well_formed s -> only_current_open s -> player_fits_window s ->
  only_current_open (main_loop_pass i s) /\ player_fits_window (main_loop_pass i s).
Proof.
  intros Hwf Ho Hf. unfold main_loop_pass.
  destruct (pygame_up s); cbn [negb].
  - pose proof (handle_events_well_formed (load_ok i) (events_in i) s Hwf) as Hwf1.
    destruct (handle_events_resources (load_ok i) (events_in i) s Ho Hf) as [Ho1 Hf1].
    set (s1 := fold_left (handle_event (load_ok i)) (events_in i) s) in *.
    destruct (update_fade_resources i s1 Hwf1 Ho1 Hf1) as [Ho2 Hf2].
    destruct (update_fade i s1) as [s2 ok]. cbn [fst] in *.
    destruct ok.
    + assert (Ho3 : only_current_open (render s2))
        by (eapply only_current_open_same; [| | |exact Ho2]; reflexivity).
      assert (Hf3 : player_fits_window (render s2))
        by (eapply player_fits_window_same; [| | | | |exact Hf2]; reflexivity).
      destruct (running (render s2)); [auto|].
      destruct (main_loop_exit_resources (render s2) Ho3 Hf3) as [Hc Hf4].
      split; [now apply all_closed_only_current | exact Hf4].
    + split.
      * eapply only_current_open_same; [| | |exact Ho2]; reflexivity.
      * eapply player_fits_window_same; [| | | | |exact Hf2]; reflexivity.
  - split.
    + eapply only_current_open_same; [| | |exact Ho]; reflexivity.
    + eapply player_fits_window_same; [| | | | |exact Hf]; reflexivity.
Qed.

Lemma step_resources s e :
  well_formed s -> only_current_open s -> player_fits_window s ->
  only_current_open (step s e) /\ player_fits_window (step s e).
Proof.
  intros Hwf Ho Hf. unfold step. destruct (proc s); auto.
  destruct e as [i|raw is_file].
  - now apply main_loop_pass_resources.
  - destruct (handle_client_connection_session raw is_file s) as (Hp & Hv & Hh & Hw & Hht).
    split.
    + eapply only_current_open_same; eauto.
    + eapply player_fits_window_same; eauto.
Qed.

Lemma run_resources es : forall s,
  well_formed s -> only_current_open s -> player_fits_window s ->
  only_current_open (run es s) /\ player_fits_window (run es s).
Proof.
  unfold run. induction es as [|e rest IH]; intros s Hwf Ho Hf; simpl; auto.
  destruct (step_resources s e Hwf Ho Hf) as [Ho' Hf'].
  apply IH; auto. now apply step_well_formed.
Qed.

Lemma initial_resources : only_current_open initial /\ player_fits_window initial.
Proof.
  split.
  - intros k p Hk. destruct k; discriminate.
  - intros k Hv. discriminate.
Qed.

Lemma same_elements_short (l : list nat) :
  NoDup l -> (forall x y : nat, In x l -> In y l -> x = y) -> (List.length l <= 1)%nat.
Proof.
  intros Hnd Hsame. destruct l as [|x [|y rest]]; simpl; try lia.
  exfalso. inversion Hnd as [|? ? Hnotin _]; subst.
  apply Hnotin. left. symmetry. apply Hsame; simpl; auto.
Qed.

Lemma open_players_In s h :
  In h (open_players s) ->
  exists p : VideoPlayer, nth_error (players s) h = Some p /\ vp_open p = true.
Proof.
  unfold open_players. intros H. apply filter_In in H. destruct H as [_ H].
  destruct (nth_error (players s) h) as [p|]; [eauto | discriminate].
Qed.

Lemma all_closed_open_players s : all_closed s -> open_players s = [].
Proof.
  intros H. destruct (open_players s) as [|h rest] eqn:E; [reflexivity|].
  assert (Hin : In h (open_players s)) by (rewrite E; now left).
  destruct (open_players_In s h Hin) as (p & Hp & Ho).
  rewrite (H h p Hp) in Ho. discriminate.
Qed.

(** X19. In every state the playback process reaches from its initial
    state, a capture stream that is open belongs to the player of the
    running video session; so at most one capture stream is open at any
    time. *)
Theorem at_most_one_capture_open :
  forall es : list Event,
    only_current_open (run es initial)
    /\ (List.length (open_players (run es initial)) <= 1)%nat.
Proof.
  intros es.
  destruct initial_resources as [Ho Hf].
  destruct (run_resources es initial initial_well_formed Ho Hf) as [Hoco _].
  split; [exact Hoco|].
  apply same_elements_short.
  - unfold open_players. apply NoDup_filter, seq_NoDup.
  - intros x y Hx Hy.
    destruct (open_players_In _ x Hx) as (p & Hp & Hop).
    destruct (open_players_In _ y Hy) as (q & Hq & Hoq).
    destruct (Hoco x p Hp Hop) as [_ H1]. destruct (Hoco y q Hq Hoq) as [_ H2].
    congruence.
Qed.

(** X20. In every state the playback process reaches from its initial
    state, the player of a running video session exists and has the width
    and the height of the window, also after the window was resized. *)
Theorem player_size_follows_window :
  forall es : list Event, player_fits_window (run es initial).
Proof.
  intros es. destruct initial_resources as [Ho Hf].
  now destruct (run_resources es initial initial_well_formed Ho Hf).
Qed.

Lemma handle_event_running ok s ev :
  running s = false -> running (handle_event ok s ev) = false.
Proof.
  intros H. destruct ev as [|key|w h|]; simpl; auto.
  - destruct (key =? K_ESCAPE)%Z; auto.
  - destruct (current_image_path s) as [p|], (is_video s) eqn:Hv; simpl;
      try destruct (truthy p && ok); simpl; rewrite ?Hv;
      destruct (video_player s); auto.
Qed.

Lemma handle_events_running ok evs : forall s,
  running s = false -> running (fold_left (handle_event ok) evs s) = false.
Proof.
  induction evs as [|ev rest IH]; intros s H; simpl; auto.
  apply IH. now apply handle_event_running.
Qed.

Lemma handle_events_quit ok evs : forall s,
  In PgQuit evs \/ In (PgKeyDown K_ESCAPE) evs ->
  running (fold_left (handle_event ok) evs s) = false.
Proof.
  induction evs as [|ev rest IH]; intros s H; [destruct H as [[]|[]]|].
  cbn [fold_left]. destruct H as [[->|H]|[->|H]].
  - now apply handle_events_running.
  - apply IH. now left.
  - now apply handle_events_running.
  - apply IH. now right.
Qed.

Lemma start_new_ad_running path media_type now ok s :
  running (start_new_ad path media_type now ok s) = running s.
Proof.
  unfold start_new_ad.
  destruct (is_video s), (video_player s);
    destruct (String.eqb media_type "image"), (String.eqb media_type "video"), ok;
    reflexivity.
Qed.

Lemma update_fade_running i s : running (fst (update_fade i s)) = running s.
Proof.
  unfold update_fade. destruct (current_stage s).
  - destruct (ad_queue s) as [|[path media_type] rest]; cbn [fst]; [reflexivity|].
    now rewrite start_new_ad_running.
  - destruct (Qle_bool _ _); reflexivity.
  - destruct (is_video s); [destruct (video_player s)|];
      try destruct (Qle_bool _ _); reflexivity.
  - destruct (Qle_bool _ _); [|reflexivity].
    destruct (is_video s) eqn:Hv; simpl; rewrite ?Hv;
      [destruct (current_media s) as [[p w h|k]|]|]; reflexivity.
Qed.

(** X21. In a state the playback process reached from its initial state,
    alive and with pygame initialised, a pass of the main loop that finds
    the window closed or the Escape key pressed ends the process in order:
    it exits, and no capture stream is left open. *)
Theorem window_close_releases_capture :
  forall (es : list Event) (i : TickInput),
    let s := run es initial in
    proc s = Alive ->
    pygame_up s = true ->
    In PgQuit (events_in i) \/ In (PgKeyDown K_ESCAPE) (events_in i) ->
    let s' := step s (Tick i) in
    proc s' = Exited /\ pygame_up s' = false /\ open_players s' = [].
Proof.
  intros es i s Hp Hup Hquit s'.
  destruct initial_resources as [Ho0 Hf0].
  destruct (run_resources es initial initial_well_formed Ho0 Hf0) as [Ho Hf].
  pose proof (run_well_formed es initial initial_well_formed) as Hwf.
  fold s in Ho, Hf, Hwf.
  unfold s', step. rewrite Hp. unfold main_loop_pass. rewrite Hup. cbn [negb].
  pose proof (handle_events_well_formed (load_ok i) (events_in i) s Hwf) as Hwf1.
  destruct (handle_events_resources (load_ok i) (events_in i) s Ho Hf) as [Ho1 Hf1].
  pose proof (handle_events_quit (load_ok i) (events_in i) s Hquit) as Hrun.
  set (s1 := fold_left (handle_event (load_ok i)) (events_in i) s) in *.
  destruct (update_fade_resources i s1 Hwf1 Ho1 Hf1) as [Ho2 Hf2].
  destruct (update_fade_well_formed i s1 Hwf1) as [_ Hok].
  pose proof (update_fade_running i s1) as Hrun2.
  destruct (update_fade i s1) as [s2 ok]. cbn [fst snd] in *. subst ok.
  assert (Hr : running (render s2) = false) by (simpl; congruence).
  rewrite Hr.
  assert (Ho3 : only_current_open (render s2))
    by (eapply only_current_open_same; [| | |exact Ho2]; reflexivity).
  assert (Hf3 : player_fits_window (render s2))
    by (eapply player_fits_window_same; [| | | | |exact Hf2]; reflexivity).
  destruct (main_loop_exit_resources (render s2) Ho3 Hf3) as [Hc _].
  split; [|split].
  - unfold main_loop_exit.
    destruct (is_video (render s2)), (video_player (render s2)); reflexivity.
  - unfold main_loop_exit.
    destruct (is_video (render s2)), (video_player (render s2)); reflexivity.
  - now apply all_closed_open_players.
Qed.

(** *** Stage guards *)

(** X23. A stage is left exactly when its guard holds: the fade-in and the
    fade-out when their duration has elapsed since the stage started, the
    hold of an image when [HOLD_DURATION] has elapsed, and the hold of a
    video when the capture stream reports its last frame, whatever the time
    elapsed. *)
Theorem stage_left_exactly_on_guard :
  forall (i : TickInput) (s : Display),
    let s' := fst (update_fade i s) in
    let elapsed := t_first i - stage_start_time s in
    (current_stage s = FADING_IN ->
     (current_stage s' = HOLDING <-> FADE_IN_DURATION <= elapsed))
    /\ (current_stage s = HOLDING -> is_video s = false ->
        (current_stage s' = FADING_OUT <-> HOLD_DURATION <= elapsed))
    /\ (current_stage s = HOLDING -> is_video s = true -> video_player s <> None ->
        (current_stage s' = FADING_OUT <-> frame_count i - 1 <= pos_frames i))
    /\ (current_stage s = FADING_OUT ->
        (current_stage s' = IDLE <-> FADE_OUT_DURATION <= elapsed)).
Proof.
  intros i s. cbv zeta. unfold update_fade.
  split; [|split; [|split]].
  - intros Hst. rewrite Hst.
    destruct (Qle_bool FADE_IN_DURATION (t_first i - stage_start_time s)) eqn:E;
      cbn [fst]; simpl.
    + apply Qle_bool_iff in E. tauto.
    + apply Qle_bool_false in E. rewrite Hst. split; [discriminate | lra].
  - intros Hst Hv. rewrite Hst, Hv.
    destruct (Qle_bool HOLD_DURATION (t_first i - stage_start_time s)) eqn:E;
      cbn [fst]; simpl.
    + apply Qle_bool_iff in E. tauto.
    + apply Qle_bool_false in E. rewrite Hst. split; [discriminate | lra].
  - intros Hst Hv Hp. rewrite Hst, Hv.
    destruct (video_player s) as [h|]; [|congruence].
    destruct (Qle_bool (frame_count i - 1) (pos_frames i)) eqn:E; cbn [fst]; simpl.
    + apply Qle_bool_iff in E. tauto.
    + apply Qle_bool_false in E. rewrite Hst. split; [discriminate | lra].
  - intros Hst. rewrite Hst.
    destruct (Qle_bool FADE_OUT_DURATION (t_first i - stage_start_time s)) eqn:E.
    + apply Qle_bool_iff in E.
      destruct (is_video _) eqn:Hv;
        [destruct (current_media _) as [[p w h|k]|]|]; cbn [fst]; simpl; tauto.
    + apply Qle_bool_false in E. cbn [fst]. simpl. rewrite Hst.
      split; [discriminate | lra].
Qed.

(** *** No capture stream outlives its session *)

Lemma update_player_all_closed (f : VideoPlayer -> VideoPlayer) h s s' :
  (forall p, vp_open (f p) = vp_open p) ->
  players s' = update_player h f (players s) ->
  all_closed s -> all_closed s'.
Proof.
  intros Hf Hp H k p Hk. rewrite Hp, nth_error_update_player in Hk.
  destruct (Nat.eqb k h).
  - destruct (nth_error (players s) k) as [q|] eqn:Hq; [|discriminate].
    simpl in Hk. injection Hk as <-. rewrite Hf. exact (H k q Hq).
  - exact (H k p Hk).
Qed.

Lemma all_closed_same s s' : players s' = players s -> all_closed s -> all_closed s'.
Proof. intros Hp H k p Hk. rewrite Hp in Hk. exact (H k p Hk). Qed.

Lemma handle_event_session ok s ev :
  idle_closed s -> session_consistent s ->
  idle_closed (handle_event ok s ev) /\ session_consistent (handle_event ok s ev).
Proof.
  intros Hi Hc. destruct ev as [|key|w h|]; simpl; auto.
  - destruct (key =? K_ESCAPE)%Z; auto.
  - destruct (is_video s) eqn:Hv.
    + destruct (current_image_path s) as [p|]; simpl; rewrite Hv;
        (destruct (video_player s) as [k|] eqn:Hk;
         (split;
          [ intros Hst; simpl in Hst;
            first [ eapply update_player_all_closed;
                    [| reflexivity | exact (Hi Hst)]; reflexivity
                  | eapply all_closed_same; [|exact (Hi Hst)]; reflexivity ]
          | intros Hst _; simpl in *; destruct (Hc Hst Hv) as (j & Hj & Hm);
            exists j; split; congruence ])).
    + destruct (current_image_path s) as [p|]; simpl;
        try destruct (truthy p && ok); simpl; rewrite Hv; split;
        first [ intros Hst; simpl in Hst;
                eapply all_closed_same; [|exact (Hi Hst)]; reflexivity
              | intros Hst Hvid; simpl in Hvid; congruence ].
Qed.

Lemma handle_events_session ok evs : forall s,
  idle_closed s -> session_consistent s ->
  idle_closed (fold_left (handle_event ok) evs s)
  /\ session_consistent (fold_left (handle_event ok) evs s).
Proof.
  induction evs as [|ev rest IH]; intros s Hi Hc; simpl; auto.
  destruct (handle_event_session ok s ev Hi Hc) as [Hi' Hc']. now apply IH.
Qed.

Lemma start_new_ad_session path media_type now ok s :
  known_type (path, media_type) ->
  only_current_open s ->
  current_stage s = IDLE ->
  idle_closed (start_new_ad path media_type now ok s)
  /\ session_consistent (start_new_ad path media_type now ok s).
Proof.
  intros Hk Hoco Hst.
  set (sA := match is_video s, video_player s with
             | true, Some h => set_video_player None (release h s)
             | _, _ => s
             end).
  assert (HA : all_closed sA).
  { unfold sA. destruct (is_video s) eqn:Hv; [destruct (video_player s) as [h|] eqn:Hh|].
    - intros k p. apply (release_all_closed h s Hoco Hh k p).
    - apply no_session_all_closed; auto.
    - apply no_session_all_closed; auto. }
  unfold start_new_ad. fold sA.
  destruct Hk as [Hk|Hk]; simpl in Hk; subst media_type; simpl; destruct ok; split;
    first [ intros H; simpl in H; discriminate
          | intros _; intros k p Hp; exact (HA k p Hp)
          | intros _ Hv; simpl in Hv; discriminate
          | intros _ _; simpl; eauto ].
Qed.

Lemma keep_session s s' :
  is_video s' = is_video s -> video_player s' = video_player s ->
  current_media s' = current_media s ->
  current_stage s <> IDLE -> current_stage s' <> IDLE ->
  session_consistent s ->
  idle_closed s' /\ session_consistent s'.
Proof.
  intros Hv Hh Hm Hst Hst' Hc. split.
  - intros H. contradiction.
  - intros _ Hvid. rewrite Hv in Hvid. rewrite Hh, Hm. exact (Hc Hst Hvid).
Qed.

Lemma update_fade_session i s :
  well_formed s -> only_current_open s -> idle_closed s -> session_consistent s ->
  idle_closed (fst (update_fade i s)) /\ session_consistent (fst (update_fade i s)).
Proof.
  intros [Hq Hwf] Hoco Hi Hc. unfold update_fade.
  destruct (current_stage s) eqn:Hst.
  - destruct (ad_queue s) as [|[path media_type] rest] eqn:Hqueue; cbn [fst].
    + split; [exact Hi | exact Hc].
    + inversion Hq as [|? ? Hhead Hrest]; subst.
      apply start_new_ad_session; [exact Hhead| |exact Hst].
      eapply only_current_open_same; [| | |exact Hoco]; reflexivity.
  - destruct (Qle_bool _ _); cbn [fst];
      apply (keep_session s); try reflexivity; try exact Hc;
      simpl; congruence.
  - destruct (is_video s) eqn:Hv; [destruct (video_player s) eqn:Hp|];
      try destruct (Qle_bool _ _); cbn [fst];
      apply (keep_session s); try reflexivity; try exact Hc;
      simpl; congruence.
  - assert (Hc' : is_video s = true ->
                  exists h, video_player s = Some h /\ current_media s = Some (Player h))
      by (apply Hc; congruence).
    destruct (Qle_bool _ _).
    + set (s1 := set_stage_start_time (t_second i)
                   (set_current_stage IDLE
                      (set_alpha (Z.max 0 (255 - py_int _)) s))).
      assert (Ho1 : only_current_open s1)
        by (eapply only_current_open_same; [| | |exact Hoco]; reflexivity).
      change (is_video s1) with (is_video s).
      change (current_media s1) with (current_media s).
      destruct (is_video s) eqn:Hv.
      * destruct (Hc' eq_refl) as (h & Hh & Hm). rewrite Hm. cbn [fst]. split.
        -- intros _. eapply all_closed_same;
             [|apply (release_all_closed h s1 Ho1 Hh)]; reflexivity.
        -- intros H. simpl in H. congruence.
      * cbn [fst]. split.
        -- intros _. eapply all_closed_same;
             [|apply (no_session_all_closed s Hoco (or_introl Hv))]; reflexivity.
        -- intros H. simpl in H. congruence.
    + cbn [fst]. apply (keep_session s); try reflexivity; try exact Hc;
        simpl; congruence.
Qed.

Lemma main_loop_pass_session i s :
  well_formed s -> only_current_open s -> player_fits_window s ->
  idle_closed s -> session_consistent s ->
  idle_closed (main_loop_pass i s) /\ session_consistent (main_loop_pass i s).
Proof.
  intros Hwf Ho Hf Hi Hc. unfold main_loop_pass.
  destruct (pygame_up s); cbn [negb]; [|split; [exact Hi | exact Hc]].
  pose proof (handle_events_well_formed (load_ok i) (events_in i) s Hwf) as Hwf1.
  destruct (handle_events_resources (load_ok i) (events_in i) s Ho Hf) as [Ho1 Hf1].
  destruct (handle_events_session (load_ok i) (events_in i) s Hi Hc) as [Hi1 Hc1].
  set (s1 := fold_left (handle_event (load_ok i)) (events_in i) s) in *.
  destruct (update_fade_resources i s1 Hwf1 Ho1 Hf1) as [Ho2 Hf2].
  destruct (update_fade_session i s1 Hwf1 Ho1 Hi1 Hc1) as [Hi2 Hc2].
  destruct (update_fade i s1) as [s2 ok]. cbn [fst] in *.
  destruct ok; [|split; [exact Hi2 | exact Hc2]].
  destruct (running (render s2)); [split; [exact Hi2 | exact Hc2]|].
  assert (Ho3 : only_current_open (render s2))
    by (eapply only_current_open_same; [| | |exact Ho2]; reflexivity).
  assert (Hf3 : player_fits_window (render s2))
    by (eapply player_fits_window_same; [| | | | |exact Hf2]; reflexivity).
  destruct (main_loop_exit_resources (render s2) Ho3 Hf3) as [Hcl _].
  split.
  - intros _. exact Hcl.
  - intros Hst Hv.
    assert (Hst2 : current_stage s2 <> IDLE).
    { intros E. apply Hst. rewrite main_loop_exit_stage. exact E. }
    assert (Hv2 : is_video s2 = true).
    { unfold main_loop_exit in Hv.
      destruct (is_video (render s2)) eqn:E, (video_player (render s2));
        simpl in *; congruence. }
    destruct (Hc2 Hst2 Hv2) as (h & Hh & Hm). exists h.
    unfold main_loop_exit. simpl. rewrite Hv2, Hh. simpl. auto.
Qed.

Lemma handle_client_connection_media raw is_file s :
  current_media (handle_client_connection raw is_file s) = current_media s.
Proof.
  unfold handle_client_connection.
  repeat match goal with
         | |- context [if ?b then _ else _] => destruct b
         end; reflexivity.
Qed.

Lemma step_session s e :
  well_formed s -> only_current_open s -> player_fits_window s ->
  idle_closed s -> session_consistent s ->
  idle_closed (step s e) /\ session_consistent (step s e).
Proof.
  intros Hwf Ho Hf Hi Hc. unfold step. destruct (proc s); auto.
  destruct e as [i|raw is_file].
  - now apply main_loop_pass_session.
  - destruct (handle_client_connection_session raw is_file s) as (Hp & Hv & Hh & _ & _).
    pose proof (handle_client_connection_stage raw is_file s) as Hst.
    pose proof (handle_client_connection_media raw is_file s) as Hm.
    split.
    + intros H. rewrite Hst in H. eapply all_closed_same; [exact Hp | exact (Hi H)].
    + intros H Hvid. rewrite Hst in H. rewrite Hv in Hvid.
      destruct (Hc H Hvid) as (h & Hh' & Hm'). exists h. split; congruence.
Qed.

Lemma run_session es : forall s,
  well_formed s -> only_current_open s -> player_fits_window s ->
  idle_closed s -> session_consistent s ->
  idle_closed (run es s) /\ session_consistent (run es s).
Proof.
  unfold run. induction es as [|e rest IH]; intros s Hwf Ho Hf Hi Hc; simpl; auto.
  destruct (step_resources s e Hwf Ho Hf) as [Ho' Hf'].
  destruct (step_session s e Hwf Ho Hf Hi Hc) as [Hi' Hc'].
  apply IH; auto. now apply step_well_formed.
Qed.

(** X24. Whenever the playback process, run from its initial state, is in
    the Idle stage, no capture stream is open: the stream of a video is
    released when its fade-out ends, and also when a session fails to
    start. *)
Theorem idle_has_no_open_capture :
  forall es : list Event,
    current_stage (run es initial) = IDLE ->
    open_players (run es initial) = [].
Proof.
  intros es Hst.
  destruct initial_resources as [Ho Hf].
  assert (Hi : idle_closed initial) by (intros _ k p Hk; destruct k; discriminate).
  assert (Hc : session_consistent initial) by (intros H; now destruct H).
  destruct (run_session es initial initial_well_formed Ho Hf Hi Hc) as [Hidle _].
  apply all_closed_open_players. exact (Hidle Hst).
Qed.

End SessionFacts.

(** ** Saved frames *)

Section FramesFacts.

Import PyStr PyNum PyFacts Selection Frames.

Variable clock : nat -> Z.

Hypothesis clock_monotone : forall k : nat, (clock k <= clock (S k))%Z.

Local Abbreviation save_frame := (Frames.save_frame clock).
Local Abbreviation save_all := (Frames.save_all clock).
Local Abbreviation write_frame := (Frames.write_frame clock).

Lemma ten_minutes_elapsed (d : Z) :
  10 * 60 <= inject_Z d / inject_Z microseconds_per_second ->
  (600 * microseconds_per_second <= d)%Z.
Proof.
  intros H. unfold microseconds_per_second in *.
  assert (Hm : 10 * 60 * inject_Z 1000000
               <= inject_Z d / inject_Z 1000000 * inject_Z 1000000)
    by (apply Qmult_le_compat_r; [exact H | discriminate]).
  assert (Hd : inject_Z d / inject_Z 1000000 * inject_Z 1000000 == inject_Z d)
    by (field; discriminate).
  rewrite Hd in Hm.
  change (10 * 60 * inject_Z 1000000) with (inject_Z (600 * 1000000)) in Hm.
  rewrite Zle_Qle. exact Hm.
Qed.

Lemma last_captured_bound unique_id st last (r : SavedFrame) :
  last_captured unique_id st = Some last ->
  In r (saved_frames st) -> f_unique_id r = unique_id ->
  (f_timestamp r <= last)%Z.
Proof.
  unfold last_captured. intros H Hin Hid.
  apply sql_max_Some in H. destruct H as [_ Hmax]. apply Hmax.
  apply in_map, filter_In. split; [exact Hin | now apply String.eqb_eq].
Qed.

Lemma last_captured_none unique_id st (r : SavedFrame) :
  last_captured unique_id st = None ->
  In r (saved_frames st) -> f_unique_id r <> unique_id.
Proof.
  unfold last_captured. intros H Hin Hid.
  apply sql_max_None in H.
  assert (Hr : In (f_timestamp r)
                 (map f_timestamp
                      (filter (fun r => String.eqb (f_unique_id r) unique_id)
                              (saved_frames st)))).
  { apply in_map, filter_In. split; [exact Hin | now apply String.eqb_eq]. }
  rewrite H in Hr. destruct Hr.
Qed.

Lemma spaced_snoc (l : list SavedFrame) (row : SavedFrame) :
  spaced l ->
  (forall old : SavedFrame,
      In old l -> f_unique_id old = f_unique_id row ->
      (f_timestamp old + 600 <= f_timestamp row)%Z) ->
  spaced (l ++ [row]).
Proof.
  intros Hl Hrow i j a b Hij Ha Hb Hid.
  assert (Hj : (j < List.length (l ++ [row]))%nat)
    by (apply nth_error_Some; congruence).
  rewrite length_app in Hj. simpl in Hj.
  assert (Hi : (i < List.length l)%nat) by lia.
  rewrite nth_error_app1 in Ha by exact Hi.
  destruct (Nat.eq_dec j (List.length l)) as [->|Hne].
  - rewrite nth_error_app2, Nat.sub_diag in Hb by lia. simpl in Hb.
    injection Hb as <-. apply Hrow; [|exact Hid].
    eapply nth_error_In; eauto.
  - rewrite nth_error_app1 in Hb by lia. exact (Hl i j a b Hij Ha Hb Hid).
Qed.

(** What one call of [save_frame] does to the table. *)
Lemma save_frame_step (unique_id : string) (st : Store) :
  saved_frames (save_frame unique_id st) = saved_frames st
  \/ exists row : SavedFrame,
       saved_frames (save_frame unique_id st) = (saved_frames st ++ [row])%list
       /\ f_unique_id row = unique_id
       /\ forall old : SavedFrame,
            In old (saved_frames st) -> f_unique_id old = unique_id ->
            (f_timestamp old + 600 <= f_timestamp row)%Z.
Proof.
  unfold Frames.save_frame.
  destruct (last_captured unique_id st) as [last|] eqn:Hlast.
  - destruct (Qlt_bool _ (10 * 60)) eqn:E; [now left|].
    right. apply Qlt_bool_false, ten_minutes_elapsed in E.
    eexists. split; [reflexivity|]. split; [reflexivity|].
    intros old Hin Hid. cbn [f_timestamp frame_clock_reads].
    pose proof (last_captured_bound unique_id st last old Hlast Hin Hid) as Hold.
    set (k := frame_clock_reads st) in *.
    pose proof (clock_monotone k). pose proof (clock_monotone (S k)).
    assert (Hq : (last + 600 <= clock (S (S k)) / microseconds_per_second)%Z).
    { apply Z.div_le_lower_bound; unfold microseconds_per_second in *; lia. }
    lia.
  - right. eexists. split; [reflexivity|]. split; [reflexivity|].
    intros old Hin Hid.
    now destruct (last_captured_none unique_id st old Hlast Hin).
Qed.

Lemma save_frame_spaced (unique_id : string) (st : Store) :
  spaced (saved_frames st) -> spaced (saved_frames (save_frame unique_id st)).
Proof.
  intros H. destruct (save_frame_step unique_id st) as [E | (row & E & Hid & Hold)];
    rewrite E; [exact H|].
  apply spaced_snoc; [exact H|]. intros old Hin Ho. apply Hold; congruence.
Qed.

(** X25. When the clock does not go backwards, whatever the sequence of
    calls of [save_frame] on an empty table, two frames saved for the same
    identity have timestamps at least ten minutes (600 seconds) apart. *)
Theorem saved_frames_ten_minutes_apart :
  forall ids : list string,
    spaced (saved_frames (save_all ids empty_store)).
Proof.
  intros ids. unfold Frames.save_all.
  assert (H : forall st, spaced (saved_frames st) ->
                         spaced (saved_frames
                                   (fold_left (fun st u => save_frame u st) ids st))).
  { induction ids as [|u rest IH]; intros st Hst; simpl; [exact Hst|].
    apply IH. now apply save_frame_spaced. }
  apply H. intros i j a b _ Ha. destruct i; discriminate.
Qed.

End FramesFacts.

(** ** Media types *)

Section MediaTypeFacts.

Import PyStr Selection SyncMedia.

(** X26. The type [determine_media_type] of [sync_media.py] gives a file
    is [unknown] or one of the types [play_media] dispatches: a type
    starting with [video/] is dispatched as a video, one starting with
    [image/] as an image, and [unknown] is not dispatched at all. *)
Theorem determine_media_type_supported :
  forall file_path : string,
    let media_type := determine_media_type file_path in
    (startswith "image/" media_type = true
     /\ is_image_type media_type = true)
    \/ (startswith "video/" media_type = true
        /\ is_image_type media_type = false /\ is_video_type media_type = true)
    \/ (media_type = "unknown"%string
        /\ is_image_type media_type = false /\ is_video_type media_type = false).
Proof.
  intros file_path. cbv zeta. unfold determine_media_type.
  set (ext := lower (splitext_ext file_path)).
  destruct (existsb (String.eqb ext) [".mp4"; ".avi"; ".mov"]%string) eqn:Ev.
  - right. left. apply existsb_exists in Ev. destruct Ev as [x [Hin Hx]].
    apply String.eqb_eq in Hx. subst x.
    simpl in Hin. destruct Hin as [<-|[<-|[<-|[]]]]; repeat split.
  - destruct (existsb (String.eqb ext) [".jpg"; ".jpeg"; ".png"]%string) eqn:Ei.
    + left. apply existsb_exists in Ei. destruct Ei as [x [Hin Hx]].
      apply String.eqb_eq in Hx. subst x.
      simpl in Hin. destruct Hin as [<-|[<-|[<-|[]]]]; repeat split.
    + right. right. repeat split.
Qed.

End MediaTypeFacts.

(** ** The further properties on concrete catalogs and sessions *)

Section MoreInstances.

Import PyStr PyNum Selection SelectionMore Display DisplayMore Examples MoreExamples EdgeCases.

Local Open Scope string_scope.

Lemma pick_weighted_media_no_candidate_witness :
  eligible kiosk "60+" "male" rotation_world = []
  /\ runState (pick_weighted_media kiosk one_minute one_half "60+" "male" "happy")
              rotation_world
     = (None, rotation_world).
Proof.
  split; [reflexivity|].
  apply (pick_weighted_media_no_candidate kiosk one_minute one_half).
  reflexivity.
Defined.

Lemma pick_weighted_media_reads_witness :
  eligible kiosk "18-29" "Female" rotation_world <> []
  /\ snd (runState (pick_weighted_media kiosk one_minute one_half "18-29" "Female" "happy")
                   rotation_world)
     = after_rng_draw (after_clock_reads 2 rotation_world).
Proof.
  assert (Hne : eligible kiosk "18-29" "Female" rotation_world <> [])
    by (vm_compute; discriminate).
  split; [exact Hne|].
  exact (pick_weighted_media_reads kiosk one_minute one_half
           "18-29" "Female" "happy" rotation_world Hne).
Defined.

Lemma rotation_bonus_bounded_witness :
  let r1 := row 1 10 "a.jpg" in
  let r2 := row 2 10 "b.jpg" in
  (Z.abs (m_profit_score r2) <= 2 ^ 53 - 1540)%Z
  /\ 5 <= minutes_between (ten_minutes (clock_reads rotation_world)) 0
  /\ final_score_in ten_minutes "night" "happy" r2 rotation_world
     <= final_score_in ten_minutes "night" "happy" r1 rotation_world
  /\ final_score_in ten_minutes "night" "happy" r1 rotation_world
     <= final_score_in ten_minutes "night" "happy" r2 rotation_world + 30.
Proof.
  intros r1 r2.
  assert (Hmin : 5 <= minutes_between (ten_minutes (clock_reads rotation_world)) 0)
    by (vm_compute; discriminate).
  assert (Hr : (Z.abs (m_profit_score r2) <= 2 ^ 53 - 1540)%Z)
    by (vm_compute; discriminate).
  split; [exact Hr|]. split; [exact Hmin|].
  exact (rotation_bonus_bounded ten_minutes "night" "happy" r1 r2
           rotation_world rotation_world 0%Z
           Hr eq_refl eq_refl eq_refl eq_refl Hmin eq_refl).
Defined.

Lemma mood_match_dominates_witness :
  (Z.abs (m_profit_score happy_row) <= 2 ^ 53 - 1540)%Z
  /\ (Z.abs (m_profit_score plain_row) <= 2 ^ 53 - 1540)%Z
  /\ mood_matches "Happy" happy_row = true
  /\ mood_matches "Happy" plain_row = false
  /\ final_score_in one_minute "night" "Happy" plain_row rotation_world
     < final_score_in one_minute "night" "Happy" happy_row rotation_world.
Proof.
  assert (Hr1 : (Z.abs (m_profit_score happy_row) <= 2 ^ 53 - 1540)%Z)
    by (vm_compute; discriminate).
  assert (Hr2 : (Z.abs (m_profit_score plain_row) <= 2 ^ 53 - 1540)%Z)
    by (vm_compute; discriminate).
  split; [exact Hr1|]. split; [exact Hr2|].
  split; [reflexivity|]. split; [reflexivity|].
  apply (mood_match_dominates one_minute "night" "Happy" happy_row plain_row
           rotation_world rotation_world Hr1 Hr2); reflexivity.
Defined.

Lemma get_last_display_time_latest_witness :
  last_display_in rotation_world 1 = Some 0%Z
  /\ (exists d : AdDisplayRow,
         In d (ad_displays rotation_world) /\ d_media_id d = 1%Z /\ d_timestamp d = 0%Z)
  /\ forall d : AdDisplayRow,
       In d (ad_displays rotation_world) -> d_media_id d = 1%Z -> (d_timestamp d <= 0)%Z.
Proof.
  split; [reflexivity|].
  exact (proj2 (get_last_display_time_latest rotation_world 1) 0%Z eq_refl).
Defined.

Lemma log_ad_display_then_last_witness :
  2%Z <> 1%Z
  /\ last_display_in
       (snd (runState (log_ad_display kiosk ten_minutes 1 "acme") rotation_world)) 2
     = last_display_in rotation_world 2.
Proof.
  assert (Hne : 2%Z <> 1%Z) by discriminate.
  split; [exact Hne|].
  exact (proj2 (log_ad_display_then_last kiosk ten_minutes 1 "acme" rotation_world)
               2%Z Hne).
Defined.

Lemma store_media_then_eligible_witness :
  lower "18-29" = lower "18-29"
  /\ lower "FEMALE" = lower "Female"
  /\ exists row : MediaRow,
       media stored_inside = [row]
       /\ m_file_path row = "ad.jpg"
       /\ In row (eligible kiosk "18-29" "FEMALE" stored_inside).
Proof.
  split; [reflexivity|]. split; [reflexivity|].
  pose proof (store_media_then_eligible kiosk kiosk_dir kiosk_dir "acme" "18-29"
                "Female" "/opt/kiosk/media/ad.jpg" "image/jpg" 5 (world [] [])) as H.
  cbv zeta in H.
  assert (E : startswith (media_dir kiosk_dir)
                (PosixPath.abspath kiosk_dir "/opt/kiosk/media/ad.jpg") = true)
    by reflexivity.
  rewrite E in H.
  destruct H as (row & Hm & _ & _ & _ & _ & _ & Hpath & _ & _ & Hel).
  exists row. split; [exact Hm|]. split.
  - rewrite Hpath. vm_compute. reflexivity.
  - exact (Hel "18-29" "FEMALE" eq_refl eq_refl).
Defined.

Lemma show_command_round_trip_witness :
  PyText.isascii "/media/a.jpg" = true
  /\ contains ":" "/media/a.jpg" = false
  /\ strip "/media/a.jpg" = "/media/a.jpg"
  /\ "/media/a.jpg" <> EmptyString
  /\ (List.length (ad_queue initial) < MAX_QUEUE_SIZE)%nat
  /\ ad_queue (handle_client_connection ("SHOW_IMAGE:" ++ "/media/a.jpg") true initial)
     = (ad_queue initial ++ [("/media/a.jpg", "image")])%list
  /\ ad_queue (handle_client_connection ("SHOW_VIDEO:" ++ "/media/a.jpg") true initial)
     = (ad_queue initial ++ [("/media/a.jpg", "video")])%list.
Proof.
  assert (Hne : "/media/a.jpg" <> EmptyString) by discriminate.
  assert (Hlen : (List.length (ad_queue initial) < MAX_QUEUE_SIZE)%nat)
    by (vm_compute; lia).
  split; [reflexivity|].
  split; [reflexivity|]. split; [reflexivity|]. split; [exact Hne|].
  split; [exact Hlen|].
  exact (show_command_round_trip "/media/a.jpg" initial eq_refl eq_refl eq_refl Hne Hlen).
Defined.

Lemma handle_client_connection_ignores_witness :
  PyText.isascii " PLAY:/media/a.jpg " = true
  /\ strip " PLAY:/media/a.jpg " <> "QUIT"
  /\ handle_client_connection " PLAY:/media/a.jpg " true full_queue = full_queue.
Proof.
  assert (Hq : strip " PLAY:/media/a.jpg " <> "QUIT") by (vm_compute; discriminate).
  split; [reflexivity|]. split; [exact Hq|].
  apply (handle_client_connection_ignores " PLAY:/media/a.jpg " true full_queue
           eq_refl Hq).
  right. right. split; reflexivity.
Defined.

Lemma hand_off_keeps_newest_witness :
  (List.length [1; 2; 3; 4; 5]%nat <= ANALYSIS_QUEUE_SIZE)%nat
  /\ (10 mod frame_skip)%Z = 0%Z
  /\ hand_off 10 6%nat [1; 2; 3; 4; 5]%nat = [2; 3; 4; 5; 6]%nat.
Proof.
  assert (Hlen : (List.length [1; 2; 3; 4; 5]%nat <= ANALYSIS_QUEUE_SIZE)%nat)
    by (vm_compute; lia).
  split; [exact Hlen|]. split; [reflexivity|].
  exact (proj1 (proj2 (hand_off_keeps_newest nat 10 6%nat [1; 2; 3; 4; 5]%nat Hlen))
               eq_refl).
Defined.

Lemma calculate_profit_average_witness :
  (SelectionFloat.sum_of_magnitudes
     (map m_profit_score (eligible kiosk "18-29" "Female" uneven_world)) <= 2 ^ 53)%Z
  /\ snd (runState (SelectionFloat.calculate_profit kiosk "18-29" "Female") uneven_world)
     = uneven_world
  /\ fst (runState (SelectionFloat.calculate_profit kiosk "18-29" "Female") uneven_world)
     = (PyFloat.float_of_int 40 / PyFloat.float_of_int 3)%float.
Proof.
  assert (H : (SelectionFloat.sum_of_magnitudes
                 (map m_profit_score (eligible kiosk "18-29" "Female" uneven_world))
               <= 2 ^ 53)%Z) by (vm_compute; discriminate).
  split; [exact H|].
  exact (calculate_profit_average kiosk "18-29" "Female" uneven_world H).
Defined.

Lemma letterbox_fits_window_witness :
  0 < 1920 /\ 0 < 1080 /\ (0 < 1024)%Z /\ (0 < 768)%Z
  /\ letterbox 1920 1080 1024 768 = (1024%Z, 576%Z)
  /\ blit_offset (letterbox 1920 1080 1024 768) 1024 768 = (0%Z, 96%Z)
  /\ (0 <= fst (letterbox 1920 1080 1024 768) <= 1024)%Z.
Proof.
  assert (H1 : 0 < 1920) by reflexivity.
  assert (H2 : 0 < 1080) by reflexivity.
  assert (H3 : (0 < 1024)%Z) by reflexivity.
  assert (H4 : (0 < 768)%Z) by reflexivity.
  do 4 (split; [assumption|]).
  split; [vm_compute; reflexivity|]. split; [vm_compute; reflexivity|].
  exact (proj1 (letterbox_fits_window 1920 1080 1024 768 H1 H2 H3 H4)).
Defined.

Lemma update_fade_alpha_range_witness :
  stage_start_time image_fading_in <= t_first (at_time 21 2)
  /\ alpha_in_range image_fading_in
  /\ alpha_in_range (fst (update_fade (at_time 21 2) image_fading_in))
  /\ alpha (fst (update_fade (at_time 21 2) image_fading_in)) = 127%Z.
Proof.
  assert (Ht : stage_start_time image_fading_in <= t_first (at_time 21 2))
    by (vm_compute; discriminate).
  assert (Ha : alpha_in_range image_fading_in)
    by (vm_compute; split; discriminate).
  split; [exact Ht|]. split; [exact Ha|].
  split; [|vm_compute; reflexivity].
  exact (proj1 (update_fade_alpha_range (at_time 21 2) image_fading_in Ht Ha)).
Defined.

Lemma frames_alpha_in_range_witness :
  let es := [Command "SHOW_IMAGE:/media/a.jpg" true; Tick (quiet 10 0);
             Tick (at_time 21 2); Tick (quiet 11 0)] in
  times_ordered 0 es
  /\ alpha_in_range (run es initial) /\ frames_in_range (run es initial).
Proof.
  intros es.
  assert (Hord : times_ordered 0 es).
  { simpl. repeat split; vm_compute; discriminate. }
  split; [exact Hord|].
  exact (frames_alpha_in_range es Hord).
Defined.

Lemma alpha_monotone_within_fade_witness :
  t_first (at_time 41 4) <= t_first (at_time 21 2)
  /\ (alpha (fst (update_fade (at_time 41 4) image_fading_in))
      <= alpha (fst (update_fade (at_time 21 2)
                       (fst (update_fade (at_time 41 4) image_fading_in)))))%Z.
Proof.
  assert (Ht : t_first (at_time 41 4) <= t_first (at_time 21 2))
    by (vm_compute; discriminate).
  split; [exact Ht|].
  apply (proj1 (alpha_monotone_within_fade (at_time 41 4) (at_time 21 2)
                  image_fading_in Ht)); vm_compute; reflexivity.
Defined.

Lemma update_fade_starts_front_entry_witness :
  current_stage image_waiting = IDLE
  /\ ad_queue image_waiting = [("/media/a.jpg", "image")]
  /\ known_type ("/media/a.jpg", "image")
  /\ snd (update_fade (quiet 10 0) image_waiting) = true
  /\ ad_queue (fst (update_fade (quiet 10 0) image_waiting)) = [].
Proof.
  assert (Hk : known_type ("/media/a.jpg", "image")) by (left; reflexivity).
  split; [reflexivity|]. split; [reflexivity|]. split; [exact Hk|].
  pose proof (update_fade_starts_front_entry (quiet 10 0) image_waiting
                "/media/a.jpg" "image" [] eq_refl eq_refl Hk) as H.
  cbv zeta in H. destruct H as (H1 & H2 & _). split; assumption.
Defined.

Lemma window_close_releases_capture_witness :
  let es := [Command "SHOW_VIDEO:/media/v.mp4" true; Tick (quiet 10 0);
             Tick (quiet 11 5)] in
  proc (run es initial) = Alive
  /\ pygame_up (run es initial) = true
  /\ (In PgQuit (events_in (window_closed 12 6))
      \/ In (PgKeyDown K_ESCAPE) (events_in (window_closed 12 6)))
  /\ proc (step (run es initial) (Tick (window_closed 12 6))) = Exited
  /\ pygame_up (step (run es initial) (Tick (window_closed 12 6))) = false
  /\ open_players (step (run es initial) (Tick (window_closed 12 6))) = [].
Proof.
  intros es.
  assert (Hq : In PgQuit (events_in (window_closed 12 6))
               \/ In (PgKeyDown K_ESCAPE) (events_in (window_closed 12 6)))
    by (left; left; reflexivity).
  assert (Hp : proc (run es initial) = Alive) by (vm_compute; reflexivity).
  assert (Hu : pygame_up (run es initial) = true) by (vm_compute; reflexivity).
  split; [exact Hp|]. split; [exact Hu|]. split; [exact Hq|].
  exact (window_close_releases_capture es (window_closed 12 6) Hp Hu Hq).
Defined.

Lemma dispatched_command_is_enqueued_witness :
  sent (snd (runState (play_media kiosk one_minute one_half kiosk_dir kiosk_dir
                         every_path_exists "18-29" "Female" "happy") stored_inside))
  = (sent stored_inside ++ ["SHOW_IMAGE:/opt/kiosk/media/ad.jpg"])%list
  /\ exists (row : MediaRow) (path media_type : string),
       In row (eligible kiosk "18-29" "Female" stored_inside)
       /\ path = PosixPath.abspath kiosk_dir
                   (PosixPath.join (media_dir kiosk_dir) (m_file_path row))
       /\ every_path_exists path = true
       /\ ((is_image_type (m_media_type row) = true /\ media_type = "image")
           \/ (is_video_type (m_media_type row) = true /\ media_type = "video"))
       /\ (PyText.isascii path = true ->
           contains ":" path = false ->
           strip path = path ->
           (List.length (ad_queue initial) < MAX_QUEUE_SIZE)%nat ->
           ad_queue (handle_client_connection "SHOW_IMAGE:/opt/kiosk/media/ad.jpg"
                       true initial)
           = (ad_queue initial ++ [(path, media_type)])%list).
Proof.
  assert (Hs : sent (snd (runState (play_media kiosk one_minute one_half kiosk_dir
                                      kiosk_dir every_path_exists
                                      "18-29" "Female" "happy") stored_inside))
               = (sent stored_inside ++ ["SHOW_IMAGE:/opt/kiosk/media/ad.jpg"])%list)
    by (vm_compute; reflexivity).
  split; [exact Hs|].
  exact (dispatched_command_is_enqueued kiosk one_minute one_half kiosk_dir kiosk_dir
           every_path_exists "18-29" "Female" "happy" stored_inside
           "SHOW_IMAGE:/opt/kiosk/media/ad.jpg" initial Hs).
Defined.

Lemma stage_left_exactly_on_guard_witness :
  current_stage image_fading_in = FADING_IN
  /\ (current_stage (fst (update_fade (quiet 11 0) image_fading_in)) = HOLDING
      <-> FADE_IN_DURATION <= t_first (quiet 11 0) - stage_start_time image_fading_in).
Proof.
  assert (Hst : current_stage image_fading_in = FADING_IN) by (vm_compute; reflexivity).
  split; [exact Hst|].
  exact (proj1 (stage_left_exactly_on_guard (quiet 11 0) image_fading_in) Hst).
Defined.

Lemma idle_has_no_open_capture_witness :
  current_stage (run video_played initial) = IDLE
  /\ open_players (run video_played initial) = [].
Proof.
  assert (Hst : current_stage (run video_played initial) = IDLE)
    by (vm_compute; reflexivity).
  split; [exact Hst|].
  exact (idle_has_no_open_capture video_played Hst).
Defined.

Lemma saved_frames_ten_minutes_apart_witness :
  (forall k : nat, (every_400_seconds k <= every_400_seconds (S k))%Z)
  /\ Frames.spaced
       (Frames.saved_frames
          (Frames.save_all every_400_seconds ["p1"; "p2"; "p1"; "p1"] Frames.empty_store)).
Proof.
  assert (Hm : forall k : nat, (every_400_seconds k <= every_400_seconds (S k))%Z)
    by (intros k; unfold every_400_seconds; lia).
  split; [exact Hm|].
  exact (saved_frames_ten_minutes_apart every_400_seconds Hm ["p1"; "p2"; "p1"; "p1"]).
Defined.

End MoreInstances.

(** * Properties of the rounded draw and of the handler threads *)

(** ** The draw in binary64 *)

Section FloatDrawFacts.

Import PyFloat Selection.

Local Open Scope float_scope.

Variable device_id : string.
Variable clock : nat -> Z.
Variable random : nat -> float.
Variable builtin_sum : list float -> float.

Local Abbreviation weighted_draw := (SelectionFloat.weighted_draw random builtin_sum).
Local Abbreviation drawn := (SelectionFloat.drawn random builtin_sum).

(** The sum the scan holds after [k] entries, counted from [upto]. *)
Local Abbreviation summed upto l k :=
  (fold_left add (map SelectionFloat.score (firstn k l)) upto).

Lemma scan_stops_first (r : float) : forall l upto info,
  SelectionFloat.scan r upto l = Some info ->
  exists (i : nat) (item : SelectionFloat.Item),
    nth_error l i = Some item /\ info = SelectionFloat.ad_info_of item
    /\ (r <=? summed upto l (S i)) = true
    /\ forall j : nat, (j < i)%nat -> (r <=? summed upto l (S j)) = false.
Proof.
  induction l as [|x rest IH]; intros upto info H; cbn [SelectionFloat.scan] in H;
    [discriminate|].
  destruct (r <=? upto + SelectionFloat.score x) eqn:E.
  - exists 0%nat, x. repeat split.
    + congruence.
    + exact E.
    + intros j Hj. lia.
  - destruct (IH _ _ H) as (i & it & Hnth & Hinfo & Hle & Hlt).
    exists (S i), it. repeat split; auto.
    intros [|j] Hj; [exact E|].
    apply (Hlt j). lia.
Qed.

Lemma scan_passes_all (r : float) : forall l upto,
  SelectionFloat.scan r upto l = None ->
  forall i : nat, (i < List.length l)%nat -> (r <=? summed upto l (S i)) = false.
Proof.
  induction l as [|x rest IH]; intros upto H i Hi; [simpl in Hi; lia|].
  cbn [SelectionFloat.scan] in H.
  destruct (r <=? upto + SelectionFloat.score x) eqn:E; [discriminate|].
  destruct i as [|k]; [exact E|].
  apply (IH _ H k). simpl in Hi. lia.
Qed.

Lemma weighted_draw_float_run wl w :
  runState (weighted_draw wl) w =
  (SelectionFloat.scan (drawn wl w) (float_of_int 0) wl,
   {| media := media w; ad_displays := ad_displays w;
      clock_reads := clock_reads w; rng_draws := S (rng_draws w);
      sent := sent w |}).
Proof. reflexivity. Qed.

(** X27. In the arithmetic of the code, whatever the scores, the builtin
    [sum] and the random generator: the draw reads the generator once and
    changes nothing else; with [r] the value of [random.uniform(0, total)],
    it returns the first entry, in list order, whose running sum
    [upto + score] is at least [r], and it returns [None] exactly when no
    running sum reaches [r]. *)
Theorem weighted_draw_single_scan :
  forall (wl : list SelectionFloat.Item) (w : World),
    let r := drawn wl w in
    snd (runState (weighted_draw wl) w)
    = {| media := media w; ad_displays := ad_displays w;
         clock_reads := clock_reads w; rng_draws := S (rng_draws w);
         sent := sent w |}
    /\ match fst (runState (weighted_draw wl) w) with
       | Some info =>
           exists (i : nat) (item : SelectionFloat.Item),
             nth_error wl i = Some item
             /\ info = SelectionFloat.ad_info_of item
             /\ (r <=? SelectionFloat.running_sum wl i) = true
             /\ forall j : nat,
                  (j < i)%nat -> (r <=? SelectionFloat.running_sum wl j) = false
       | None =>
           forall i : nat,
             (i < List.length wl)%nat ->
             (r <=? SelectionFloat.running_sum wl i) = false
       end.
Proof.
  intros wl w r. rewrite weighted_draw_float_run. cbn [fst snd].
  split; [reflexivity|]. fold r.
  destruct (SelectionFloat.scan r (float_of_int 0) wl) as [info|] eqn:Hscan.
  - exact (scan_stops_first r wl _ info Hscan).
  - exact (scan_passes_all r wl _ Hscan).
Qed.

End FloatDrawFacts.

Section FloatInstances.

Import PyFloat Selection Display Examples EdgeCases.

Local Open Scope string_scope.

(** The scoring loop gives the four assets in rotation the scores of
    [four_scored]. *)
Lemma four_in_rotation_scores :
  map SelectionFloat.score
      (fst (runState (SelectionFloat.score_all afternoon "night" "happy"
                        (media four_in_rotation))
                     four_in_rotation))
  = map SelectionFloat.score four_scored.
Proof. vm_compute. reflexivity. Qed.

(** C2, at the input where the code leaves it. Four scored candidates with
    the scores next to 9.7, 22.6, 8.3 and 17.8, the compensated [sum] of
    CPython 3.12 and the greatest value of [random.random()]: the total [T]
    is the float above 58.4 and [r] is the float next to 58.4, below [T];
    the running sums of the scan are added from the left and end one float
    below 58.4, so no running sum reaches [r]; the draw has read the
    generator once and returns no candidate. *)
Theorem weighted_draw_passes_every_candidate :
  let T := sum_compensated (map SelectionFloat.score four_scored) in
  let r := SelectionFloat.drawn greatest_random sum_compensated four_scored
                                four_in_rotation in
  T = 0x1.d333333333334p+5%float
  /\ r = 0x1.d333333333333p+5%float
  /\ (r <? T)%float = true
  /\ SelectionFloat.running_sum four_scored 3 = 0x1.d333333333332p+5%float
  /\ (forall i : nat,
        (i < 4)%nat ->
        (r <=? SelectionFloat.running_sum four_scored i)%float = false)
  /\ runState (SelectionFloat.weighted_draw greatest_random sum_compensated four_scored)
              four_in_rotation
     = (None,
        {| media := media four_in_rotation;
           ad_displays := ad_displays four_in_rotation;
           clock_reads := 0; rng_draws := 1; sent := [] |}).
Proof.
  cbv zeta.
  split; [vm_compute; reflexivity|].
  split; [vm_compute; reflexivity|].
  split; [vm_compute; reflexivity|].
  split; [vm_compute; reflexivity|].
  split.
  - intros i Hi.
    destruct i as [|[|[|[|i]]]]; [vm_compute; reflexivity .. | lia].
  - vm_compute. reflexivity.
Qed.

(** C10, at the input where the code leaves it. The catalog holds four
    assets for the event, of profit scores 5, 20, 5 and 10, last shown 52,
    31, 38 and 83 minutes ago; every final score is at least 1.0. With the
    compensated [sum] of CPython 3.12 and the greatest value of
    [random.random()], [pick_weighted_media] reaches the [return None]
    behind the loop. With the sum from the left of the earlier
    interpreters it returns the last candidate. *)
Theorem pick_weighted_media_falls_through :
  eligible kiosk "18-29" "Female" four_in_rotation = media four_in_rotation
  /\ List.length (media four_in_rotation) = 4%nat
  /\ forallb (fun item => (1 <=? SelectionFloat.score item)%float)
             (fst (runState (SelectionFloat.score_all afternoon "night" "happy"
                               (media four_in_rotation))
                            four_in_rotation)) = true
  /\ fst (runState (SelectionFloat.pick_weighted_media
                      kiosk afternoon greatest_random sum_compensated
                      "18-29" "Female" "happy")
                   four_in_rotation) = None
  /\ fst (runState (SelectionFloat.pick_weighted_media
                      kiosk afternoon greatest_random sum_left_to_right
                      "18-29" "Female" "happy")
                   four_in_rotation)
     = Some (4%Z, "acme", "d.jpg", "image/jpg").
Proof.
  split; [vm_compute; reflexivity|].
  split; [reflexivity|].
  split; [vm_compute; reflexivity|].
  split; vm_compute; reflexivity.
Qed.

(** At the end of the range of exact sums, with both bonuses, the floats of
    the code and the exact arithmetic give the same final scores, [2^53 - 5]
    for the asset shown one minute ago and [2^53] for the asset never
    shown. *)
Lemma cool_down_exact_at_range_end :
  SelectionFloat.final_score_in one_minute "night" "happy" (targeted 1 range_end)
                                range_end_world
  = float_of_int (2 ^ 53 - 5)
  /\ SelectionFloat.final_score_in one_minute "night" "happy" (targeted 2 range_end)
                                   range_end_world
     = float_of_int (2 ^ 53)
  /\ (float_of_int (2 ^ 53 - 5) <? float_of_int (2 ^ 53))%float = true
  /\ Selection.final_score_in one_minute "night" "happy" (targeted 1 range_end)
                              range_end_world
     == inject_Z (2 ^ 53 - 5)
  /\ Selection.final_score_in one_minute "night" "happy" (targeted 2 range_end)
                              range_end_world
     == inject_Z (2 ^ 53).
Proof.
  split; [vm_compute; reflexivity|].
  split; [vm_compute; reflexivity|].
  split; [vm_compute; reflexivity|].
  split; vm_compute; reflexivity.
Qed.

(** The quotient of two integers is the float that the division of floats
    gives when both integers are floats themselves. *)
Lemma int_truediv_samples :
  int_truediv 3120000000 1000000 = 3120%float
  /\ int_truediv 1 3 = (1 / 3)%float
  /\ int_truediv 299999999 1000000 = (299999999 / 1000000)%float
  /\ int_truediv (-7) 1000000 = (-7 / 1000000)%float
  /\ int_truediv 0 1000000 = 0%float.
Proof. repeat split; vm_compute; reflexivity. Qed.

(** From a profit score of [2^57] on, the subtraction of 5 is lost in
    rounding: the asset shown one minute ago and the asset never shown get
    the same final score, far above the floor of 1.0. *)
Lemma cool_down_absorbed :
  SelectionFloat.final_score_in one_minute "night" "happy" (row 1 (2 ^ 57) "a.jpg")
                                absorbing_world
  = SelectionFloat.final_score_in one_minute "night" "happy" (row 2 (2 ^ 57) "b.jpg")
                                  absorbing_world
  /\ last_display_in absorbing_world 1 = Some 0%Z
  /\ last_display_in absorbing_world 2 = None
  /\ (1 <? SelectionFloat.final_score_in one_minute "night" "happy"
                                          (row 2 (2 ^ 57) "b.jpg") absorbing_world)%float
     = true.
Proof.
  split; [vm_compute; reflexivity|].
  split; [reflexivity|].
  split; [reflexivity|].
  vm_compute. reflexivity.
Qed.

End FloatInstances.

(** ** Handlers that run at the same time *)

Section HandlerFacts.

Import PyStr Display Handlers Examples EdgeCases.

Local Open Scope string_scope.

(** A handler that takes its two turns in a row does what
    [handle_client_connection] does. *)
Lemma advance_twice (raw : string) (is_file : bool) (s : Display) :
  let (h, s1) := advance (Started raw is_file) s in
  advance h s1 = (Returned, handle_client_connection raw is_file s).
Proof.
  unfold advance, handle_client_connection.
  destruct (negb (truthy (strip raw))); [reflexivity|].
  destruct (startswith "SHOW_IMAGE:" (strip raw) || startswith "SHOW_VIDEO:" (strip raw)).
  - destruct is_file; [|reflexivity].
    destruct (List.length (ad_queue s) <? MAX_QUEUE_SIZE)%nat; reflexivity.
  - destruct (String.eqb (strip raw) "QUIT"); reflexivity.
Qed.

(** C6, at the input where the code leaves it. The queue holds four
    entries and two connections arrive, each with a command that shows an
    existing file. When one handler returns before the other starts, the
    first entry is appended and the second rejected: the queue holds five.
    When both handlers test the length before either appends, both see
    four and both append: the queue holds six entries, one more than
    [MAX_QUEUE_SIZE]. *)
Theorem ad_queue_exceeds_capacity :
  List.length (ad_queue (display two_connections)) = 4%nat
  /\ List.length (ad_queue (display (run_schedule [0; 0; 1; 1]%nat two_connections)))
     = 5%nat
  /\ handlers (run_schedule [0; 1]%nat two_connections)
     = [Tested ("/media/e.jpg", "image"); Tested ("/media/f.jpg", "image")]
  /\ ad_queue (display (run_schedule [0; 1; 0; 1]%nat two_connections))
     = (ad_queue (display two_connections)
        ++ [("/media/e.jpg", "image"); ("/media/f.jpg", "image")])%list
  /\ List.length (ad_queue (display (run_schedule [0; 1; 0; 1]%nat two_connections)))
     = 6%nat
  /\ (MAX_QUEUE_SIZE < 6)%nat.
Proof.
  split; [vm_compute; reflexivity|].
  split; [vm_compute; reflexivity|].
  split; [vm_compute; reflexivity|].
  split; [vm_compute; reflexivity|].
  split; [vm_compute; reflexivity|].
  unfold MAX_QUEUE_SIZE. lia.
Qed.

End HandlerFacts.
